(** * GitHub-to-Discord relay: the event-to-message synchronisation core

    A shallow embedding of
      - persistence/data_persistence.py  (class DataPersistence),
      - bot/discord_bot.py               (DiscordBot.send_or_edit),
      - handlers/github_handlers.py      (class GitHubHandlers),
      - flask_app/webhook.py             (the exception boundary of the route),
    followed by the properties of the specification, each settled against
    these definitions.

    Conventions of the embedding.
      - Python objects are the JSON-shaped values of [value]; numbers are
        integers (floats are not modelled) and a Rocq character stands for
        the code point of the same number (strings over code points 0..255).
      - A Python dict is an association list in insertion order with the
        dict operations written out ([get], [dict_set]).
      - Mutable state, raised exceptions, the log, the work submitted to the
        bot's event loop and the calls to the renderer and to the Discord
        client are explicit: a computation is a function from [state] to a
        result and a new state.
      - What lies outside the core answers through an oracle: the Discord
        client and the renderer through a [world], the disk through the
        list of outcomes of the coming writes. *)

From Stdlib Require Import ZArith List Ascii String Lia.
From stdpp Require Import base tactics option list strings pretty.
Import ListNotations.
Local Open Scope string_scope.
Local Open Scope list_scope.

(* ===================================================================== *)
(** ** Python values *)
(* ===================================================================== *)

Module Py.

#[warnings="-register-all"]
Inductive value : Type :=
| PyNone
| PyBool (b : bool)
| PyInt (z : Z)
| PyStr (s : string)
| PyList (l : list value)
| PyDict (d : list (string * value)).

(** The empty dict literal [{}]. *)
Definition empty_dict : value := PyDict [].

Inductive exn : Type :=
| AttributeError          (* [.get] on an object that is not a dict *)
| TypeError               (* iterating an object that is not iterable *)
| FileNotFoundError
| JSONDecodeError
| OSError                 (* a failed write *)
| NotFound                (* discord.NotFound, a subclass of HTTPException *)
| HTTPException           (* any other discord.HTTPException *)
| RuntimeError.           (* any exception that is not an HTTPException *)

(** [isinstance(e, discord.HTTPException)]. *)
Definition is_HTTPException (e : exn) : bool :=
  match e with NotFound | HTTPException => true | _ => false end.

(** The text put where the code formats an exception into a log line.
    Python's [str(e)] is the message the exception carries, which [exn] does
    not record: the name of the class stands in its place.  A property of a
    log line that ends in such a text leaves the text open. *)
Definition exn_str (e : exn) : string :=
  match e with
  | AttributeError => "AttributeError"
  | TypeError => "TypeError"
  | FileNotFoundError => "FileNotFoundError"
  | JSONDecodeError => "JSONDecodeError"
  | OSError => "OSError"
  | NotFound => "NotFound"
  | HTTPException => "HTTPException"
  | RuntimeError => "RuntimeError"
  end.

Inductive result (A : Type) : Type :=
| Ok (a : A)
| Raise (e : exn).
Arguments Ok {A} a.
Arguments Raise {A} e.

(** *** Truth value, equality with a string, [str()] *)

(** [bool(v)]. *)
Definition truthy (v : value) : bool :=
  match v with
  | PyNone => false
  | PyBool b => b
  | PyInt z => negb (Z.eqb z 0)
  | PyStr s => negb (String.eqb s "")
  | PyList l => match l with [] => false | _ => true end
  | PyDict d => match d with [] => false | _ => true end
  end.

(** [v == s] for a string literal [s]. *)
Definition eq_str (v : value) (s : string) : bool :=
  match v with PyStr t => String.eqb t s | _ => false end.

Definition hex_digit (n : N) : ascii :=
  match n with
  | 0 => "0" | 1 => "1" | 2 => "2" | 3 => "3" | 4 => "4" | 5 => "5"
  | 6 => "6" | 7 => "7" | 8 => "8" | 9 => "9" | 10 => "a" | 11 => "b"
  | 12 => "c" | 13 => "d" | 14 => "e" | _ => "f"
  end%N%char.

(** The two lower-case hexadecimal digits of a code point below 256. *)
Definition hex2 (c : ascii) : string :=
  let n := N_of_ascii c in
  String (hex_digit (n / 16)) (String (hex_digit (n mod 16)) "").

(** [str.isprintable] on one code point below 256: the controls, DEL,
    0x80..0xa0 and the soft hyphen 0xad are not printable. *)
Definition printable (c : ascii) : bool :=
  let n := N_of_ascii c in
  ((32 <=? n) && (n <? 127) || (161 <=? n) && negb (n =? 173))%N.

Fixpoint contains (c : ascii) (s : string) : bool :=
  match s with
  | EmptyString => false
  | String a r => if Ascii.eqb a c then true else contains c r
  end.

Definition repr_char (quote c : ascii) : string :=
  if Ascii.eqb c quote || Ascii.eqb c "\"%char then String "\"%char (String c "")
  else if Ascii.eqb c "009"%char then "\t"
  else if Ascii.eqb c "010"%char then "\n"
  else if Ascii.eqb c "013"%char then "\r"
  else if printable c then String c ""
  else "\x" +:+ hex2 c.

Fixpoint repr_chars (quote : ascii) (s : string) : string :=
  match s with
  | EmptyString => ""
  | String c r => repr_char quote c +:+ repr_chars quote r
  end.

(** [repr(s)] of a string: single quotes, unless the string has a single
    quote and no double quote. *)
Definition repr_str (s : string) : string :=
  let quote := if contains "'"%char s && negb (contains "034"%char s)
               then "034"%char else "'"%char in
  String quote (repr_chars quote s +:+ String quote "").

Fixpoint repr (v : value) : string :=
  match v with
  | PyNone => "None"
  | PyBool true => "True"
  | PyBool false => "False"
  | PyInt z => pretty z
  | PyStr s => repr_str s
  | PyList l => "[" +:+ String.concat ", " (List.map repr l) +:+ "]"
  | PyDict d =>
      "{" +:+ String.concat ", "
                (List.map (fun kv => match kv with
                                     | (k, x) => repr_str k +:+ ": " +:+ repr x
                                     end) d) +:+ "}"
  end.

(** [str(v)], which is also what an f-string field [{v}] prints. *)
Definition str (v : value) : string :=
  match v with PyStr s => s | _ => repr v end.

(** *** Dicts *)

Fixpoint dict_lookup (k : string) (d : list (string * value)) : option value :=
  match d with
  | [] => None
  | (k', x) :: r => if String.eqb k' k then Some x else dict_lookup k r
  end.

(** [d[k] = x]: the entry is replaced where it stands, a new key goes last. *)
Fixpoint dict_set (k : string) (x : value) (d : list (string * value))
  : list (string * value) :=
  match d with
  | [] => [(k, x)]
  | (k', y) :: r =>
      if String.eqb k' k then (k', x) :: r else (k', y) :: dict_set k x r
  end.

(** [o.get(k, default)]: only a dict has the method. *)
Definition get (o : value) (k : string) (dflt : value) : result value :=
  match o with
  | PyDict d => Ok (default dflt (dict_lookup k d))
  | _ => Raise AttributeError
  end.

(** [for x in o]: the elements of a list, the keys of a dict, the characters
    of a string; anything else is not iterable. *)
Definition iter (o : value) : result (list value) :=
  match o with
  | PyList l => Ok l
  | PyDict d => Ok (List.map (fun kv => PyStr (fst kv)) d)
  | PyStr s => Ok (List.map (fun c => PyStr (String c "")) (list_ascii_of_string s))
  | _ => Raise TypeError
  end.

(** [s.split(':')[0]]: the part of [s] before its first colon. *)
Fixpoint split_head (s : string) : string :=
  match s with
  | EmptyString => ""
  | String c r => if Ascii.eqb c ":"%char then "" else String c (split_head r)
  end.

End Py.
Export Py.

(* ===================================================================== *)
(** ** The JSON text of a value: [json.dump(obj, f, indent=2)], [json.load] *)
(* ===================================================================== *)

Module Json.

Definition dquote : ascii := "034"%char.
Definition backslash : ascii := "\"%char.
Definition newline : ascii := "010"%char.

(** [s] followed by [rest]. *)
Fixpoint pre (s rest : string) : string :=
  match s with
  | EmptyString => rest
  | String c r => String c (pre r rest)
  end.

(** [ESCAPE_ASCII]: the quote, the backslash and every code point outside
    space..tilde are escaped, the short escapes of [ESCAPE_DCT] first. *)
Definition escape_char (c : ascii) : string :=
  if Ascii.eqb c dquote then String backslash (String dquote "")
  else if Ascii.eqb c backslash then String backslash (String backslash "")
  else if Ascii.eqb c "008"%char then String backslash "b"
  else if Ascii.eqb c "012"%char then String backslash "f"
  else if Ascii.eqb c "010"%char then String backslash "n"
  else if Ascii.eqb c "013"%char then String backslash "r"
  else if Ascii.eqb c "009"%char then String backslash "t"
  else if ((32 <=? N_of_ascii c) && (N_of_ascii c <? 127))%N then String c ""
  else String backslash ("u00" +:+ hex2 c).

Fixpoint escape (s rest : string) : string :=
  match s with
  | EmptyString => rest
  | String c r => pre (escape_char c) (escape r rest)
  end.

(** [encode_basestring_ascii]. *)
Definition dump_str (s rest : string) : string :=
  String dquote (escape s (String dquote rest)).

Fixpoint spaces (n : nat) (rest : string) : string :=
  match n with
  | O => rest
  | S m => String " "%char (spaces m rest)
  end.

(** A line break and the indentation of nesting depth [lvl]. *)
Definition newline_indent (lvl : nat) (rest : string) : string :=
  String newline (spaces (2 * lvl) rest).

(** The text of [v] at nesting depth [lvl], followed by [rest]. *)
Fixpoint dump (lvl : nat) (v : value) (rest : string) : string :=
  match v with
  | PyNone => pre "null" rest
  | PyBool true => pre "true" rest
  | PyBool false => pre "false" rest
  | PyInt z => pre (pretty z) rest
  | PyStr s => dump_str s rest
  | PyList l =>
      match l with
      | [] => pre "[]" rest
      | x :: l' =>
          String "["%char (newline_indent (S lvl) (dump (S lvl) x
            ((fix items (l : list value) : string :=
                match l with
                | [] => newline_indent lvl (String "]"%char rest)
                | y :: l'' =>
                    String ","%char
                      (newline_indent (S lvl) (dump (S lvl) y (items l'')))
                end) l')))
      end
  | PyDict d =>
      match d with
      | [] => pre "{}" rest
      | (k, x) :: d' =>
          String "{"%char (newline_indent (S lvl) (dump_str k (pre ": "
            (dump (S lvl) x
              ((fix members (d : list (string * value)) : string :=
                  match d with
                  | [] => newline_indent lvl (String "}"%char rest)
                  | (k', y) :: d'' =>
                      String ","%char
                        (newline_indent (S lvl) (dump_str k' (pre ": "
                           (dump (S lvl) y (members d'')))))
                  end) d')))))
      end
  end.

Definition dumps (v : value) : string := dump 0 v "".

(** *** Reading *)

Definition is_ws (c : ascii) : bool :=
  Ascii.eqb c " "%char || Ascii.eqb c "009"%char
  || Ascii.eqb c "010"%char || Ascii.eqb c "013"%char.

Fixpoint skip_ws (s : string) : string :=
  match s with
  | EmptyString => ""
  | String c r => if is_ws c then skip_ws r else s
  end.

Definition digit_val (c : ascii) : option N :=
  let n := N_of_ascii c in
  if ((48 <=? n) && (n <=? 57))%N then Some (n - 48)%N else None.

Definition hex_val (c : ascii) : option N :=
  let n := N_of_ascii c in
  if ((48 <=? n) && (n <=? 57))%N then Some (n - 48)%N
  else if ((97 <=? n) && (n <=? 102))%N then Some (n - 87)%N
  else if ((65 <=? n) && (n <=? 70))%N then Some (n - 55)%N
  else None.

(** The digits at the head of [s], read onto [acc]. *)
Fixpoint read_digits (acc : N) (s : string) : N * string :=
  match s with
  | EmptyString => (acc, "")
  | String c r =>
      match digit_val c with
      | Some d => read_digits (10 * acc + d)%N r
      | None => (acc, s)
      end
  end.

(** What may not follow an integer: a fraction or an exponent would make
    the number a float. *)
Definition float_tail (s : string) : bool :=
  match s with
  | String c _ => Ascii.eqb c "."%char || Ascii.eqb c "e"%char || Ascii.eqb c "E"%char
  | EmptyString => false
  end.

(** The number [0 | [1-9][0-9]*] at the head of [s]. *)
Definition read_nat (s : string) : option (N * string) :=
  match s with
  | String c r =>
      match digit_val c with
      | Some 0%N => if float_tail r then None else Some (0%N, r)
      | Some d =>
          let '(n, r') := read_digits d r in
          if float_tail r' then None else Some (n, r')
      | None => None
      end
  | EmptyString => None
  end.

Definition unescape (c : ascii) : option ascii :=
  if Ascii.eqb c dquote then Some dquote
  else if Ascii.eqb c backslash then Some backslash
  else if Ascii.eqb c "/"%char then Some "/"%char
  else if Ascii.eqb c "b"%char then Some "008"%char
  else if Ascii.eqb c "f"%char then Some "012"%char
  else if Ascii.eqb c "n"%char then Some "010"%char
  else if Ascii.eqb c "r"%char then Some "013"%char
  else if Ascii.eqb c "t"%char then Some "009"%char
  else None.

(** The code point of four hexadecimal digits, when it is below 256. *)
Definition read_hex4 (a b c d : ascii) : option ascii :=
  match hex_val a, hex_val b, hex_val c, hex_val d with
  | Some 0%N, Some 0%N, Some h, Some l => Some (ascii_of_N (16 * h + l))
  | _, _, _, _ => None
  end.

(** The characters of a string literal up to its closing quote. *)
Fixpoint read_chars (s : string) : option (string * string) :=
  match s with
  | EmptyString => None
  | String c r =>
      if Ascii.eqb c dquote then Some ("", r)
      else if Ascii.eqb c backslash then
        match r with
        | String e r' =>
            if Ascii.eqb e "u"%char then
              match r' with
              | String h1 (String h2 (String h3 (String h4 r''))) =>
                  match read_hex4 h1 h2 h3 h4, read_chars r'' with
                  | Some x, Some (t, rest) => Some (String x t, rest)
                  | _, _ => None
                  end
              | _ => None
              end
            else
              match unescape e, read_chars r' with
              | Some x, Some (t, rest) => Some (String x t, rest)
              | _, _ => None
              end
        | EmptyString => None
        end
      else if (N_of_ascii c <? 32)%N then None
      else
        match read_chars r with
        | Some (t, rest) => Some (String c t, rest)
        | None => None
        end
  end.

(** What follows the literal [lit] at the head of [s]. *)
Fixpoint expect (lit : string) (s : string) : option string :=
  match lit with
  | EmptyString => Some s
  | String c lit' =>
      match s with
      | String c' s' => if Ascii.eqb c c' then expect lit' s' else None
      | EmptyString => None
      end
  end.

(** One value at the head of [s]; [members] and [items] read what follows
    the opening bracket of a non-empty object or array. *)
Fixpoint load (fuel : nat) (s : string) : option (value * string) :=
  match fuel with
  | O => None
  | S fuel =>
      match s with
      | EmptyString => None
      | String c r =>
          if Ascii.eqb c dquote then
            match read_chars r with
            | Some (t, rest) => Some (PyStr t, rest)
            | None => None
            end
          else if Ascii.eqb c "{"%char then
            match skip_ws r with
            | String c' r' =>
                if Ascii.eqb c' "}"%char then Some (PyDict [], r')
                else match members fuel (String c' r') with
                     | Some (d, rest) => Some (PyDict d, rest)
                     | None => None
                     end
            | EmptyString => None
            end
          else if Ascii.eqb c "["%char then
            match skip_ws r with
            | String c' r' =>
                if Ascii.eqb c' "]"%char then Some (PyList [], r')
                else match items fuel (String c' r') with
                     | Some (l, rest) => Some (PyList l, rest)
                     | None => None
                     end
            | EmptyString => None
            end
          else if Ascii.eqb c "n"%char then
            match expect "ull" r with
            | Some rest => Some (PyNone, rest) | None => None end
          else if Ascii.eqb c "t"%char then
            match expect "rue" r with
            | Some rest => Some (PyBool true, rest) | None => None end
          else if Ascii.eqb c "f"%char then
            match expect "alse" r with
            | Some rest => Some (PyBool false, rest) | None => None end
          else if Ascii.eqb c "-"%char then
            match read_nat r with
            | Some (n, rest) => Some (PyInt (- Z.of_N n), rest)
            | None => None
            end
          else
            match read_nat s with
            | Some (n, rest) => Some (PyInt (Z.of_N n), rest)
            | None => None
            end
      end
  end
with members (fuel : nat) (s : string) : option (list (string * value) * string) :=
  match fuel with
  | O => None
  | S fuel =>
      match s with
      | String c r =>
          if Ascii.eqb c dquote then
            match read_chars r with
            | Some (k, r1) =>
                match skip_ws r1 with
                | String c1 r2 =>
                    if Ascii.eqb c1 ":"%char then
                      match load fuel (skip_ws r2) with
                      | Some (x, r3) =>
                          match skip_ws r3 with
                          | String c3 r4 =>
                              if Ascii.eqb c3 "}"%char then Some ([(k, x)], r4)
                              else if Ascii.eqb c3 ","%char then
                                match members fuel (skip_ws r4) with
                                | Some (d, rest) => Some ((k, x) :: d, rest)
                                | None => None
                                end
                              else None
                          | EmptyString => None
                          end
                      | None => None
                      end
                    else None
                | EmptyString => None
                end
            | None => None
            end
          else None
      | EmptyString => None
      end
  end
with items (fuel : nat) (s : string) : option (list value * string) :=
  match fuel with
  | O => None
  | S fuel =>
      match load fuel s with
      | Some (x, r1) =>
          match skip_ws r1 with
          | String c r2 =>
              if Ascii.eqb c "]"%char then Some ([x], r2)
              else if Ascii.eqb c ","%char then
                match items fuel (skip_ws r2) with
                | Some (l, rest) => Some (x :: l, rest)
                | None => None
                end
              else None
          | EmptyString => None
          end
      | None => None
      end
  end.

(** [json.loads]: one value between optional white space, then the end of
    the text.  A text that is not JSON, or that holds a float or a code
    point above 255, has no value here.  A repeated key is kept as read;
    [dumps] never writes one. *)
Definition loads (s : string) : option value :=
  match load (S (String.length s)) (skip_ws s) with
  | Some (v, rest) =>
      match skip_ws rest with
      | EmptyString => Some v
      | _ => None
      end
  | None => None
  end.

End Json.

(* ===================================================================== *)
(** ** State, effects and the computation monad *)
(* ===================================================================== *)

Inductive level : Type := DEBUG | INFO | WARNING | ERROR.

(** A channel object of the client, known by its name, and a rendered
    embed; both are opaque to the core. *)
Definition channel : Type := string.
Definition embed : Type := string.

(** The calls that leave the core, in the order they are made. *)
Inductive call : Type :=
| BuildEmbed (key : string) (data : value) (handler_name : option string)
| GetChannel (channel_id : value)
| FetchMessage (ch : channel) (message_id : value)
| EditMessage (ch : channel) (message_id : value) (e : embed)
| Send (ch : channel) (e : embed).

(** What one [open(file_path, "w")] and [json.dump] will do: write the whole
    document, or raise and leave [left_on_disk] behind. *)
Inductive write_outcome : Type :=
| Written
| WriteFails (left_on_disk : option string).

Record state : Type := mkState {
  file_path : string;                         (* DataPersistence.file_path *)
  DATA_STORE : list (string * value);         (* DataPersistence.DATA_STORE *)
  MESSAGE_MAP : list (string * value);        (* DataPersistence.MESSAGE_MAP *)
  file : option string;                       (* the text at [file_path] *)
  disk : list write_outcome;                  (* outcomes of the coming writes *)
  log : list (level * string);                (* the [logging] records *)
  loop : list (string * option string);       (* coroutines handed to bot.loop *)
  calls : list call                           (* calls made so far *)
}.

Definition set_DATA_STORE (d : list (string * value)) (st : state) : state :=
  mkState (file_path st) d (MESSAGE_MAP st) (file st) (disk st) (log st)
          (loop st) (calls st).
Definition set_MESSAGE_MAP (m : list (string * value)) (st : state) : state :=
  mkState (file_path st) (DATA_STORE st) m (file st) (disk st) (log st)
          (loop st) (calls st).
Definition set_file (f : option string) (d : list write_outcome) (st : state)
  : state :=
  mkState (file_path st) (DATA_STORE st) (MESSAGE_MAP st) f d (log st)
          (loop st) (calls st).
Definition set_log (l : list (level * string)) (st : state) : state :=
  mkState (file_path st) (DATA_STORE st) (MESSAGE_MAP st) (file st) (disk st) l
          (loop st) (calls st).
Definition set_loop (q : list (string * option string)) (st : state) : state :=
  mkState (file_path st) (DATA_STORE st) (MESSAGE_MAP st) (file st) (disk st)
          (log st) q (calls st).
Definition set_calls (c : list call) (st : state) : state :=
  mkState (file_path st) (DATA_STORE st) (MESSAGE_MAP st) (file st) (disk st)
          (log st) (loop st) c.

(** [DataPersistence.__init__]: two empty dicts; around them a file system
    holding [f], a disk that will answer [d], and nothing logged, submitted
    or called yet. *)
Definition init (path : string) (f : option string) (d : list write_outcome)
  : state :=
  mkState path [] [] f d [] [] [].

(** A computation: it may change the state and ends in a value or in a raised
    exception; what it changed before raising stays changed. *)
Definition M (A : Type) : Type := state -> result A * state.

Definition ret {A} (a : A) : M A := fun st => (Ok a, st).

Definition bind {A B} (m : M A) (k : A -> M B) : M B :=
  fun st =>
    match m st with
    | (Ok a, st') => k a st'
    | (Raise e, st') => (Raise e, st')
    end.

Definition raise {A} (e : exn) : M A := fun st => (Raise e, st).

Definition lift {A} (r : result A) : M A := fun st => (r, st).

(** [try: m except ...]: [handler e] is the body of the first clause that
    matches [e], if one does. *)
Definition try_except {A} (m : M A) (handler : exn -> option (M A)) : M A :=
  fun st =>
    match m st with
    | (Ok a, st') => (Ok a, st')
    | (Raise e, st') =>
        match handler e with
        | Some h => h st'
        | None => (Raise e, st')
        end
    end.

Declare Scope monad_scope.
Delimit Scope monad_scope with monad.
Notation "x <- c1 ;; c2" := (bind c1 (fun x => c2))
  (at level 100, c1 at next level, right associativity) : monad_scope.
Notation "c1 ;; c2" := (bind c1 (fun _ => c2))
  (at level 100, right associativity) : monad_scope.
Local Open Scope monad_scope.

Definition logging (lv : level) (msg : string) : M unit :=
  fun st => (Ok tt, set_log (log st ++ [(lv, msg)]) st).

Definition record_call (c : call) : M unit :=
  fun st => (Ok tt, set_calls (calls st ++ [c]) st).

(** [asyncio.run_coroutine_threadsafe(send_or_edit(key, handler_name), loop)]:
    the coroutine is queued on the bot's loop; the caller does not wait. *)
Definition run_coroutine_threadsafe (key : string) (handler_name : option string)
  : M unit :=
  fun st => (Ok tt, set_loop (loop st ++ [(key, handler_name)]) st).

(* ===================================================================== *)
(** ** persistence/data_persistence.py *)
(* ===================================================================== *)

Module DataPersistence.

(** The document of [save_data]. *)
Definition document (st : state) : value :=
  PyDict [("DATA_STORE", PyDict (DATA_STORE st));
          ("MESSAGE_MAP", PyDict (MESSAGE_MAP st))].

(** [with open(file_path, "w") as f: json.dump(doc, f, indent=2)]. *)
Definition write_file (doc : value) : M unit :=
  fun st =>
    match disk st with
    | WriteFails left_on_disk :: coming =>
        (Raise OSError, set_file left_on_disk coming st)
    | Written :: coming => (Ok tt, set_file (Some (Json.dumps doc)) coming st)
    | [] => (Ok tt, set_file (Some (Json.dumps doc)) [] st)
    end.

(** [with open(file_path, "r") as f: json.load(f)]. *)
Definition read_file : M value :=
  fun st =>
    match file st with
    | None => (Raise FileNotFoundError, st)
    | Some text =>
        match Json.loads text with
        | Some v => (Ok v, st)
        | None => (Raise JSONDecodeError, st)
        end
    end.

Definition save_data : M unit :=
  fun st =>
    (write_file (document st) ;;
     logging INFO ("Data saved to " +:+ file_path st)) st.

(** The two attributes are typed as dicts here.  A document whose section is
    not an object leaves the typed model: [as_dict] raises, where the Python
    code keeps the object and raises at its first use as a dict. *)
Definition as_dict (v : value) : result (list (string * value)) :=
  match v with
  | PyDict d => Ok d
  | _ => Raise TypeError
  end.

Definition reset_and_save : M unit :=
  fun st => save_data (set_MESSAGE_MAP [] (set_DATA_STORE [] st)).

Definition load_data : M unit :=
  fun st =>
    try_except
      (data <- read_file ;;
       ds <- lift (get data "DATA_STORE" empty_dict) ;;
       ds <- lift (as_dict ds) ;;
       (fun st => (Ok tt, set_DATA_STORE ds st)) ;;
       mm <- lift (get data "MESSAGE_MAP" empty_dict) ;;
       mm <- lift (as_dict mm) ;;
       (fun st => (Ok tt, set_MESSAGE_MAP mm st)) ;;
       logging INFO ("Data loaded from " +:+ file_path st))
      (fun e =>
         match e with
         | FileNotFoundError =>
             Some (logging INFO ("No existing " +:+ file_path st +:+
                                 " found. Starting with empty data stores.") ;;
                   reset_and_save)
         | JSONDecodeError =>
             Some (logging ERROR ("Error decoding JSON from " +:+ file_path st
                                  +:+ ": " +:+ exn_str e) ;;
                   reset_and_save)
         | _ => None
         end)
      st.

Definition get_data_store : M (list (string * value)) :=
  fun st => (Ok (DATA_STORE st), st).

Definition get_message_map : M (list (string * value)) :=
  fun st => (Ok (MESSAGE_MAP st), st).

Definition update_data_store (key : string) (v : value) : M unit :=
  (fun st => (Ok tt, set_DATA_STORE (dict_set key v (DATA_STORE st)) st)) ;;
  save_data.

Definition update_message_map (key : string) (message_id : value) : M unit :=
  (fun st => (Ok tt, set_MESSAGE_MAP (dict_set key message_id (MESSAGE_MAP st)) st)) ;;
  save_data.

End DataPersistence.
Import DataPersistence.

(* ===================================================================== *)
(** ** bot/discord_bot.py *)
(* ===================================================================== *)

(** The collaborators of the core as they answer during one run of
    [send_or_edit]: the renderer of bot/utils.py and the discord.py client. *)
Record world : Type := mkWorld {
  build_embed : string -> value -> option string -> result embed;
  get_channel : value -> option channel;
  fetch_message : channel -> value -> result unit;
  edit : channel -> value -> embed -> result unit;
  send : channel -> embed -> result Z       (* the id of the new message *)
}.

Record Config : Type := mkConfig {
  DEFAULT_DISCORD_CHANNEL_ID : Z
}.

Module DiscordBot.

Section Bot.

Variable config : Config.
Variable w : world.

(** The renderer as the bot sees it: a call that returns an embed or raises.
    The records [build_embed] itself writes to the log, for which see
    [Utils.build_embed], are not added to [log] here: what [send_or_edit]
    logs is a subsequence of the real log, in order. *)
Definition call_build_embed (key : string) (data : value)
    (handler_name : option string) : M embed :=
  record_call (BuildEmbed key data handler_name) ;;
  lift (build_embed w key data handler_name).

Definition call_get_channel (channel_id : value) : M (option channel) :=
  record_call (GetChannel channel_id) ;;
  ret (get_channel w channel_id).

Definition call_fetch_message (ch : channel) (message_id : value) : M unit :=
  record_call (FetchMessage ch message_id) ;;
  lift (fetch_message w ch message_id).

Definition call_edit (ch : channel) (message_id : value) (e : embed) : M unit :=
  record_call (EditMessage ch message_id e) ;;
  lift (edit w ch message_id e).

Definition call_send (ch : channel) (e : embed) : M Z :=
  record_call (Send ch e) ;;
  lift (send w ch e).

(** The body of the outer [try] of [send_or_edit]. *)
Definition send_or_edit_body (key : string) (ch : channel) (e : embed) : M unit :=
  message_map <- get_message_map ;;
  match dict_lookup key message_map with
  | Some message_id =>
      try_except
        (call_fetch_message ch message_id ;;
         call_edit ch message_id e ;;
         logging INFO ("Edited existing message for " +:+ key +:+
                       " in channel '" +:+ ch +:+ "'"))
        (fun ex =>
           match ex with
           | NotFound =>
               Some (new_msg <- call_send ch e ;;
                     update_message_map key (PyInt new_msg) ;;
                     logging INFO ("Sent new message (old not found) for "
                                   +:+ key +:+ " in channel '" +:+ ch +:+ "'"))
           | _ => None
           end)
  | None =>
      new_msg <- call_send ch e ;;
      update_message_map key (PyInt new_msg) ;;
      logging INFO ("Sent new message for " +:+ key +:+
                    " in channel '" +:+ ch +:+ "'")
  end.

Definition send_or_edit (key : string) (handler_name : option string) : M unit :=
  let handler := split_head key in
  store <- get_data_store ;;
  handlers <- lift (get (PyDict store) "handlers" empty_dict) ;;
  handler_config <- lift (get handlers handler empty_dict) ;;
  enabled <- lift (get handler_config "enabled" (PyBool false)) ;;
  if negb (truthy enabled) then
    logging INFO ("Handler '" +:+ handler +:+
                  "' is disabled. Skipping send_or_edit for key '" +:+ key +:+ "'.")
  else
    store <- get_data_store ;;
    data <- lift (get (PyDict store) key empty_dict) ;;
    e <- call_build_embed key data handler_name ;;
    channel_id <- lift (get handler_config "channel_id"
                            (PyInt (DEFAULT_DISCORD_CHANNEL_ID config))) ;;
    ch <- call_get_channel channel_id ;;
    match ch with
    | None =>
        logging ERROR ("Channel " +:+ str channel_id +:+ " for handler '" +:+
                       handler +:+ "' not found.")
    | Some ch =>
        try_except (send_or_edit_body key ch e)
          (fun ex =>
             if is_HTTPException ex
             then Some (logging ERROR ("Discord HTTPException for " +:+ key +:+
                                       ": " +:+ exn_str ex))
             else Some (logging ERROR ("Unexpected error for " +:+ key +:+
                                       ": " +:+ exn_str ex)))
    end.

(** The bot's loop runs a queued coroutine to its end; an exception that
    leaves the coroutine stays in its future and the loop goes on. *)
Definition run_coroutine (job : string * option string) : M unit :=
  try_except (send_or_edit (fst job) (snd job)) (fun _ => Some (ret tt)).

(** The queued coroutines run one after the other, each to its end before the
    next starts.  This is the schedule of deliveries that are far enough
    apart; coroutines that overlap at an [await] are those of [Coroutine]. *)
Fixpoint run_all (jobs : list (string * option string)) : M unit :=
  match jobs with
  | [] => ret tt
  | job :: rest => run_coroutine job ;; run_all rest
  end.

(** Everything queued so far is run, in the order it was submitted. *)
Definition run_loop : M unit :=
  fun st => run_all (loop st) (set_loop [] st).

End Bot.

End DiscordBot.
Import DiscordBot.

(* ===================================================================== *)
(** ** handlers/github_handlers.py *)
(* ===================================================================== *)

Module GitHubHandlers.

(** [o.get(k, default)] inside a handler. *)
Definition getM (o : value) (k : string) (dflt : value) : M value :=
  lift (get o k dflt).

(** [for x in xs: body(x)]. *)
Fixpoint for_each {A} (xs : list A) (body : A -> M unit) : M unit :=
  match xs with
  | [] => ret tt
  | x :: rest => body x ;; for_each rest body
  end.

Definition handle_push (payload : value) : M unit :=
  commits <- getM payload "commits" (PyList []) ;;
  repo <- getM payload "repository" empty_dict ;;
  repo_full_name <- getM repo "full_name" (PyStr "unknown/unknown") ;;
  commits <- lift (iter commits) ;;
  for_each commits (fun commit =>
    sha <- getM commit "id" (PyStr "") ;;
    message <- getM commit "message" (PyStr "") ;;
    url <- getM commit "url" (PyStr "#") ;;
    let key := "push:" +:+ str sha in
    let commit_data := PyDict [("message", message); ("url", url);
                               ("repo_full_name", repo_full_name)] in
    update_data_store key commit_data ;;
    run_coroutine_threadsafe key (Some "push")).

Definition handle_check_run (payload : value) : M unit :=
  check_run <- getM payload "check_run" empty_dict ;;
  id <- getM check_run "id" (PyStr "unknown") ;;
  let run_id := str id in
  name <- getM check_run "name" (PyStr "Unnamed Check") ;;
  url <- getM check_run "html_url" (PyStr "#") ;;
  status <- getM check_run "status" (PyStr "unknown") ;;
  conclusion <- getM check_run "conclusion" (PyStr "unknown") ;;
  head_sha <- getM check_run "head_sha" (PyStr "unknown") ;;
  repo <- getM payload "repository" empty_dict ;;
  repo_full_name <- getM repo "full_name" (PyStr "unknown/unknown") ;;
  let key := "check_run:" +:+ run_id in
  let check_run_data := PyDict [("name", name); ("url", url); ("status", status);
                                ("conclusion", conclusion); ("head_sha", head_sha);
                                ("repo_full_name", repo_full_name)] in
  update_data_store key check_run_data ;;
  run_coroutine_threadsafe key (Some "check_run").

Definition handle_check_suite (payload : value) : M unit :=
  check_suite <- getM payload "check_suite" empty_dict ;;
  id <- getM check_suite "id" (PyStr "unknown") ;;
  let suite_id := str id in
  name <- getM check_suite "name" (PyStr "Unnamed Check Suite") ;;
  url <- getM check_suite "html_url" (PyStr "#") ;;
  status <- getM check_suite "status" (PyStr "unknown") ;;
  conclusion <- getM check_suite "conclusion" (PyStr "unknown") ;;
  head_sha <- getM check_suite "head_sha" (PyStr "unknown") ;;
  repo <- getM check_suite "repository" empty_dict ;;
  repo_full_name <- getM repo "full_name" (PyStr "unknown/unknown") ;;
  let key := "check_suite:" +:+ suite_id in
  let check_suite_data := PyDict [("name", name); ("url", url); ("status", status);
                                  ("conclusion", conclusion); ("head_sha", head_sha);
                                  ("repo_full_name", repo_full_name)] in
  update_data_store key check_suite_data ;;
  run_coroutine_threadsafe key (Some "check_suite").

Definition handle_workflow_run (payload : value) : M unit :=
  workflow_run <- getM payload "workflow_run" empty_dict ;;
  action <- getM payload "action" (PyStr "") ;;
  if negb (eq_str action "completed") then
    logging INFO ("Ignored workflow_run action: " +:+ str action)
  else
    id <- getM workflow_run "id" (PyStr "unknown") ;;
    let run_id := str id in
    name <- getM workflow_run "name" (PyStr "Unnamed Workflow") ;;
    status <- getM workflow_run "status" (PyStr "unknown") ;;
    conclusion <- getM workflow_run "conclusion" (PyStr "unknown") ;;
    url <- getM workflow_run "html_url" (PyStr "#") ;;
    started_at <- getM workflow_run "started_at" (PyStr "") ;;
    completed_at <- getM workflow_run "completed_at" (PyStr "") ;;
    head_sha <- getM workflow_run "head_sha" (PyStr "unknown") ;;
    repo <- getM workflow_run "repository" empty_dict ;;
    repo_full_name <- getM repo "full_name" (PyStr "unknown/unknown") ;;
    let key := "workflow_run:" +:+ run_id in
    let workflow_run_data :=
      PyDict [("name", name); ("status", status); ("conclusion", conclusion);
              ("url", url); ("started_at", started_at);
              ("completed_at", completed_at); ("head_sha", head_sha);
              ("repo_full_name", repo_full_name)] in
    update_data_store key workflow_run_data ;;
    run_coroutine_threadsafe key (Some "workflow_run").

Definition handle_workflow_job (payload : value) : M unit :=
  workflow_job <- getM payload "workflow_job" empty_dict ;;
  id <- getM workflow_job "id" (PyStr "unknown") ;;
  let job_id := str id in
  name <- getM workflow_job "name" (PyStr "Unnamed Workflow Job") ;;
  url <- getM workflow_job "html_url" (PyStr "#") ;;
  status <- getM workflow_job "status" (PyStr "unknown") ;;
  conclusion <- getM workflow_job "conclusion" (PyStr "unknown") ;;
  head_sha <- getM workflow_job "head_sha" (PyStr "unknown") ;;
  repo <- getM workflow_job "repository" empty_dict ;;
  repo_full_name <- getM repo "full_name" (PyStr "unknown/unknown") ;;
  let key := "workflow_job:" +:+ job_id in
  let workflow_job_data :=
    PyDict [("name", name); ("url", url); ("status", status);
            ("conclusion", conclusion); ("head_sha", head_sha);
            ("repo_full_name", repo_full_name)] in
  update_data_store key workflow_job_data ;;
  run_coroutine_threadsafe key (Some "workflow_job").

Definition handle_pull_request (payload : value) : M unit :=
  pr <- getM payload "pull_request" empty_dict ;;
  action <- getM payload "action" (PyStr "unknown") ;;
  pr_number <- getM pr "number" (PyInt 0) ;;
  title <- getM pr "title" (PyStr "") ;;
  url <- getM pr "html_url" (PyStr "#") ;;
  merged <- getM pr "merged" (PyBool false) ;;
  repo <- getM payload "repository" empty_dict ;;
  repo_full_name <- getM repo "full_name" (PyStr "unknown/unknown") ;;
  let key := "pull_request:" +:+ str pr_number in
  let pr_data := PyDict [("title", title); ("url", url); ("action", action);
                         ("merged", merged); ("repo_full_name", repo_full_name)] in
  update_data_store key pr_data ;;
  run_coroutine_threadsafe key (Some "pull_request").

Definition handle_pull_request_review (payload : value) : M unit :=
  review <- getM payload "review" empty_dict ;;
  pr <- getM payload "pull_request" empty_dict ;;
  pr_number <- getM pr "number" (PyInt 0) ;;
  user <- getM review "user" empty_dict ;;
  reviewer <- getM user "login" (PyStr "unknown") ;;
  url <- getM review "html_url" (PyStr "#") ;;
  action <- getM review "state" (PyStr "commented") ;;
  body <- getM review "body" (PyStr "") ;;
  repo <- getM payload "repository" empty_dict ;;
  repo_full_name <- getM repo "full_name" (PyStr "unknown/unknown") ;;
  let key := "pull_request_review:" +:+ str pr_number +:+ ":" +:+ str reviewer
             +:+ ":" +:+ str url in
  let review_data := PyDict [("user", reviewer); ("url", url); ("action", action);
                             ("body", body); ("repo_full_name", repo_full_name)] in
  update_data_store key review_data ;;
  run_coroutine_threadsafe key (Some "pull_request_review").

Definition handle_pull_request_review_comment (payload : value) : M unit :=
  comment <- getM payload "comment" empty_dict ;;
  pr <- getM payload "pull_request" empty_dict ;;
  pr_number <- getM pr "number" (PyInt 0) ;;
  user <- getM comment "user" empty_dict ;;
  commenter <- getM user "login" (PyStr "unknown") ;;
  comment_url <- getM comment "html_url" (PyStr "#") ;;
  body <- getM comment "body" (PyStr "") ;;
  repo <- getM payload "repository" empty_dict ;;
  repo_full_name <- getM repo "full_name" (PyStr "unknown/unknown") ;;
  let key := "pull_request_review_comment:" +:+ str pr_number +:+ ":" +:+
             str commenter +:+ ":" +:+ str comment_url in
  let comment_data := PyDict [("user", commenter); ("url", comment_url);
                              ("body", body); ("repo_full_name", repo_full_name)] in
  update_data_store key comment_data ;;
  run_coroutine_threadsafe key (Some "pull_request_review_comment").

Definition handle_issues (payload : value) : M unit :=
  issue <- getM payload "issue" empty_dict ;;
  action <- getM payload "action" (PyStr "unknown") ;;
  issue_number <- getM issue "number" (PyInt 0) ;;
  title <- getM issue "title" (PyStr "") ;;
  url <- getM issue "html_url" (PyStr "#") ;;
  repo <- getM payload "repository" empty_dict ;;
  repo_full_name <- getM repo "full_name" (PyStr "unknown/unknown") ;;
  let key := "issue:" +:+ str issue_number +:+ ":" +:+ str action in
  let issue_data := PyDict [("title", title); ("url", url); ("action", action);
                            ("repo_full_name", repo_full_name)] in
  update_data_store key issue_data ;;
  run_coroutine_threadsafe key (Some "issues").

Definition handle_issue_comment (payload : value) : M unit :=
  comment <- getM payload "comment" empty_dict ;;
  issue <- getM payload "issue" empty_dict ;;
  issue_number <- getM issue "number" (PyInt 0) ;;
  user <- getM comment "user" empty_dict ;;
  commenter <- getM user "login" (PyStr "unknown") ;;
  comment_url <- getM comment "html_url" (PyStr "#") ;;
  body <- getM comment "body" (PyStr "") ;;
  repo <- getM payload "repository" empty_dict ;;
  repo_full_name <- getM repo "full_name" (PyStr "unknown/unknown") ;;
  let key := "issue_comment:" +:+ str issue_number +:+ ":" +:+ str commenter
             +:+ ":" +:+ str comment_url in
  let comment_data := PyDict [("user", commenter); ("url", comment_url);
                              ("body", body); ("repo_full_name", repo_full_name)] in
  update_data_store key comment_data ;;
  run_coroutine_threadsafe key (Some "issue_comment").

(** The sender of a create or delete event: [sender.login], or [user] when
    [sender] is missing or empty. *)
Definition sender_of (payload : value) : M value :=
  sender_info <- getM payload "sender" empty_dict ;;
  if truthy sender_info then getM sender_info "login" PyNone
  else getM payload "user" (PyStr "unknown").

Definition ref_url_of (ref_type ref repo_full_name : value) : value :=
  if eq_str ref_type "branch" then
    PyStr ("https://github.com/" +:+ str repo_full_name +:+ "/tree/" +:+ str ref)
  else if eq_str ref_type "tag" then
    PyStr ("https://github.com/" +:+ str repo_full_name +:+ "/releases/tag/"
           +:+ str ref)
  else PyNone.

Definition handle_create (payload : value) : M unit :=
  ref_type <- getM payload "ref_type" (PyStr "unknown") ;;
  ref <- getM payload "ref" (PyStr "unknown") ;;
  sender <- sender_of payload ;;
  repo <- getM payload "repository" empty_dict ;;
  repo_full_name <- getM repo "full_name" (PyStr "unknown/unknown") ;;
  let ref_url := ref_url_of ref_type ref repo_full_name in
  let key := "create:" +:+ str ref in
  let create_data :=
    PyDict [("ref_type", ref_type); ("ref", ref); ("user", sender);
            ("ref_url", if truthy ref_url then ref_url else PyStr "");
            ("repo_full_name", repo_full_name)] in
  update_data_store key create_data ;;
  logging INFO ("Handling create event: " +:+ str ref_type +:+ " '" +:+ str ref
                +:+ "' by " +:+ str sender +:+ " in " +:+ str repo_full_name) ;;
  run_coroutine_threadsafe key (Some "create").

Definition handle_delete (payload : value) : M unit :=
  ref_type <- getM payload "ref_type" (PyStr "unknown") ;;
  ref <- getM payload "ref" (PyStr "unknown") ;;
  sender <- sender_of payload ;;
  repo <- getM payload "repository" empty_dict ;;
  repo_full_name <- getM repo "full_name" (PyStr "unknown/unknown") ;;
  let ref_url := ref_url_of ref_type ref repo_full_name in
  let key := "delete:" +:+ str ref in
  let delete_data :=
    PyDict [("ref_type", ref_type); ("ref", ref); ("user", sender);
            ("ref_url", if truthy ref_url then ref_url else PyStr "");
            ("repo_full_name", repo_full_name)] in
  update_data_store key delete_data ;;
  logging INFO ("Handling delete event: " +:+ str ref_type +:+ " '" +:+ str ref
                +:+ "' by " +:+ str sender +:+ " in " +:+ str repo_full_name) ;;
  run_coroutine_threadsafe key (Some "delete").

Definition handle_fork (payload : value) : M unit :=
  sender_info <- getM payload "sender" empty_dict ;;
  sender <- getM sender_info "login" (PyStr "unknown") ;;
  repository <- getM payload "repository" empty_dict ;;
  repo_full_name <- getM repository "full_name" (PyStr "unknown/unknown") ;;
  forkee <- getM payload "forkee" empty_dict ;;
  forkee_name <- getM forkee "full_name" (PyStr "unknown") ;;
  forkee_url <- getM forkee "html_url" (PyStr "#") ;;
  let key := "fork:" +:+ str forkee_name in
  let fork_data :=
    PyDict [("sender", sender); ("repo_name", repo_full_name);
            ("forkee_name", forkee_name); ("forkee_url", forkee_url);
            ("repo_full_name", repo_full_name)] in
  update_data_store key fork_data ;;
  logging INFO ("Handling fork event: " +:+ str sender +:+ " forked " +:+
                str repo_full_name +:+ " to " +:+ str forkee_name) ;;
  run_coroutine_threadsafe key (Some "fork").

Definition handle_release (payload : value) : M unit :=
  release <- getM payload "release" empty_dict ;;
  action <- getM payload "action" (PyStr "unknown") ;;
  name <- getM release "name" (PyStr "No Name") ;;
  url <- getM release "html_url" (PyStr "#") ;;
  sender_info <- getM payload "sender" empty_dict ;;
  publisher <- getM sender_info "login" (PyStr "unknown") ;;
  repo <- getM payload "repository" empty_dict ;;
  repo_full_name <- getM repo "full_name" (PyStr "unknown/unknown") ;;
  let key := "release:" +:+ str name in
  let release_data :=
    PyDict [("action", action); ("name", name); ("url", url);
            ("publisher", publisher); ("repo_full_name", repo_full_name)] in
  update_data_store key release_data ;;
  logging INFO ("Handling release event: " +:+ str action +:+ " release '" +:+
                str name +:+ "' by " +:+ str publisher +:+ " in " +:+
                str repo_full_name) ;;
  run_coroutine_threadsafe key (Some "release").

Definition handle_repository (payload : value) : M unit :=
  repo <- getM payload "repository" empty_dict ;;
  action <- getM payload "action" (PyStr "unknown") ;;
  repo_name <- getM repo "full_name" (PyStr "unknown/unknown") ;;
  repo_url <- getM repo "html_url" (PyStr "#") ;;
  owner_info <- getM repo "owner" empty_dict ;;
  owner <- getM owner_info "login" (PyStr "unknown") ;;
  let key := "repository:" +:+ str repo_name in
  let repository_data :=
    PyDict [("action", action); ("name", repo_name); ("url", repo_url);
            ("owner", owner); ("repo_full_name", repo_name)] in
  update_data_store key repository_data ;;
  logging INFO ("Handling repository event: " +:+ str action +:+ " repository '"
                +:+ str repo_name +:+ "' by " +:+ str owner) ;;
  run_coroutine_threadsafe key (Some "repository").

Definition handle_watch (payload : value) : M unit :=
  action <- getM payload "action" (PyStr "starred") ;;
  sender_info <- getM payload "sender" empty_dict ;;
  sender <- getM sender_info "login" (PyStr "unknown") ;;
  repository <- getM payload "repository" empty_dict ;;
  repo_full_name <- getM repository "full_name" (PyStr "unknown/unknown") ;;
  repo_url <- getM repository "html_url" (PyStr "#") ;;
  let key := "watch:" +:+ str sender +:+ ":" +:+ str repo_full_name in
  let watch_data :=
    PyDict [("action", action); ("user", sender); ("repo_name", repo_full_name);
            ("repo_url", repo_url); ("repo_full_name", repo_full_name)] in
  update_data_store key watch_data ;;
  logging INFO ("Handling watch event: " +:+ str sender +:+ " " +:+ str action
                +:+ " repository '" +:+ str repo_full_name +:+ "'") ;;
  run_coroutine_threadsafe key (Some "watch").

Definition handle_member (payload : value) : M unit :=
  member <- getM payload "member" empty_dict ;;
  member_login <- getM member "login" (PyStr "unknown") ;;
  action <- getM payload "action" (PyStr "unknown") ;;
  repo <- getM payload "repository" empty_dict ;;
  repo_full_name <- getM repo "full_name" (PyStr "unknown/unknown") ;;
  repo' <- getM payload "repository" empty_dict ;;
  repo_url <- getM repo' "html_url" (PyStr "#") ;;
  let key := "member:" +:+ str member_login +:+ ":" +:+ str repo_full_name
             +:+ ":" +:+ str action in
  let member_data :=
    PyDict [("member_login", member_login); ("action", action);
            ("repo_full_name", repo_full_name); ("repo_url", repo_url)] in
  update_data_store key member_data ;;
  logging INFO ("Handling member event: " +:+ str action +:+ " '" +:+
                str member_login +:+ "' in " +:+ str repo_full_name) ;;
  run_coroutine_threadsafe key (Some "member").

Definition handle_commit_comment (payload : value) : M unit :=
  comment <- getM payload "comment" empty_dict ;;
  commit_sha <- getM comment "commit_id" (PyStr "unknown") ;;
  user <- getM comment "user" empty_dict ;;
  commenter <- getM user "login" (PyStr "unknown") ;;
  comment_url <- getM comment "html_url" (PyStr "#") ;;
  body <- getM comment "body" (PyStr "") ;;
  repo <- getM payload "repository" empty_dict ;;
  repo_full_name <- getM repo "full_name" (PyStr "unknown/unknown") ;;
  let key := "commit_comment:" +:+ str commit_sha +:+ ":" +:+ str commenter
             +:+ ":" +:+ str comment_url in
  let commit_comment_data :=
    PyDict [("commit_sha", commit_sha); ("commenter", commenter);
            ("url", comment_url); ("body", body);
            ("repo_full_name", repo_full_name)] in
  update_data_store key commit_comment_data ;;
  logging INFO ("Handling commit_comment event: " +:+ str commenter +:+
                " commented on commit '" +:+ str commit_sha +:+ "' in " +:+
                str repo_full_name) ;;
  run_coroutine_threadsafe key (Some "commit_comment").

Definition handle_public (payload : value) : M unit :=
  action <- getM payload "action" (PyStr "made public") ;;
  repository <- getM payload "repository" empty_dict ;;
  repo_full_name <- getM repository "full_name" (PyStr "unknown/unknown") ;;
  repo_url <- getM repository "html_url" (PyStr "#") ;;
  sender_info <- getM payload "sender" empty_dict ;;
  sender <- getM sender_info "login" (PyStr "unknown") ;;
  let key := "public:" +:+ str repo_full_name in
  let public_data :=
    PyDict [("action", action); ("repo_full_name", repo_full_name);
            ("repo_url", repo_url); ("sender", sender)] in
  update_data_store key public_data ;;
  logging INFO ("Handling public event: Repository '" +:+ str repo_full_name
                +:+ "' " +:+ str action +:+ " by " +:+ str sender) ;;
  run_coroutine_threadsafe key (Some "public").

Definition EVENT_HANDLERS : list (string * (value -> M unit)) :=
  [ ("push", handle_push);
    ("check_run", handle_check_run);
    ("check_suite", handle_check_suite);
    ("workflow_run", handle_workflow_run);
    ("workflow_job", handle_workflow_job);
    ("pull_request", handle_pull_request);
    ("pull_request_review", handle_pull_request_review);
    ("pull_request_review_comment", handle_pull_request_review_comment);
    ("issues", handle_issues);
    ("issue_comment", handle_issue_comment);
    ("create", handle_create);
    ("delete", handle_delete);
    ("fork", handle_fork);
    ("release", handle_release);
    ("watch", handle_watch);
    ("member", handle_member);
    ("public", handle_public);
    ("repository", handle_repository);
    ("commit_comment", handle_commit_comment) ].

Fixpoint handler_of (event_type : string)
    (table : list (string * (value -> M unit))) : option (value -> M unit) :=
  match table with
  | [] => None
  | (name, h) :: rest =>
      if String.eqb name event_type then Some h else handler_of event_type rest
  end.

Definition handle_event (event_type : string) (payload : value) : M unit :=
  match handler_of event_type EVENT_HANDLERS with
  | Some handler =>
      logging INFO ("Handling event: " +:+ event_type) ;;
      handler payload
  | None =>
      logging WARNING ("No handler found for event type: " +:+ event_type)
  end.

End GitHubHandlers.
Import GitHubHandlers.

(* ===================================================================== *)
(** ** flask_app/webhook.py: the route, once the signature is accepted *)
(* ===================================================================== *)

Definition github_webhook (event_type : string) (body : value)
  : M (string * Z) :=
  let payload := if truthy body then body else empty_dict in  (* request.json or {} *)
  logging INFO ("Received event: " +:+ event_type) ;;
  logging DEBUG ("Payload: " +:+ Json.dumps payload) ;;
  try_except (handle_event event_type payload)
    (fun e => Some (logging ERROR ("Error handling event '" +:+ event_type +:+
                                   "': " +:+ exn_str e))) ;;
  ret ("OK", 200%Z).

(** One delivery, run to quiescence: the route handles the event on the
    request thread, then the bot's loop runs what the handler queued, the
    collaborators answering as [w]. *)
Definition deliver (config : Config) (w : world) (event_type : string)
    (body : value) : M unit :=
  github_webhook event_type body ;;
  run_loop config w.

(* ===================================================================== *)
(** ** Vocabulary of the properties *)
(* ===================================================================== *)

(** The state a computation ends in, and its result. *)
Definition exec {A} (m : M A) (st : state) : state := snd (m st).
Definition eval {A} (m : M A) (st : state) : result A := fst (m st).

(** [get(key)] of the Record Store, as every reader does it:
    [get_data_store().get(key)]. *)
Definition get_record (key : string) : M (option value) :=
  store <- get_data_store ;;
  ret (dict_lookup key store).

(** The Routing Entry of a category: [handlers.get(category, {})], and its
    flag [.get("enabled", False)]. *)
Definition routing_entry (store : list (string * value)) (category : string)
  : result value :=
  match get (PyDict store) "handlers" empty_dict with
  | Ok handlers => get handlers category empty_dict
  | Raise e => Raise e
  end.

Definition enabled_flag (store : list (string * value)) (category : string)
  : result value :=
  match routing_entry store category with
  | Ok handler_config => get handler_config "enabled" (PyBool false)
  | Raise e => Raise e
  end.

Definition enabled (store : list (string * value)) (category : string) : bool :=
  match enabled_flag store category with
  | Ok v => truthy v
  | Raise _ => false
  end.

Definition disabled (store : list (string * value)) (category : string) : bool :=
  match enabled_flag store category with
  | Ok v => negb (truthy v)
  | Raise _ => false
  end.

(** The category of an entity key is what stands before its first colon. *)
Definition category_of (key : string) : string := split_head key.

(** The next write to the disk succeeds; every coming write does. *)
Definition write_ok (st : state) : bool :=
  match disk st with
  | WriteFails _ :: _ => false
  | _ => true
  end.

Definition healthy (st : state) : Prop := Forall (fun o => o = Written) (disk st).

Definition is_send (c : call) : bool :=
  match c with Send _ _ => true | _ => false end.
Definition is_edit (c : call) : bool :=
  match c with EditMessage _ _ _ => true | _ => false end.
Definition is_fetch (c : call) : bool :=
  match c with FetchMessage _ _ => true | _ => false end.

Definition count (p : call -> bool) (cs : list call) : nat :=
  length (List.filter p cs).

Definition disabled_message (key : string) : string :=
  "Handler '" +:+ category_of key +:+
  "' is disabled. Skipping send_or_edit for key '" +:+ key +:+ "'.".

(** A category without a routing entry: no ["handlers"] object in the store,
    or no entry for the category in it, or an entry without ["enabled"]. *)
Definition unconfigured (store : list (string * value)) (category : string)
  : Prop :=
  dict_lookup "handlers" store = None
  \/ (exists handlers, dict_lookup "handlers" store = Some (PyDict handlers)
                       /\ dict_lookup category handlers = None)
  \/ (exists handlers entry,
        dict_lookup "handlers" store = Some (PyDict handlers)
        /\ dict_lookup category handlers = Some (PyDict entry)
        /\ dict_lookup "enabled" entry = None).

Definition quiet : world :=
  mkWorld (fun _ _ _ => Ok "embed") (fun _ => Some "general")
          (fun _ _ => Ok tt) (fun _ _ _ => Ok tt) (fun _ _ => Ok 1%Z).

Definition default_config : Config := mkConfig 1284897403706806423.


(** The record [send_or_edit] renders: [get_data_store().get(key, {})]. *)
Definition record_for (store : list (string * value)) (key : string) : value :=
  default empty_dict (dict_lookup key store).

(** The destination of a category: the entry's ["channel_id"], else the
    process-wide default. *)
Definition channel_id_for (config : Config) (store : list (string * value))
    (category : string) : result value :=
  match routing_entry store category with
  | Ok handler_config =>
      get handler_config "channel_id" (PyInt (DEFAULT_DISCORD_CHANNEL_ID config))
  | Raise e => Raise e
  end.

(** [send_or_edit] gets as far as the Message Map: the category is enabled,
    the renderer returns [e], and the client knows the destination [cid] as
    the channel [ch]. *)
Definition ready (config : Config) (w : world) (key : string)
    (handler_name : option string) (st : state)
    (cid : value) (ch : channel) (e : embed) : Prop :=
  enabled (DATA_STORE st) (category_of key) = true
  /\ build_embed w key (record_for (DATA_STORE st) key) handler_name = Ok e
  /\ channel_id_for config (DATA_STORE st) (category_of key) = Ok cid
  /\ get_channel w cid = Some ch.

(** The two calls that precede the Message Map lookup. *)
Definition prelude (key : string) (handler_name : option string) (st : state)
    (cid : value) : list call :=
  [BuildEmbed key (record_for (DATA_STORE st) key) handler_name; GetChannel cid].

(** The [except] clauses of the outer [try] of [send_or_edit]. *)
Definition outer_handler (key : string) (ex : exn) : option (M unit) :=
  if is_HTTPException ex
  then Some (logging ERROR ("Discord HTTPException for " +:+ key +:+
                            ": " +:+ exn_str ex))
  else Some (logging ERROR ("Unexpected error for " +:+ key +:+
                            ": " +:+ exn_str ex)).

(** *** Sample states and worlds *)

(** A store whose Routing Table enables the categories [push], [check_run],
    [workflow_run] and [pull_request] and disables [release]. *)
Definition routing_sample : list (string * value) :=
  [("handlers",
    PyDict [("push", PyDict [("enabled", PyBool true)]);
            ("check_run", PyDict [("enabled", PyBool true);
                                  ("channel_id", PyInt 77)]);
            ("workflow_run", PyDict [("enabled", PyBool true)]);
            ("pull_request", PyDict [("enabled", PyBool true)]);
            ("release", PyDict [("enabled", PyBool false)])])].

(** A freshly started process with that Routing Table and no file yet. *)
Definition started (d : list write_outcome) : state :=
  mkState "data_store.json" routing_sample [] None d [] [] [].

(** The same, with a message [11] already live for [push:abc123]. *)
Definition live : state :=
  mkState "data_store.json" routing_sample [("push:abc123", PyInt 11)]
          None [] [] [] [].

(** A world in which everything works and a send returns [id]. *)
Definition smooth (id : Z) : world :=
  mkWorld (fun _ _ _ => Ok "embed") (fun _ => Some "general")
          (fun _ _ => Ok tt) (fun _ _ _ => Ok tt) (fun _ _ => Ok id).

(** A world in which the stored message has been deleted. *)
Definition deleted (id : Z) : world :=
  mkWorld (fun _ _ _ => Ok "embed") (fun _ => Some "general")
          (fun _ _ => Raise NotFound) (fun _ _ _ => Ok tt) (fun _ _ => Ok id).

(** A world in which no channel is known to the client. *)
Definition no_channel : world :=
  mkWorld (fun _ _ _ => Ok "embed") (fun _ => None)
          (fun _ _ => Ok tt) (fun _ _ _ => Ok tt) (fun _ _ => Ok 1%Z).

(** *** The normalizer of an event, read off its handler *)

(** A fresh store on a disk that works. *)
Definition blank : state := init "" None [].

(** The inbound path run on [blank]: what it leaves in the Record Store are
    the event's canonical records, each under its entity key, and what it
    queued on the loop are the sync calls it asks for. *)
Definition normalize (event_type : string) (body : value) : state :=
  exec (github_webhook event_type body) blank.

Definition records (event_type : string) (body : value)
  : list (string * value) :=
  DATA_STORE (normalize event_type body).

Definition keys (event_type : string) (body : value) : list string :=
  List.map fst (loop (normalize event_type body)).

(** [d] with the entries of [upd] written over it, as a lookup. *)
Definition overlay (upd d : list (string * value)) (k : string) : option value :=
  match dict_lookup k upd with
  | Some r => Some r
  | None => dict_lookup k d
  end.

(** [st] is what a run from [st0] has reached while the same run from
    [blank] has reached [b]: same disk behaviour, the queue and the Record
    Store of [st0] extended by those of [b], everything else as in [st0]. *)
Definition frame (st0 st b : state) : Prop :=
  healthy st /\ healthy b
  /\ loop st = loop st0 ++ loop b
  /\ (forall k, dict_lookup k (DATA_STORE st)
                = overlay (DATA_STORE b) (DATA_STORE st0) k)
  /\ dict_lookup "handlers" (DATA_STORE b) = None
  /\ MESSAGE_MAP st = MESSAGE_MAP st0
  /\ calls st = calls st0.

(** A computation that cannot tell [st] from [b] and keeps them framed. *)
Definition framed {A} (st0 : state) (m : M A) : Prop :=
  forall st b, frame st0 st b ->
    eval m st = eval m b /\ frame st0 (exec m st) (exec m b).

(** [d.get(name, dflt)] on a dict known to be one. *)
Definition field (d : list (string * value)) (name : string) (dflt : value)
  : value :=
  default dflt (dict_lookup name d).

(** The record and the key a completed workflow run is stored under, from
    the members [wr] of its ["workflow_run"] object and the members [repo]
    of that object's ["repository"]. *)
Definition workflow_run_key (wr : list (string * value)) : string :=
  "workflow_run:" +:+ str (field wr "id" (PyStr "unknown")).

Definition workflow_run_record (wr repo : list (string * value)) : value :=
  PyDict [("name", field wr "name" (PyStr "Unnamed Workflow"));
          ("status", field wr "status" (PyStr "unknown"));
          ("conclusion", field wr "conclusion" (PyStr "unknown"));
          ("url", field wr "html_url" (PyStr "#"));
          ("started_at", field wr "started_at" (PyStr ""));
          ("completed_at", field wr "completed_at" (PyStr ""));
          ("head_sha", field wr "head_sha" (PyStr "unknown"));
          ("repo_full_name", field repo "full_name" (PyStr "unknown/unknown"))].

(** Sample payloads. *)
Definition release_v1 : value :=
  PyDict [("action", PyStr "published");
          ("release", PyDict [("name", PyStr "v1")])].

Definition run_99 (action : string) : value :=
  PyDict [("action", PyStr action);
          ("workflow_run", PyDict [("id", PyInt 99); ("name", PyStr "CI")])].

(** *** Payload shape *)

(** The members a handler dereferences as objects. *)
Definition object_name (k : string) : bool :=
  existsb (String.eqb k)
    ["check_run"; "check_suite"; "workflow_run"; "workflow_job";
     "pull_request"; "review"; "comment"; "issue"; "sender"; "repository";
     "forkee"; "release"; "member"; "user"; "owner"].

Definition is_dict (v : value) : bool :=
  match v with PyDict _ => true | _ => false end.

(** Every member that a handler dereferences is, where present, an object
    (and so on inside it), and ["commits"], where present, is a list of
    objects.  Any member may be missing; the other members may hold
    anything. *)
Fixpoint shaped (v : value) : bool :=
  match v with
  | PyDict d =>
      (fix members (d : list (string * value)) : bool :=
         match d with
         | [] => true
         | (k, x) :: r =>
             (if object_name k then is_dict x && shaped x
              else if String.eqb k "commits" then
                match x with
                | PyList l => forallb is_dict l
                | _ => false
                end
              else true) && members r
         end) d
  | _ => true
  end.

(** The record of a check_run event that has no ["check_run"] object. *)
Definition check_run_defaults (repo_full_name : value) : value :=
  PyDict [("name", PyStr "Unnamed Check"); ("url", PyStr "#");
          ("status", PyStr "unknown"); ("conclusion", PyStr "unknown");
          ("head_sha", PyStr "unknown"); ("repo_full_name", repo_full_name)].

(** A computation that, on a disk that works, returns and leaves the disk
    working. *)
Definition total {A} (m : M A) : Prop :=
  forall st, healthy st -> (exists a, eval m st = Ok a) /\ healthy (exec m st).

(** A check_run delivery without its ["check_run"] object. *)
Definition check_run_without_object : value :=
  PyDict [("action", PyStr "created");
          ("repository", PyDict [("full_name", PyStr "octo/repo")])].

(** *** Sequences of deliveries *)

(** The collaborators render, know every channel, and answer a send with the
    message id [id]. *)
Definition responsive (w : world) (id : Z) : Prop :=
  (forall key data hn, exists e, build_embed w key data hn = Ok e)
  /\ (forall cid, exists ch, get_channel w cid = Some ch)
  /\ (forall ch e, send w ch e = Ok id).

(** Every fetch and every edit succeeds. *)
Definition edits (w : world) : Prop :=
  forall ch mid e, fetch_message w ch mid = Ok tt /\ edit w ch mid e = Ok tt.

(** The stored message is reported not-found, by the fetch or by the edit. *)
Definition reports_gone (w : world) : Prop :=
  forall ch mid e,
    fetch_message w ch mid = Raise NotFound
    \/ (fetch_message w ch mid = Ok tt /\ edit w ch mid e = Raise NotFound).

(** One delivery with the world that answers it; [ev_id] is the id a send
    would get and [ev_gone] tells whether the stored message is reported
    not-found. *)
Record delivery : Type := mkDelivery {
  ev_type : string;
  ev_body : value;
  ev_world : world;
  ev_id : Z;
  ev_gone : bool
}.

(** The delivery normalizes to the single key [k] and its remote calls
    succeed, but for the not-found answer when [ev_gone] says so. *)
Definition about (k : string) (ev : delivery) : Prop :=
  keys (ev_type ev) (ev_body ev) = [k]
  /\ responsive (ev_world ev) (ev_id ev)
  /\ (if ev_gone ev then reports_gone (ev_world ev) else edits (ev_world ev)).

(** Deliveries handled one after the other, each run to quiescence. *)
Fixpoint deliver_all (config : Config) (evs : list delivery) : M unit :=
  match evs with
  | [] => ret tt
  | ev :: rest =>
      deliver config (ev_world ev) (ev_type ev) (ev_body ev) ;;
      deliver_all config rest
  end.

Definition gone_count (evs : list delivery) : nat :=
  length (List.filter ev_gone evs).

(** The id the Message Map holds after [evs] when it held [cur] before. *)
Fixpoint live_id (cur : Z) (evs : list delivery) : Z :=
  match evs with
  | [] => cur
  | ev :: rest => live_id (if ev_gone ev then ev_id ev else cur) rest
  end.

(** The state between two deliveries about [k]. *)
Definition settled (k : string) (st : state) : Prop :=
  healthy st /\ loop st = []
  /\ enabled (DATA_STORE st) (category_of k) = true.

Definition push_abc : value :=
  PyDict [("repository", PyDict [("full_name", PyStr "octo/repo")]);
          ("commits", PyList [PyDict [("id", PyStr "abc123");
                                      ("message", PyStr "fix");
                                      ("url", PyStr "https://x/abc123")]])].

(** Three deliveries of the same push; before the third the message has
    been deleted on the remote side. *)
Definition three_pushes : list delivery :=
  [mkDelivery "push" push_abc (smooth 5) 5 false;
   mkDelivery "push" push_abc (smooth 6) 6 false;
   mkDelivery "push" push_abc (deleted 7) 7 true].

(** *** The Canonical Key Scheme, as a table *)

(** The body the route hands to the handler: [request.json or {}]. *)
Definition payload_of (body : value) : value :=
  if truthy body then body else empty_dict.

(** [o.get(m1, {}).get(m2, {}) ... .get(mn, dflt)]. *)
Fixpoint follow (o : value) (path : list string) (dflt : value) : result value :=
  match path with
  | [] => Ok o
  | [m] => get o m dflt
  | m :: rest =>
      match get o m empty_dict with
      | Ok o' => follow o' rest dflt
      | Raise e => Raise e
      end
  end.

(** A scheme: the category that opens the key and, in order, the
    discriminator fields, each a path into the payload with its default. *)
Record scheme : Type := mkScheme {
  category : string;
  fields : list (list string * value)
}.

(** The discriminator of a payload under a scheme. *)
Fixpoint discriminator (fs : list (list string * value)) (payload : value)
  : result (list value) :=
  match fs with
  | [] => Ok []
  | (path, dflt) :: rest =>
      match follow payload path dflt with
      | Ok v =>
          match discriminator rest payload with
          | Ok vs => Ok (v :: vs)
          | Raise e => Raise e
          end
      | Raise e => Raise e
      end
  end.

(** The key of a discriminator: category and fields, joined by colons. *)
Definition key_of (category : string) (ds : list value) : string :=
  String.concat ":" (category :: List.map str ds).

(** The scheme of every event type that yields one key per event, as the
    handlers build it. *)
Definition KEY_SCHEME : list (string * scheme) :=
  [ ("check_run",
     mkScheme "check_run" [(["check_run"; "id"], PyStr "unknown")]);
    ("check_suite",
     mkScheme "check_suite" [(["check_suite"; "id"], PyStr "unknown")]);
    ("workflow_run",
     mkScheme "workflow_run" [(["workflow_run"; "id"], PyStr "unknown")]);
    ("workflow_job",
     mkScheme "workflow_job" [(["workflow_job"; "id"], PyStr "unknown")]);
    ("pull_request",
     mkScheme "pull_request" [(["pull_request"; "number"], PyInt 0)]);
    ("pull_request_review",
     mkScheme "pull_request_review"
       [(["pull_request"; "number"], PyInt 0);
        (["review"; "user"; "login"], PyStr "unknown");
        (["review"; "html_url"], PyStr "#")]);
    ("pull_request_review_comment",
     mkScheme "pull_request_review_comment"
       [(["pull_request"; "number"], PyInt 0);
        (["comment"; "user"; "login"], PyStr "unknown");
        (["comment"; "html_url"], PyStr "#")]);
    ("issues",
     mkScheme "issue"
       [(["issue"; "number"], PyInt 0); (["action"], PyStr "unknown")]);
    ("issue_comment",
     mkScheme "issue_comment"
       [(["issue"; "number"], PyInt 0);
        (["comment"; "user"; "login"], PyStr "unknown");
        (["comment"; "html_url"], PyStr "#")]);
    ("create", mkScheme "create" [(["ref"], PyStr "unknown")]);
    ("delete", mkScheme "delete" [(["ref"], PyStr "unknown")]);
    ("fork", mkScheme "fork" [(["forkee"; "full_name"], PyStr "unknown")]);
    ("release", mkScheme "release" [(["release"; "name"], PyStr "No Name")]);
    ("watch",
     mkScheme "watch"
       [(["sender"; "login"], PyStr "unknown");
        (["repository"; "full_name"], PyStr "unknown/unknown")]);
    ("member",
     mkScheme "member"
       [(["member"; "login"], PyStr "unknown");
        (["repository"; "full_name"], PyStr "unknown/unknown");
        (["action"], PyStr "unknown")]);
    ("public",
     mkScheme "public" [(["repository"; "full_name"], PyStr "unknown/unknown")]);
    ("repository",
     mkScheme "repository"
       [(["repository"; "full_name"], PyStr "unknown/unknown")]);
    ("commit_comment",
     mkScheme "commit_comment"
       [(["comment"; "commit_id"], PyStr "unknown");
        (["comment"; "user"; "login"], PyStr "unknown");
        (["comment"; "html_url"], PyStr "#")]) ].

(** A push yields one key per commit, under this scheme read on the
    commit. *)
Definition PUSH_SCHEME : scheme := mkScheme "push" [(["id"], PyStr "")].

(** A field value that cannot blur the boundary to the next field: an
    integer, or a string without a colon. *)
Definition colon_free (v : value) : bool :=
  match v with
  | PyInt _ => true
  | PyStr s => negb (contains ":"%char s)
  | _ => false
  end.

(** Two field values of one kind: both integers or both strings. *)
Definition same_kind (v1 v2 : value) : bool :=
  match v1, v2 with
  | PyInt _, PyInt _ => true
  | PyStr _, PyStr _ => true
  | _, _ => false
  end.

(** Discriminators that the join keeps apart: field by field of one kind,
    and colon-free in every field but the last. *)
Fixpoint separable (ds1 ds2 : list value) : bool :=
  match ds1, ds2 with
  | [], [] => true
  | [v1], [v2] => same_kind v1 v2
  | v1 :: r1, v2 :: r2 =>
      same_kind v1 v2 && colon_free v1 && colon_free v2 && separable r1 r2
  | _, _ => false
  end.

Definition issue_event (number : Z) (action title : string) : value :=
  PyDict [("action", PyStr action);
          ("issue", PyDict [("number", PyInt number);
                            ("title", PyStr title)]);
          ("repository", PyDict [("full_name", PyStr "octo/repo")])].

Definition member_event (login action : string) : value :=
  PyDict [("action", PyStr action);
          ("member", PyDict [("login", PyStr login)]);
          ("repository", PyDict [("full_name", PyStr "octo/repo")])].

Definition watch_event (login repo : string) : value :=
  PyDict [("action", PyStr "started");
          ("sender", PyDict [("login", PyStr login)]);
          ("repository", PyDict [("full_name", PyStr repo)])].

(** The body of the loop of [handle_push], for one commit. *)
Definition push_commit (repo_full_name commit : value) : M unit :=
  bind (getM commit "id" (PyStr "")) (fun sha =>
  bind (getM commit "message" (PyStr "")) (fun message =>
  bind (getM commit "url" (PyStr "#")) (fun url =>
    bind (update_data_store ("push:" +:+ str sha)
            (PyDict [("message", message); ("url", url);
                     ("repo_full_name", repo_full_name)]))
         (fun _ => run_coroutine_threadsafe ("push:" +:+ str sha)
                     (Some "push"))))).

(** *** The codec, named piece by piece *)

(** The items of an array after its first, and the closing bracket. *)
Fixpoint dump_items (lvl : nat) (rest : string) (l : list value) : string :=
  match l with
  | [] => Json.newline_indent lvl (String "]"%char rest)
  | y :: l' =>
      String ","%char
        (Json.newline_indent (S lvl)
           (Json.dump (S lvl) y (dump_items lvl rest l')))
  end.

(** The members of an object after its first, and the closing brace. *)
Fixpoint dump_members (lvl : nat) (rest : string) (d : list (string * value))
  : string :=
  match d with
  | [] => Json.newline_indent lvl (String "}"%char rest)
  | (k, y) :: d' =>
      String ","%char
        (Json.newline_indent (S lvl)
           (Json.dump_str k
              (Json.pre ": "
                 (Json.dump (S lvl) y (dump_members lvl rest d')))))
  end.

(** The fuel the reader needs for a value: one unit per value and one per
    item or member. *)
Fixpoint size (v : value) : nat :=
  match v with
  | PyList l =>
      S ((fix sizes (l : list value) : nat :=
            match l with
            | [] => 0
            | x :: r => S (size x + sizes r)
            end) l)
  | PyDict d =>
      S ((fix sizes (d : list (string * value)) : nat :=
            match d with
            | [] => 0
            | (_, x) :: r => S (size x + sizes r)
            end) d)
  | _ => 1
  end.

Fixpoint sizes (l : list value) : nat :=
  match l with
  | [] => 0
  | x :: r => S (size x + sizes r)
  end.

Fixpoint member_sizes (d : list (string * value)) : nat :=
  match d with
  | [] => 0
  | (_, x) :: r => S (size x + member_sizes r)
  end.

(** What follows a value in a written document: the end of the text, a
    comma, or a line break. *)
Definition delimited (rest : string) : bool :=
  match rest with
  | EmptyString => true
  | String c _ => Ascii.eqb c ","%char || Ascii.eqb c Json.newline
  end.

(** The state of a process restarted on the file another state left. *)
Definition restarted (st : state) (d : list write_outcome) : state :=
  init (file_path st) (file st) d.

(** The reader gets [v] back from the text of [v], whatever the nesting
    depth and whatever delimiter follows, given fuel for its size. *)
Definition reads_back (v : value) : Prop :=
  forall lvl rest fuel,
    size v <= fuel -> delimited rest = true ->
    Json.load fuel (Json.dump lvl v rest) = Some (v, rest).

(** The text of [v] is at least as long as the fuel [v] needs. *)
Definition long_enough (v : value) : Prop :=
  forall lvl rest,
    size v + String.length rest <= String.length (Json.dump lvl v rest).

(* ===================================================================== *)
(** ** More of Python's strings *)
(* ===================================================================== *)

(** [c.lower()] for a code point below 256: the letters A..Z and the
    Latin-1 capitals 0xC0..0xDE, the multiplication sign 0xD7 apart. *)
Definition lower_char (c : ascii) : ascii :=
  let n := N_of_ascii c in
  if ((65 <=? n) && (n <=? 90)
      || (192 <=? n) && (n <=? 222) && negb (n =? 215))%N
  then ascii_of_N (n + 32)
  else c.

(** [s.lower()]. *)
Fixpoint lower (s : string) : string :=
  match s with
  | EmptyString => ""
  | String c r => String (lower_char c) (lower r)
  end.

(** [p in s] for two strings. *)
Fixpoint is_substring (p s : string) : bool :=
  String.prefix p s
  || match s with
     | EmptyString => false
     | String _ r => is_substring p r
     end.

(** [s[:n]]. *)
Fixpoint take_string (n : nat) (s : string) : string :=
  match n, s with
  | S m, String c r => String c (take_string m r)
  | _, _ => ""
  end.

(** *** The texts the JSON reader covers *)

Definition is_digit (c : ascii) : bool :=
  ((48 <=? N_of_ascii c) && (N_of_ascii c <=? 57))%N.

(** [c] followed by [r] may open something [json.load] reads and the reader
    of this development does not: a float (a digit followed by a point or
    an exponent), one of the constants NaN, Infinity and -Infinity, or a
    [\u] escape of a code point above 00ff.  The test looks at two
    characters only and at the two digits after [\u]; it takes no account
    of where string literals begin and end, so it also holds at places
    where nothing of the kind is read. *)
Definition opens_unread (c : ascii) (r : string) : bool :=
  match r with
  | String c' r' =>
      is_digit c && (Ascii.eqb c' "."%char || Ascii.eqb c' "e"%char
                     || Ascii.eqb c' "E"%char)
      || Ascii.eqb c "N"%char && Ascii.eqb c' "a"%char
      || Ascii.eqb c "I"%char && Ascii.eqb c' "n"%char
      || Ascii.eqb c Json.backslash && Ascii.eqb c' "u"%char
         && negb (String.prefix "00" r')
  | EmptyString => false
  end.

(** A text in which nothing of the kind occurs: on such a text the reader
    of this development has a value exactly when [json.load] has one. *)
Fixpoint plain_text (s : string) : bool :=
  match s with
  | EmptyString => true
  | String c r => negb (opens_unread c r) && plain_text r
  end.

(* ===================================================================== *)
(** ** bot/utils.py: the renderer *)
(* ===================================================================== *)

Module Utils.

(** The texts of an embed hold emoji, which lie above code point 255: a
    text is the list of its code points. *)
Definition text : Type := list N.

Definition of_string (s : string) : text :=
  List.map N_of_ascii (list_ascii_of_string s).

(** A value inside an f-string: [f"{v}"]. *)
Definition show (v : value) : text := of_string (str v).

Definition newline : text := [10%N].

(** The emoji the file ends up using, by code point. *)
Definition check_mark : text := [9989%N].
Definition hourglass : text := [9203%N].
Definition cross_mark : text := [10060%N].
Definition information : text := [8505%N; 65039%N].
Definition speech_balloon : text := [128172%N].
Definition plus_sign : text := [10133%N].
Definition label_tag : text := [127991%N; 65039%N].
Definition minus_sign : text := [10134%N].
Definition fork_and_knife : text := [127860%N].
Definition package : text := [128230%N].
Definition house : text := [127968%N].
Definition star : text := [11088%N].
Definition busts : text := [128101%N].
Definition gear : text := [9881%N; 65039%N].

(** The title case of one code point below 256: the small letters a..z and
    0xE0..0xFE (the division sign 0xF7 apart) go to their capitals; the
    micro sign, the sharp s and y with diaeresis leave the range. *)
Definition title_char (c : ascii) : text :=
  let n := N_of_ascii c in
  if ((97 <=? n) && (n <=? 122)
      || (224 <=? n) && (n <=? 254) && negb (n =? 247))%N
  then [(n - 32)%N]
  else if (n =? 181)%N then [924%N]
  else if (n =? 223)%N then [83%N; 115%N]
  else if (n =? 255)%N then [376%N]
  else [n].

(** [v.capitalize()]: only a string has the method. *)
Definition capitalize (v : value) : result text :=
  match v with
  | PyStr EmptyString => Ok []
  | PyStr (String c r) => Ok (title_char c ++ of_string (lower r))
  | _ => Raise AttributeError
  end.

(** [v[:n]]: a string or a list; None and the numbers are not
    subscriptable, and a dict does not take a slice ([TypeError] up to
    Python 3.11). *)
Definition slice_to (n : nat) (v : value) : result value :=
  match v with
  | PyStr s => Ok (PyStr (take_string n s))
  | PyList l => Ok (PyList (firstn n l))
  | _ => Raise TypeError
  end.

(** The colours of [discord.Color] the file uses. *)
Inductive Color : Type :=
| green | orange | red | blurple | blue | gold | greyple | purple | dark_blue.

Definition get_color_and_emoji (status : value) : result (Color * text) :=
  match status with
  | PyStr s =>
      let status := lower s in
      if existsb (String.eqb status)
           ["completed"; "success"; "passed"; "merged"; "active";
            "commented"; "approved"]
      then Ok (green, check_mark)
      else if existsb (String.eqb status)
                ["in_progress"; "queued"; "waiting"; "running"; "started"]
      then Ok (orange, hourglass)
      else if existsb (String.eqb status)
                ["failure"; "failed"; "error"; "cancelled"; "declined";
                 "changes_requested"]
      then Ok (red, cross_mark)
      else Ok (blurple, information)
  | _ => Raise AttributeError
  end.

(** A [discord.Embed], as far as the file sets it. *)
Record Embed : Type := mkEmbed {
  embed_color : Color;
  embed_title : option text;
  embed_url : value;                       (* None when not set *)
  embed_description : option text;
  embed_footer : option text;
  embed_author : option (text * text);      (* name, icon_url *)
  embed_timestamp : option Z;
  embed_fields : list (text * text * bool)  (* name, value, inline *)
}.

(** [key.split(':', 1)], with the fall-back of the [except ValueError]. *)
Fixpoint split_rest (s : string) : option string :=
  match s with
  | EmptyString => None
  | String c r => if Ascii.eqb c ":"%char then Some r else split_rest r
  end.

Definition kind_ident (key : string) : string * string :=
  match split_rest key with
  | Some ident => (split_head key, ident)
  | None => ("unknown", key)
  end.

(** [set_author(name="GitHub Watcher", icon_url=...)]. *)
Definition github_watcher : text * text :=
  (of_string "GitHub Watcher",
   of_string "https://github.githubassets.com/images/modules/logos_page/GitHub-Mark.png").

(** [if handler_name: embed.set_footer(text=f"Handled by: {handler_name}")]. *)
Definition footer_of (handler_name : option string) : option text :=
  match handler_name with
  | Some s =>
      if String.eqb s "" then None else Some (of_string ("Handled by: " +:+ s))
  | None => None
  end.

(** How every branch of a known kind ends once its colour, title, url and
    description are computed: the footer, the author, the time stamp, and
    the line of the log. *)
Definition finish (what key : string) (handler_name : option string) (now : Z)
    (color : Color) (title : text) (url : value) (description : text)
  : M Embed :=
  logging INFO ("Built embed for " +:+ what +:+ " event: " +:+ key) ;;
  ret (mkEmbed color (Some title) url (Some description)
               (footer_of handler_name) (Some github_watcher) (Some now) []).

(** The branches "check_run", "check_suite", "workflow_run" and
    "workflow_job": one text, with the words [caption] ("Check Run", ...)
    and the default name changing. *)
Definition status_branch (what caption default_name key : string)
    (data : value) (handler_name : option string) (now : Z) : M Embed :=
  name <- getM data "name" (PyStr default_name) ;;
  url <- getM data "url" (PyStr "#") ;;
  status <- getM data "status" (PyStr "unknown") ;;
  conclusion <- getM data "conclusion" (PyStr "unknown") ;;
  repo_full_name <- getM data "repo_full_name" (PyStr "unknown/unknown") ;;
  let overall_status :=
    if eq_str status "completed" then conclusion else status in
  ce <- lift (get_color_and_emoji overall_status) ;;
  shown <- lift (capitalize overall_status) ;;
  finish what key handler_name now (fst ce)
    (snd ce ++ of_string (" " +:+ caption +:+ ": ") ++ show name)
    url
    (of_string "**Status:** " ++ shown ++ newline
     ++ of_string ("[View " +:+ caption +:+ "](") ++ show url ++ of_string ")").

(** The branches "create" and "delete": one text, with the emoji and the
    colours of a branch, the past participle and the word before "By"
    changing. *)
Definition ref_branch (what participle : string) (branch_emoji : text)
    (branch_color other_color : Color) (key : string)
    (data : value) (handler_name : option string) (now : Z) : M Embed :=
  ref_type <- getM data "ref_type" (PyStr "unknown") ;;
  ref <- getM data "ref" (PyStr "unknown") ;;
  user <- getM data "user" (PyStr "unknown") ;;
  ref_url <- getM data "ref_url" (PyStr "#") ;;
  repo_full_name <- getM data "repo_full_name" (PyStr "unknown/unknown") ;;
  let emoji := if eq_str ref_type "branch" then branch_emoji else label_tag in
  let color := if eq_str ref_type "branch" then branch_color else other_color in
  shown <- lift (capitalize ref_type) ;;
  finish what key handler_name now color
    (emoji ++ of_string " " ++ shown ++ of_string (" " +:+ participle +:+ ": ")
     ++ show ref)
    (if negb (eq_str ref_url "#") then ref_url else PyNone)
    (of_string "**Type:** " ++ shown ++ newline
     ++ of_string "**Reference:** " ++ show ref ++ newline
     ++ of_string ("**" +:+ participle +:+ " By:** ") ++ show user ++ newline
     ++ of_string "[View " ++ shown ++ of_string "](" ++ show ref_url
     ++ of_string ")").

(** The field of the last branch: the JSON of the record, cut after 1800
    characters.  ([json.dumps] cannot fail on a record read from JSON, so
    the [except] clause of the [try] around it has no case here.) *)
Definition payload_field (data : value) : text * text * bool :=
  let json_payload := of_string (Json.dumps data) in
  let json_payload :=
    if (1800 <? length json_payload)%nat
    then firstn 1800 json_payload ++ of_string "..." ++ newline
         ++ of_string "```json" ++ newline ++ of_string "[Truncated]"
    else json_payload in
  (of_string "Event Payload",
   of_string "```json" ++ newline ++ json_payload ++ of_string "```",
   false).

(** [now] is what [discord.utils.utcnow()] returns. *)
Definition build_embed (now : Z) (key : string) (data : value)
    (handler_name : option string) : M Embed :=
  let kind := fst (kind_ident key) in
  let ident := snd (kind_ident key) in
  logging DEBUG ("build_embed called with kind='" +:+ kind +:+ "', ident='"
                 +:+ ident +:+ "', handler_name='"
                 +:+ default "None" handler_name +:+ "'") ;;
  if String.eqb kind "push" then
    message <- getM data "message" (PyStr "(no message)") ;;
    url <- getM data "url" (PyStr "#") ;;
    repo_full_name <- getM data "repo_full_name" (PyStr "unknown/unknown") ;;
    ce <- lift (get_color_and_emoji (PyStr "success")) ;;
    finish "push" key handler_name now (fst ce)
      (snd ce ++ of_string " Push to " ++ show repo_full_name)
      url
      (of_string "**Commit Message:** " ++ show message ++ newline
       ++ of_string "[View Commit](" ++ show url ++ of_string ")")
  else if String.eqb kind "pull_request" then
    title <- getM data "title" (PyStr "(no title)") ;;
    url <- getM data "url" (PyStr "#") ;;
    action <- getM data "action" (PyStr "unknown") ;;
    merged <- getM data "merged" (PyBool false) ;;
    repo_full_name <- getM data "repo_full_name" (PyStr "unknown/unknown") ;;
    ce <- lift (get_color_and_emoji
                  (if truthy merged then PyStr "merged" else action)) ;;
    shown <- lift (capitalize action) ;;
    finish "pull_request" key handler_name now (fst ce)
      (snd ce ++ of_string " Pull Request: " ++ show title)
      url
      (of_string "**Action:** " ++ shown ++ newline
       ++ of_string "**Repository:** " ++ show repo_full_name ++ newline
       ++ of_string "[View PR](" ++ show url ++ of_string ")")
  else if String.eqb kind "issue_comment" then
    commenter <- getM data "user" (PyStr "unknown") ;;
    comment_body <- getM data "body" (PyStr "") ;;
    comment_url <- getM data "url" (PyStr "#") ;;
    repo_full_name <- getM data "repo_full_name" (PyStr "unknown/unknown") ;;
    finish "issue_comment" key handler_name now blue
      (speech_balloon ++ of_string " Issue Comment by " ++ show commenter)
      comment_url
      (of_string "**Comment:** " ++ show comment_body ++ newline
       ++ of_string "[View Comment](" ++ show comment_url ++ of_string ")")
  else if String.eqb kind "commit_comment" then
    commit_sha <- getM data "commit_sha" (PyStr "unknown") ;;
    commenter <- getM data "commenter" (PyStr "unknown") ;;
    comment_url <- getM data "url" (PyStr "#") ;;
    body <- getM data "body" (PyStr "") ;;
    repo_full_name <- getM data "repo_full_name" (PyStr "unknown/unknown") ;;
    ce <- lift (get_color_and_emoji (PyStr "commented")) ;;
    short_sha <- lift (slice_to 7 commit_sha) ;;
    short_body <- lift (slice_to 80 body) ;;
    finish "commit_comment" key handler_name now (fst ce)
      (snd ce ++ of_string " Commit Comment by " ++ show commenter)
      comment_url
      (of_string "**Commit SHA:** [" ++ show short_sha
       ++ of_string "](https://github.com/" ++ show repo_full_name
       ++ of_string "/commit/" ++ show commit_sha ++ of_string ")" ++ newline
       ++ of_string "**Commenter:** " ++ show commenter ++ newline
       ++ of_string "**Comment:** " ++ show short_body ++ of_string "..."
       ++ newline
       ++ of_string "[View Comment](" ++ show comment_url ++ of_string ")")
  else if String.eqb kind "check_run" then
    status_branch "check_run" "Check Run" "Unnamed Check" key data
      handler_name now
  else if String.eqb kind "check_suite" then
    status_branch "check_suite" "Check Suite" "Unnamed Check Suite" key data
      handler_name now
  else if String.eqb kind "workflow_run" then
    status_branch "workflow_run" "Workflow Run" "Unnamed Workflow" key data
      handler_name now
  else if String.eqb kind "workflow_job" then
    status_branch "workflow_job" "Workflow Job" "Unnamed Workflow Job" key
      data handler_name now
  else if String.eqb kind "create" then
    ref_branch "create" "Created" plus_sign green blue key data handler_name
      now
  else if String.eqb kind "delete" then
    ref_branch "delete" "Deleted" minus_sign red dark_blue key data
      handler_name now
  else if String.eqb kind "fork" then
    sender <- getM data "sender" (PyStr "unknown") ;;
    repo_name <- getM data "repo_name" (PyStr "unknown/unknown") ;;
    forkee_name <- getM data "forkee_name" (PyStr "unknown") ;;
    forkee_url <- getM data "forkee_url" (PyStr "#") ;;
    repo_full_name <- getM data "repo_full_name" (PyStr "unknown/unknown") ;;
    finish "fork" key handler_name now gold
      (fork_and_knife ++ of_string " Repository Forked by " ++ show sender)
      forkee_url
      (of_string "**Original Repository:** " ++ show repo_name ++ newline
       ++ of_string "**Forked Repository:** [" ++ show forkee_name
       ++ of_string "](" ++ show forkee_url ++ of_string ")" ++ newline
       ++ of_string "[View Fork](" ++ show forkee_url ++ of_string ")")
  else if String.eqb kind "release" then
    action <- getM data "action" (PyStr "unknown") ;;
    name <- getM data "name" (PyStr "No Name") ;;
    url <- getM data "url" (PyStr "#") ;;
    publisher <- getM data "publisher" (PyStr "unknown") ;;
    repo_full_name <- getM data "repo_full_name" (PyStr "unknown/unknown") ;;
    shown <- lift (capitalize action) ;;
    finish "release" key handler_name now blue
      (package ++ of_string " Release " ++ shown ++ of_string ": "
       ++ show name)
      url
      (of_string "**Name:** " ++ show name ++ newline
       ++ of_string "**Action:** " ++ shown ++ newline
       ++ of_string "**Publisher:** " ++ show publisher ++ newline
       ++ of_string "[View Release](" ++ show url ++ of_string ")")
  else if String.eqb kind "repository" then
    action <- getM data "action" (PyStr "unknown") ;;
    repo_name <- getM data "name" (PyStr "unknown") ;;
    repo_url <- getM data "url" (PyStr "#") ;;
    owner <- getM data "owner" (PyStr "unknown") ;;
    repo_full_name <- getM data "repo_full_name" (PyStr "unknown/unknown") ;;
    shown <- lift (capitalize action) ;;
    finish "repository" key handler_name now greyple
      (house ++ of_string " Repository " ++ shown ++ of_string ": "
       ++ show repo_name)
      repo_url
      (of_string "**Repository:** [" ++ show repo_name ++ of_string "]("
       ++ show repo_url ++ of_string ")" ++ newline
       ++ of_string "**Action:** " ++ shown ++ newline
       ++ of_string "**Owner:** " ++ show owner ++ newline
       ++ of_string "[View Repository](" ++ show repo_url ++ of_string ")")
  else if String.eqb kind "watch" then
    user <- getM data "user" (PyStr "unknown") ;;
    repo_name <- getM data "repo_name" (PyStr "unknown") ;;
    repo_url <- getM data "repo_url" (PyStr "#") ;;
    action <- getM data "action" (PyStr "starred") ;;
    repo_full_name <- getM data "repo_full_name" (PyStr "unknown/unknown") ;;
    shown <- lift (capitalize action) ;;
    finish "watch" key handler_name now gold
      (star ++ of_string " " ++ shown ++ of_string " Repository")
      repo_url
      (of_string "**User:** " ++ show user ++ newline
       ++ of_string "**Repository:** [" ++ show repo_name ++ of_string "]("
       ++ show repo_url ++ of_string ")" ++ newline
       ++ of_string "[View Repository](" ++ show repo_url ++ of_string ")")
  else if String.eqb kind "member" then
    member_login <- getM data "member_login" (PyStr "unknown") ;;
    action <- getM data "action" (PyStr "unknown") ;;
    repo_full_name <- getM data "repo_full_name" (PyStr "unknown/unknown") ;;
    repo_url <- getM data "repo_url" (PyStr "#") ;;
    shown <- lift (capitalize action) ;;
    finish "member" key handler_name now purple
      (busts ++ of_string " Member " ++ shown)
      repo_url
      (of_string "**Member:** " ++ show member_login ++ newline
       ++ of_string "**Action:** " ++ shown ++ newline
       ++ of_string "**Repository:** [" ++ show repo_full_name
       ++ of_string "](" ++ show repo_url ++ of_string ")" ++ newline
       ++ of_string "[View Repository](" ++ show repo_url ++ of_string ")")
  else
    logging INFO ("Built embed for other event: " +:+ key) ;;
    ret (mkEmbed greyple (Some (gear ++ of_string " Other Event")) PyNone
           (Some (of_string "No detailed storage for this event."))
           (footer_of handler_name) (Some github_watcher) (Some now)
           [payload_field data]).

End Utils.

(* ===================================================================== *)
(** ** bot/commands.py: the administrator's commands *)
(* ===================================================================== *)

Module Commands.

(** The test [name not in handlers] and, where [name] is in, the item
    [handlers[name]]: [Ok None] when the test sends the command to its
    "does not exist" answer.  A dict is asked for the key; a list or a
    string can hold [name] but cannot be indexed by it; nothing else
    supports [in]. *)
Definition lookup_handler (handlers : value) (name : string)
  : result (option value) :=
  match handlers with
  | PyDict d => Ok (dict_lookup name d)
  | PyList l =>
      if existsb (fun x => eq_str x name) l then Raise TypeError else Ok None
  | PyStr s => if is_substring name s then Raise TypeError else Ok None
  | _ => Raise TypeError
  end.

(** [handlers[name][member] = v], where [info] is [handlers[name]].  The
    command got [handlers] from the Record Store and holds the very dict
    the store holds under ["handlers"], so the assignment shows in the store
    before anything is saved.  The result is [handlers] afterwards. *)
Definition assign_in_place (handlers : value) (name : string) (info : value)
    (member : string) (v : value) : M value :=
  match handlers, info with
  | PyDict hs, PyDict entry =>
      let handlers' :=
        PyDict (dict_set name (PyDict (dict_set member v entry)) hs) in
      fun st =>
        (Ok handlers',
         set_DATA_STORE (dict_set "handlers" handlers' (DATA_STORE st)) st)
  | _, _ => raise TypeError
  end.

(** How [listhandlers] names the channel of a handler: [channel.mention],
    or the text "Channel ID " followed by [info.get('channel_id')]. *)
Inductive channel_name : Type :=
| Mention (ch : channel)
| ChannelID (channel_id : value).

(** One field of the embed of [listhandlers]: the handler whose capitalized
    name is the title of the field, whether the status reads "Enabled", and
    the channel. *)
Record handler_field : Type := mkField {
  field_handler : string;
  field_enabled : bool;
  field_channel : channel_name
}.

(** What a command sends with [ctx.send], the last statement on each of its
    paths; one constructor for each message of the file:
    - "Handler '<handler_name>' does not exist.",
    - "Handler '<handler_name>' has been enabled." or "... disabled.",
    - "Handler '<handler_name>' channel set to <mention of the channel>.",
    - "No handlers are configured.",
    - the embed "Event Handlers" with its fields. *)
Inductive reply : Type :=
| NoSuchHandler (handler_name : string)
| Toggled (handler_name : string) (now_enabled : bool)
| ChannelSet (handler_name : string) (channel_id : Z)
| NoHandlers
| HandlerList (embed_fields : list handler_field).

Definition togglehandler (handler_name : string) : M reply :=
  let handler_name := lower handler_name in
  store <- get_data_store ;;
  handlers <- lift (get (PyDict store) "handlers" empty_dict) ;;
  found <- lift (lookup_handler handlers handler_name) ;;
  match found with
  | None => ret (NoSuchHandler handler_name)
  | Some info =>
      current <- lift (get info "enabled" (PyBool false)) ;;
      handlers <- assign_in_place handlers handler_name info "enabled"
                    (PyBool (negb (truthy current))) ;;
      update_data_store "handlers" handlers ;;
      ret (Toggled handler_name (negb (truthy current)))
  end.

(** [channel_id] is [channel.id] of the text channel the command is given. *)
Definition sethandlerchannel (handler_name : string) (channel_id : Z)
  : M reply :=
  let handler_name := lower handler_name in
  store <- get_data_store ;;
  handlers <- lift (get (PyDict store) "handlers" empty_dict) ;;
  found <- lift (lookup_handler handlers handler_name) ;;
  match found with
  | None => ret (NoSuchHandler handler_name)
  | Some info =>
      handlers <- assign_in_place handlers handler_name info "channel_id"
                    (PyInt channel_id) ;;
      update_data_store "handlers" handlers ;;
      ret (ChannelSet handler_name channel_id)
  end.

(** [handlers.items()]: only a dict has the method. *)
Definition items_of (o : value) : result (list (string * value)) :=
  match o with
  | PyDict d => Ok d
  | _ => Raise AttributeError
  end.

(** [[f(x) for x in xs]], the calls made in order. *)
Fixpoint map_M {A B} (xs : list A) (f : A -> M B) : M (list B) :=
  match xs with
  | [] => ret []
  | x :: rest => y <- f x ;; ys <- map_M rest f ;; ret (y :: ys)
  end.

(** One turn of the loop of [listhandlers]. *)
Definition list_one (config : Config) (w : world) (item : string * value)
  : M handler_field :=
  let '(handler, info) := item in
  status <- lift (get info "enabled" (PyBool false)) ;;
  channel_id <- lift (get info "channel_id"
                          (PyInt (DEFAULT_DISCORD_CHANNEL_ID config))) ;;
  ch <- call_get_channel w channel_id ;;
  match ch with
  | Some ch => ret (mkField handler (truthy status) (Mention ch))
  | None =>
      shown <- lift (get info "channel_id" PyNone) ;;
      ret (mkField handler (truthy status) (ChannelID shown))
  end.

Definition listhandlers (config : Config) (w : world) : M reply :=
  store <- get_data_store ;;
  handlers <- lift (get (PyDict store) "handlers" empty_dict) ;;
  if negb (truthy handlers) then ret NoHandlers
  else
    items <- lift (items_of handlers) ;;
    embed_fields <- map_M items (list_one config w) ;;
    ret (HandlerList embed_fields).

End Commands.
Import Commands.

(* ===================================================================== *)
(** ** flask_app/webhook.py: the signature check and the whole view *)
(* ===================================================================== *)

Module Webhook.

(** What [request.json] gives: the parsed body ([None] where the framework
    returns it), or the error response with which the framework ends the
    request when it cannot read the body as JSON (415 for a content type
    that is not JSON, 400 for a text that does not parse). *)
Inductive json_body : Type :=
| Parsed (body : value)
| Unreadable (status : Z) (description : string).

(** What the view reads of the request: [request.headers.get(name)],
    [request.data] and [request.json]. *)
Record request : Type := mkRequest {
  req_header : string -> option string;
  req_data : string;
  req_json : json_body
}.

(** [s.split(sep)]. *)
Fixpoint split (sep : ascii) (s : string) : list string :=
  match s with
  | EmptyString => [""]
  | String c r =>
      if Ascii.eqb c sep then "" :: split sep r
      else match split sep r with
           | part :: parts => String c part :: parts
           | [] => [String c ""]
           end
  end.

Fixpoint is_ascii (s : string) : bool :=
  match s with
  | EmptyString => true
  | String c r => (N_of_ascii c <? 128)%N && is_ascii r
  end.

(** [hmac.compare_digest(a, b)] on two strings: both have to be ASCII. *)
Definition compare_digest (a b : string) : result bool :=
  if is_ascii a && is_ascii b then Ok (String.eqb a b) else Raise TypeError.

(** The response of the view: the pair it returns, or the [abort]. *)
Inductive response : Type :=
| Returned (body : string) (status : Z)
| Aborted (status : Z) (description : string).

Section View.

(** [config.GITHUB_WEBHOOK_SECRET], and
    [hmac.new(secret.encode(), msg=data, digestmod='sha256').hexdigest()]
    as a function of the secret and the data. *)
Variable GITHUB_WEBHOOK_SECRET : option string.
Variable hexdigest : string -> string -> string.

Definition verify_signature (req : request) : result bool :=
  match GITHUB_WEBHOOK_SECRET with
  | None => Ok true
  | Some secret =>
      if String.eqb secret "" then Ok true
      else
        match req_header req "X-Hub-Signature-256" with
        | None => Ok false
        | Some signature =>
            if String.eqb signature "" then Ok false
            else
              match split "="%char signature with
              | [sha_name; received_sig] =>
                  if negb (String.eqb sha_name "sha256") then Ok false
                  else compare_digest received_sig
                         (hexdigest secret (req_data req))
              | _ => Ok false
              end
        end
  end.

(** The view: the check, the event type and [request.json], then the part
    embedded above as the top-level [github_webhook].  The error of
    [request.json] is raised outside the [try] and ends the request like an
    [abort]. *)
Definition github_webhook (req : request) : M response :=
  accepted <- lift (verify_signature req) ;;
  if negb accepted then
    logging WARNING "Invalid signature for incoming webhook." ;;
    ret (Aborted 403 "Invalid signature")
  else
    let event_type := default "unknown" (req_header req "X-GitHub-Event") in
    match req_json req with
    | Unreadable status description => ret (Aborted status description)
    | Parsed body =>
        r <- github_webhook event_type body ;;
        ret (Returned (fst r) (snd r))
    end.

End View.

End Webhook.

(* ===================================================================== *)
(** ** Vocabulary of the further properties *)
(* ===================================================================== *)

(** *** Invariants of computations *)

(** [m] keeps [I]: run from a state where [I] holds, it ends, returning or
    raising, in a state where [I] holds. *)
Definition keeps {A} (I : state -> Prop) (m : M A) : Prop :=
  forall st, I st -> I (exec m st).

(** What a handler does to the state, apart from reading the payload: it
    logs, and it stores a record (a dict it has just built) under an entity
    key and then queues the sync call for that key, with or without a log
    line in between. *)
Definition inbound_safe (I : state -> Prop) : Prop :=
  (forall lv msg, keeps I (logging lv msg))
  /\ (forall key record hn, key <> "handlers" ->
        keeps I (update_data_store key (PyDict record) ;;
                 run_coroutine_threadsafe key hn))
  /\ (forall key record lv msg hn, key <> "handlers" ->
        keeps I (update_data_store key (PyDict record) ;; logging lv msg ;;
                 run_coroutine_threadsafe key hn)).

(** What [send_or_edit] for [key] does to the state: it logs, it records
    its calls, and it writes the Message Map entry of [key]. *)
Definition outbound_safe (key : string) (I : state -> Prop) : Prop :=
  (forall lv msg, keeps I (logging lv msg))
  /\ (forall c, keeps I (record_call c))
  /\ (forall id, keeps I (update_message_map key id)).

(** *** Persistence *)

(** The document of two empty maps. *)
Definition empty_document : value :=
  PyDict [("DATA_STORE", PyDict []); ("MESSAGE_MAP", PyDict [])].

(** The two maps a process holds. *)
Definition stores (st : state) : list (string * value) * list (string * value) :=
  (DATA_STORE st, MESSAGE_MAP st).

(** The file holds the document of the two maps. *)
Definition in_sync (st : state) : Prop :=
  file st = Some (Json.dumps (document st)).

(** A process restarted on the file of [st] loads the maps [st] holds. *)
Definition recoverable (st : state) : Prop :=
  forall d, stores (exec load_data (restarted st d)) = stores st.

(** Since [st0], either nothing was written and the maps are those of
    [st0], or the last write put the maps of [st] in the file. *)
Definition written_through (st0 st : state) : Prop :=
  healthy st /\ file_path st = file_path st0
  /\ ((file st = file st0 /\ stores st = stores st0) \/ in_sync st).

(** *** The sync engine *)

(** Every key queued on the loop has a record in the Record Store. *)
Definition queued_are_stored (st : state) : Prop :=
  forall job, In job (loop st) -> dict_lookup (fst job) (DATA_STORE st) <> None.

(** What [send_or_edit] for [key] leaves alone, against the state [st0]. *)
Definition untouched_by_sync (key : string) (st0 st : state) : Prop :=
  DATA_STORE st = DATA_STORE st0 /\ loop st = loop st0
  /\ forall k, k <> key ->
       dict_lookup k (MESSAGE_MAP st) = dict_lookup k (MESSAGE_MAP st0).

(** What the inbound path leaves alone, against the state [st0]. *)
Definition untouched_by_inbound (st0 st : state) : Prop :=
  MESSAGE_MAP st = MESSAGE_MAP st0 /\ calls st = calls st0
  /\ dict_lookup "handlers" (DATA_STORE st)
     = dict_lookup "handlers" (DATA_STORE st0).

(** *** A push, commit by commit *)

(** The key and the record of one commit of a push, as the loop of
    [handle_push] builds them from the members [c] of the commit. *)
Definition push_key (c : list (string * value)) : string :=
  "push:" +:+ str (field c "id" (PyStr "")).

Definition push_record (repo_full_name : value) (c : list (string * value))
  : value :=
  PyDict [("message", field c "message" (PyStr ""));
          ("url", field c "url" (PyStr "#"));
          ("repo_full_name", repo_full_name)].

(** The members of a commit that is an object. *)
Definition members_of (commit : value) : list (string * value) :=
  match commit with PyDict c => c | _ => [] end.

(** The Record Store after the commits [cs] have been stored in order. *)
Definition store_commits (repo_full_name : value) (cs : list value)
    (store : list (string * value)) : list (string * value) :=
  fold_left (fun s commit =>
               dict_set (push_key (members_of commit))
                        (push_record repo_full_name (members_of commit)) s)
            cs store.

(** The sync calls a push queues for the commits [cs]. *)
Definition push_jobs (cs : list value) : list (string * option string) :=
  List.map (fun commit => (push_key (members_of commit), Some "push")) cs.

(** *** The routing table and the commands *)

(** The routing table of a store, when it is a dict. *)
Definition routing_table (store : list (string * value))
  : option (list (string * value)) :=
  match dict_lookup "handlers" store with
  | Some (PyDict hs) => Some hs
  | _ => None
  end.

(** The flag the two readers of an entry test: [info.get("enabled", False)]
    as a truth value. *)
Definition entry_enabled (entry : list (string * value)) : bool :=
  truthy (field entry "enabled" (PyBool false)).

(** The channel id the two readers of an entry resolve. *)
Definition entry_channel_id (config : Config) (entry : list (string * value))
  : value :=
  field entry "channel_id" (PyInt (DEFAULT_DISCORD_CHANNEL_ID config)).

(** The field [listhandlers] shows for an entry. *)
Definition listed (config : Config) (w : world) (handler : string)
    (entry : list (string * value)) : handler_field :=
  mkField handler (entry_enabled entry)
    match get_channel w (entry_channel_id config entry) with
    | Some ch => Mention ch
    | None => ChannelID (field entry "channel_id" PyNone)
    end.

(** Every entry of the table is an object. *)
Definition entries_are_dicts (hs : list (string * value)) : bool :=
  forallb (fun kv => is_dict (snd kv)) hs.

(** What happens to a running process, one thing after the other: a
    delivery run to quiescence, or a command of an administrator.  A command
    that raises leaves its exception with the framework; the process goes
    on. *)
Inductive operation : Type :=
| Delivers (ev : delivery)
| TogglesHandler (handler_name : string)
| SetsHandlerChannel (handler_name : string) (channel_id : Z)
| ListsHandlers (w : world).

Definition settle {A} (m : M A) : M unit :=
  try_except (m ;; ret tt) (fun _ => Some (ret tt)).

Definition run_operation (config : Config) (op : operation) : M unit :=
  match op with
  | Delivers ev => deliver config (ev_world ev) (ev_type ev) (ev_body ev)
  | TogglesHandler handler_name => settle (togglehandler handler_name)
  | SetsHandlerChannel handler_name channel_id =>
      settle (sethandlerchannel handler_name channel_id)
  | ListsHandlers w => settle (listhandlers config w)
  end.

Fixpoint run_operations (config : Config) (ops : list operation) : M unit :=
  match ops with
  | [] => ret tt
  | op :: rest => run_operation config op ;; run_operations config rest
  end.

(** No Discord traffic in a trace: no fetch, no edit, no send. *)
Definition traffic (cs : list call) : nat :=
  count is_fetch cs + count is_edit cs + count is_send cs.

(** *** The signature header *)

(** A lower-case hexadecimal digit. *)
Definition is_hex_char (c : ascii) : bool :=
  let n := N_of_ascii c in
  ((48 <=? n) && (n <=? 57) || (97 <=? n) && (n <=? 102))%N.

Fixpoint is_hex (s : string) : bool :=
  match s with
  | EmptyString => true
  | String c r => is_hex_char c && is_hex r
  end.

(** Sample data. *)
Definition sample_digest (secret data : string) : string := "00ff".

Definition signed (signature : option string) : Webhook.request :=
  Webhook.mkRequest
    (fun name => if String.eqb name "X-Hub-Signature-256" then signature
                 else if String.eqb name "X-GitHub-Event" then Some "push"
                 else None)
    "{}" (Webhook.Parsed push_abc).

(** The same delivery sent as a form: the framework refuses to read it as
    JSON. *)
Definition signed_form (signature : option string) : Webhook.request :=
  Webhook.mkRequest (Webhook.req_header (signed signature)) "payload=%7B%7D"
    (Webhook.Unreadable 415 "Unsupported Media Type").

(** A table with one handler, switched off. *)
Definition one_handler : list (string * value) :=
  [("handlers", PyDict [("push", PyDict [("enabled", PyBool false)])])].

Definition configured (d : list write_outcome) : state :=
  mkState "data_store.json" one_handler [] None d [] [] [].

(** A world whose renderer raises, and one whose send is refused. *)
Definition broken_renderer : world :=
  mkWorld (fun _ _ _ => Raise AttributeError) (fun _ => Some "general")
          (fun _ _ => Ok tt) (fun _ _ _ => Ok tt) (fun _ _ => Ok 1%Z).

Definition send_refused : world :=
  mkWorld (fun _ _ _ => Ok "embed") (fun _ => Some "general")
          (fun _ _ => Ok tt) (fun _ _ _ => Ok tt)
          (fun _ _ => Raise HTTPException).

(** A push whose second commit is not an object. *)
Definition push_with_bad_commit : value :=
  PyDict [("repository", PyDict [("full_name", PyStr "octo/repo")]);
          ("commits", PyList [PyDict [("id", PyStr "abc123")];
                              PyStr "def456";
                              PyDict [("id", PyStr "0a1b2c")]])].

(** The table after [handlers[name][member] = v]. *)
Definition assigned (hs : list (string * value)) (name : string)
    (entry : list (string * value)) (member : string) (v : value)
  : list (string * value) :=
  dict_set name (PyDict (dict_set member v entry)) hs.

(** *** The renderer *)

(** The kinds [build_embed] has a branch for. *)
Definition rendered_kinds : list string :=
  ["push"; "pull_request"; "issue_comment"; "commit_comment"; "check_run";
   "check_suite"; "workflow_run"; "workflow_job"; "create"; "delete"; "fork";
   "release"; "repository"; "watch"; "member"].

(** The event types whose handlers build keys of a kind without a branch. *)
Definition unrendered_events : list string :=
  ["issues"; "pull_request_review"; "pull_request_review_comment"; "public"].

(** The embed of the last branch. *)
Definition other_event (data : value) (handler_name : option string) (now : Z)
  : Utils.Embed :=
  Utils.mkEmbed Utils.greyple
    (Some (Utils.gear ++ Utils.of_string " Other Event")) PyNone
    (Some (Utils.of_string "No detailed storage for this event."))
    (Utils.footer_of handler_name) (Some Utils.github_watcher) (Some now)
    [Utils.payload_field data].

Definition is_str (v : value) : bool :=
  match v with PyStr _ => true | _ => false end.

(** A value that takes a slice. *)
Definition sliceable (v : value) : bool :=
  match v with PyStr _ | PyList _ => true | _ => false end.

(** What the branch of [kind] asks of the record [d] beyond being a dict:
    the member it capitalizes or lower-cases has to be a string, the members
    it slices have to take a slice. *)
Definition renders (kind : string) (d : list (string * value)) : bool :=
  if String.eqb kind "pull_request" then
    is_str (field d "action" (PyStr "unknown"))
  else if String.eqb kind "commit_comment" then
    sliceable (field d "commit_sha" (PyStr "unknown"))
    && sliceable (field d "body" (PyStr ""))
  else if existsb (String.eqb kind)
            ["check_run"; "check_suite"; "workflow_run"; "workflow_job"] then
    is_str (if eq_str (field d "status" (PyStr "unknown")) "completed"
            then field d "conclusion" (PyStr "unknown")
            else field d "status" (PyStr "unknown"))
  else if existsb (String.eqb kind) ["create"; "delete"] then
    is_str (field d "ref_type" (PyStr "unknown"))
  else if existsb (String.eqb kind) ["release"; "repository"; "member"] then
    is_str (field d "action" (PyStr "unknown"))
  else if String.eqb kind "watch" then
    is_str (field d "action" (PyStr "starred"))
  else true.

(** The word of the last log line of [build_embed] for a kind. *)
Definition logged_kind (kind : string) : string :=
  if existsb (String.eqb kind) rendered_kinds then kind else "other".

(** No object in [v] has a key twice.  (On a repeated key the reader of this
    development keeps both members and a lookup finds the first, where
    [json.load] keeps the last.) *)
Fixpoint distinct_keys (v : value) : bool :=
  match v with
  | PyList l => forallb distinct_keys l
  | PyDict d =>
      (fix members (d : list (string * value)) : bool :=
         match d with
         | [] => true
         | (k, x) :: r =>
             negb (existsb (fun kv => String.eqb (fst kv) k) r)
             && distinct_keys x && members r
         end) d
  | _ => true
  end.

(** A pull request whose action is null. *)
Definition pull_request_without_action : value :=
  PyDict [("title", PyStr "Fix"); ("action", PyNone)].

(** What [build_embed] asks of the record of a key of kind [kind]: every
    branch but the last reads the members of a dict. *)
Definition renderable (kind : string) (data : value) : bool :=
  match data with
  | PyDict d => renders kind d
  | _ => negb (existsb (String.eqb kind) rendered_kinds)
  end.

(** What every branch puts on its embed: the author, the time stamp, the
    footer when a handler name is given, a title and a description. *)
Definition dressed (now : Z) (handler_name : option string) (e : Utils.Embed)
  : Prop :=
  Utils.embed_author e = Some Utils.github_watcher
  /\ Utils.embed_timestamp e = Some now
  /\ Utils.embed_footer e = Utils.footer_of handler_name
  /\ Utils.embed_title e <> None
  /\ Utils.embed_description e <> None.

(** Every value of the Record Store is a dict. *)
Definition records_are_dicts (st : state) : Prop :=
  forall k v, dict_lookup k (DATA_STORE st) = Some v -> is_dict v = true.

(* ===================================================================== *)
(** ** bot/discord_bot.py: [send_or_edit] as a coroutine *)
(* ===================================================================== *)

(** [send_or_edit] is a coroutine: at each [await] it hands its call to the
    loop and is suspended until the answer is there, and meanwhile the loop
    runs whatever else is ready.  Between two of its steps a coroutine has
    ended, or it waits for the answer to the call it has made: for a fetch
    or an edit the answer is the outcome, for a send the id of the new
    message. *)
#[warnings="-register-all"] Inductive coroutine : Type :=
| Ended (r : result unit)
| Awaiting (c : call) (resume : result Z -> state -> coroutine * state).

Module Coroutine.

(** [await c]: the call is made and the coroutine is suspended. *)
Definition await (c : call) (resume : result Z -> state -> coroutine * state)
  : state -> coroutine * state :=
  fun st => (Awaiting c resume, set_calls (calls st ++ [c]) st).

(** A stretch without [await] that runs to the end of the coroutine, inside
    the outer [try]. *)
Definition finish (key : string) (m : M unit) : state -> coroutine * state :=
  fun st =>
    (Ended (fst (try_except m (outer_handler key) st)),
     snd (try_except m (outer_handler key) st)).

Section Bot.

Variable config : Config.
Variable w : world.

(** [new_msg = await channel.send(embed=embed)] and the two statements that
    follow it, in the [except discord.NotFound] clause and in the [else]
    branch; [sent] is the line logged at the end. *)
Definition send_new (key : string) (ch : channel) (e : embed) (sent : string)
  : state -> coroutine * state :=
  await (Send ch e) (fun new_msg =>
    finish key (new_msg <- lift new_msg ;;
                update_message_map key (PyInt new_msg) ;;
                logging INFO sent)).

(** The body of the outer [try]. *)
Definition send_or_edit_body (key : string) (ch : channel) (e : embed)
  : state -> coroutine * state :=
  fun st =>
    match dict_lookup key (MESSAGE_MAP st) with
    | Some message_id =>
        await (FetchMessage ch message_id) (fun old_msg =>
          match old_msg with
          | Ok _ =>
              await (EditMessage ch message_id e) (fun edited =>
                match edited with
                | Ok _ =>
                    finish key
                      (logging INFO ("Edited existing message for " +:+ key +:+
                                     " in channel '" +:+ ch +:+ "'"))
                | Raise NotFound =>
                    send_new key ch e
                      ("Sent new message (old not found) for " +:+ key +:+
                       " in channel '" +:+ ch +:+ "'")
                | Raise ex => finish key (raise ex)
                end)
          | Raise NotFound =>
              send_new key ch e
                ("Sent new message (old not found) for " +:+ key +:+
                 " in channel '" +:+ ch +:+ "'")
          | Raise ex => finish key (raise ex)
          end) st
    | None =>
        send_new key ch e
          ("Sent new message for " +:+ key +:+ " in channel '" +:+ ch +:+ "'")
          st
    end.

(** What comes before the outer [try]; nothing in it is awaited.  It ends
    the coroutine ([None]) or reaches the [try] with the channel and the
    embed. *)
Definition before_try (key : string) (handler_name : option string)
  : M (option (channel * embed)) :=
  let handler := split_head key in
  store <- get_data_store ;;
  handlers <- lift (get (PyDict store) "handlers" empty_dict) ;;
  handler_config <- lift (get handlers handler empty_dict) ;;
  enabled <- lift (get handler_config "enabled" (PyBool false)) ;;
  if negb (truthy enabled) then
    logging INFO ("Handler '" +:+ handler +:+
                  "' is disabled. Skipping send_or_edit for key '" +:+ key +:+ "'.") ;;
    ret None
  else
    store <- get_data_store ;;
    data <- lift (get (PyDict store) key empty_dict) ;;
    e <- call_build_embed w key data handler_name ;;
    channel_id <- lift (get handler_config "channel_id"
                            (PyInt (DEFAULT_DISCORD_CHANNEL_ID config))) ;;
    ch <- call_get_channel w channel_id ;;
    match ch with
    | None =>
        logging ERROR ("Channel " +:+ str channel_id +:+ " for handler '" +:+
                       handler +:+ "' not found.") ;;
        ret None
    | Some ch => ret (Some (ch, e))
    end.

(** The coroutine from its start to its first [await], or to its end. *)
Definition send_or_edit (key : string) (handler_name : option string)
  : state -> coroutine * state :=
  fun st =>
    match before_try key handler_name st with
    | (Ok (Some (ch, e)), st') => send_or_edit_body key ch e st'
    | (Ok None, st') => (Ended (Ok tt), st')
    | (Raise ex, st') => (Ended (Raise ex), st')
    end.

(** The answer of the remote side to an awaited call. *)
Definition answer (c : call) : result Z :=
  match c with
  | FetchMessage ch message_id =>
      match fetch_message w ch message_id with
      | Ok _ => Ok 0%Z
      | Raise ex => Raise ex
      end
  | EditMessage ch message_id e =>
      match edit w ch message_id e with
      | Ok _ => Ok 0%Z
      | Raise ex => Raise ex
      end
  | Send ch e => send w ch e
  | _ => Ok 0%Z
  end.

(** The loop resumes a coroutine whose answer has come: it runs to its next
    [await] or to its end. *)
Definition resume (co : coroutine) : state -> coroutine * state :=
  match co with
  | Ended r => fun st => (Ended r, st)
  | Awaiting c k => k (answer c)
  end.

(** A coroutine that no other interrupts: started and then resumed at each
    of its [await]s (there are at most three on a path: fetch, edit,
    send). *)
Definition uninterrupted (key : string) (handler_name : option string)
  : state -> coroutine * state :=
  fun st =>
    let s1 := send_or_edit key handler_name st in
    let s2 := resume (fst s1) (snd s1) in
    let s3 := resume (fst s2) (snd s2) in
    resume (fst s3) (snd s3).

End Bot.

End Coroutine.

(** Two deliveries of the same push arrive one right after the other: both
    coroutines are on the loop before the first has got the answer to its
    send.  The loop starts the first ([smooth 5] answers it), starts the
    second while the first waits ([smooth 6] answers it), then resumes the
    first and the second with their answers. *)
Definition two_pushes_received : state :=
  set_loop []
    (exec (github_webhook "push" push_abc ;; github_webhook "push" push_abc)
          (started [])).

Definition overlapped : coroutine * coroutine * state :=
  let a := Coroutine.send_or_edit default_config (smooth 5) "push:abc123"
             (Some "push") two_pushes_received in
  let b := Coroutine.send_or_edit default_config (smooth 6) "push:abc123"
             (Some "push") (snd a) in
  let a' := Coroutine.resume (smooth 5) (fst a) (snd b) in
  let b' := Coroutine.resume (smooth 6) (fst b) (snd a') in
  (fst a', fst b', snd b').

(* ===================================================================== *)
(** ** The canonical records, as a table *)
(* ===================================================================== *)

(** The record of every event type whose handler reads it member by member:
    the members in the order of the dict literal, each with the path it is
    read along and its default.  (Not in the table: push, one record per
    commit; workflow_run, behind its filter; create and delete, whose sender
    and reference url are computed.) *)
Definition RECORD_SCHEME
  : list (string * list (string * (list string * value))) :=
  [ ("check_run",
     [("name", (["check_run"; "name"], PyStr "Unnamed Check"));
      ("url", (["check_run"; "html_url"], PyStr "#"));
      ("status", (["check_run"; "status"], PyStr "unknown"));
      ("conclusion", (["check_run"; "conclusion"], PyStr "unknown"));
      ("head_sha", (["check_run"; "head_sha"], PyStr "unknown"));
      ("repo_full_name",
       (["repository"; "full_name"], PyStr "unknown/unknown"))]);
    ("check_suite",
     [("name", (["check_suite"; "name"], PyStr "Unnamed Check Suite"));
      ("url", (["check_suite"; "html_url"], PyStr "#"));
      ("status", (["check_suite"; "status"], PyStr "unknown"));
      ("conclusion", (["check_suite"; "conclusion"], PyStr "unknown"));
      ("head_sha", (["check_suite"; "head_sha"], PyStr "unknown"));
      ("repo_full_name",
       (["check_suite"; "repository"; "full_name"],
        PyStr "unknown/unknown"))]);
    ("workflow_job",
     [("name", (["workflow_job"; "name"], PyStr "Unnamed Workflow Job"));
      ("url", (["workflow_job"; "html_url"], PyStr "#"));
      ("status", (["workflow_job"; "status"], PyStr "unknown"));
      ("conclusion", (["workflow_job"; "conclusion"], PyStr "unknown"));
      ("head_sha", (["workflow_job"; "head_sha"], PyStr "unknown"));
      ("repo_full_name",
       (["workflow_job"; "repository"; "full_name"],
        PyStr "unknown/unknown"))]);
    ("pull_request",
     [("title", (["pull_request"; "title"], PyStr ""));
      ("url", (["pull_request"; "html_url"], PyStr "#"));
      ("action", (["action"], PyStr "unknown"));
      ("merged", (["pull_request"; "merged"], PyBool false));
      ("repo_full_name",
       (["repository"; "full_name"], PyStr "unknown/unknown"))]);
    ("pull_request_review",
     [("user", (["review"; "user"; "login"], PyStr "unknown"));
      ("url", (["review"; "html_url"], PyStr "#"));
      ("action", (["review"; "state"], PyStr "commented"));
      ("body", (["review"; "body"], PyStr ""));
      ("repo_full_name",
       (["repository"; "full_name"], PyStr "unknown/unknown"))]);
    ("pull_request_review_comment",
     [("user", (["comment"; "user"; "login"], PyStr "unknown"));
      ("url", (["comment"; "html_url"], PyStr "#"));
      ("body", (["comment"; "body"], PyStr ""));
      ("repo_full_name",
       (["repository"; "full_name"], PyStr "unknown/unknown"))]);
    ("issues",
     [("title", (["issue"; "title"], PyStr ""));
      ("url", (["issue"; "html_url"], PyStr "#"));
      ("action", (["action"], PyStr "unknown"));
      ("repo_full_name",
       (["repository"; "full_name"], PyStr "unknown/unknown"))]);
    ("issue_comment",
     [("user", (["comment"; "user"; "login"], PyStr "unknown"));
      ("url", (["comment"; "html_url"], PyStr "#"));
      ("body", (["comment"; "body"], PyStr ""));
      ("repo_full_name",
       (["repository"; "full_name"], PyStr "unknown/unknown"))]);
    ("fork",
     [("sender", (["sender"; "login"], PyStr "unknown"));
      ("repo_name", (["repository"; "full_name"], PyStr "unknown/unknown"));
      ("forkee_name", (["forkee"; "full_name"], PyStr "unknown"));
      ("forkee_url", (["forkee"; "html_url"], PyStr "#"));
      ("repo_full_name",
       (["repository"; "full_name"], PyStr "unknown/unknown"))]);
    ("release",
     [("action", (["action"], PyStr "unknown"));
      ("name", (["release"; "name"], PyStr "No Name"));
      ("url", (["release"; "html_url"], PyStr "#"));
      ("publisher", (["sender"; "login"], PyStr "unknown"));
      ("repo_full_name",
       (["repository"; "full_name"], PyStr "unknown/unknown"))]);
    ("watch",
     [("action", (["action"], PyStr "starred"));
      ("user", (["sender"; "login"], PyStr "unknown"));
      ("repo_name", (["repository"; "full_name"], PyStr "unknown/unknown"));
      ("repo_url", (["repository"; "html_url"], PyStr "#"));
      ("repo_full_name",
       (["repository"; "full_name"], PyStr "unknown/unknown"))]);
    ("member",
     [("member_login", (["member"; "login"], PyStr "unknown"));
      ("action", (["action"], PyStr "unknown"));
      ("repo_full_name",
       (["repository"; "full_name"], PyStr "unknown/unknown"));
      ("repo_url", (["repository"; "html_url"], PyStr "#"))]);
    ("public",
     [("action", (["action"], PyStr "made public"));
      ("repo_full_name",
       (["repository"; "full_name"], PyStr "unknown/unknown"));
      ("repo_url", (["repository"; "html_url"], PyStr "#"));
      ("sender", (["sender"; "login"], PyStr "unknown"))]);
    ("repository",
     [("action", (["action"], PyStr "unknown"));
      ("name", (["repository"; "full_name"], PyStr "unknown/unknown"));
      ("url", (["repository"; "html_url"], PyStr "#"));
      ("owner", (["repository"; "owner"; "login"], PyStr "unknown"));
      ("repo_full_name",
       (["repository"; "full_name"], PyStr "unknown/unknown"))]);
    ("commit_comment",
     [("commit_sha", (["comment"; "commit_id"], PyStr "unknown"));
      ("commenter", (["comment"; "user"; "login"], PyStr "unknown"));
      ("url", (["comment"; "html_url"], PyStr "#"));
      ("body", (["comment"; "body"], PyStr ""));
      ("repo_full_name",
       (["repository"; "full_name"], PyStr "unknown/unknown"))]) ].

(** The record of a payload under such a list of members. *)
Fixpoint record_of (members : list (string * (list string * value)))
    (payload : value) : result (list (string * value)) :=
  match members with
  | [] => Ok []
  | (name, (path, dflt)) :: rest =>
      match follow payload path dflt with
      | Ok v =>
          match record_of rest payload with
          | Ok r => Ok ((name, v) :: r)
          | Raise e => Raise e
          end
      | Raise e => Raise e
      end
  end.

(** The event types with one key per event whose handler stores whatever
    the payload says: all of the key scheme but workflow_run. *)
Definition stores_always (event_type : string) : bool :=
  negb (String.eqb event_type "workflow_run").

(** What such a handler comes to on a well-shaped payload: the record [r]
    stored under the key [k], the lines [lines] logged, the sync call
    queued. *)
Definition store_and_schedule (event_type k : string)
    (r : list (string * value)) (lines : list string) : M unit :=
  update_data_store k (PyDict r) ;;
  for_each lines (logging INFO) ;;
  run_coroutine_threadsafe k (Some event_type).

(** A release event for a store in which releases are switched off. *)
Definition release_v1_record : list (string * value) :=
  [("action", PyStr "published"); ("name", PyStr "v1"); ("url", PyStr "#");
   ("publisher", PyStr "unknown");
   ("repo_full_name", PyStr "unknown/unknown")].

(** The state in which the route calls the handler. *)
Definition at_handler (event_type : string) (d : list (string * value))
    (st : state) : state :=
  set_log (log st ++ [(INFO, "Received event: " +:+ event_type);
                      (DEBUG, "Payload: " +:+ Json.dumps (PyDict d));
                      (INFO, "Handling event: " +:+ event_type)]) st.

(* ===================================================================== *)
(** ** Dicts *)
(* ===================================================================== *)

Lemma dict_lookup_set_eq k x d : dict_lookup k (dict_set k x d) = Some x.
Proof.
  induction d as [|[k' y] d IH]; simpl.
  - by rewrite String.eqb_refl.
  - destruct (String.eqb k' k) eqn:E; simpl; rewrite E; [done | exact IH].
Qed.

Lemma dict_lookup_set_ne k k' x d :
  k <> k' -> dict_lookup k' (dict_set k x d) = dict_lookup k' d.
Proof.
  intros Hne. induction d as [|[k0 y] d IH]; simpl.
  - destruct (String.eqb k k') eqn:E; [|done].
    apply String.eqb_eq in E. contradiction.
  - destruct (String.eqb k0 k) eqn:E; simpl.
    + apply String.eqb_eq in E. subst k0.
      destruct (String.eqb k k') eqn:E'; [|done].
      apply String.eqb_eq in E'. contradiction.
    + destruct (String.eqb k0 k'); [done | exact IH].
Qed.

Lemma dict_lookup_set k k' x d :
  dict_lookup k' (dict_set k x d)
  = if String.eqb k k' then Some x else dict_lookup k' d.
Proof.
  destruct (String.eqb k k') eqn:E.
  - apply String.eqb_eq in E. subst. apply dict_lookup_set_eq.
  - apply String.eqb_neq in E. by apply dict_lookup_set_ne.
Qed.

(** Setting a key twice is setting it once to the later value. *)
Lemma dict_set_set k x y d : dict_set k y (dict_set k x d) = dict_set k y d.
Proof.
  induction d as [|[k' z] d IH]; simpl.
  - by rewrite String.eqb_refl.
  - destruct (String.eqb k' k) eqn:E; simpl; rewrite E; [done | by rewrite IH].
Qed.

(* ===================================================================== *)
(** ** The Record Store: overwrite semantics *)
(* ===================================================================== *)

Lemma update_data_store_DATA_STORE key v st :
  DATA_STORE (exec (update_data_store key v) st) = dict_set key v (DATA_STORE st).
Proof.
  unfold exec, update_data_store, save_data, write_file, bind, logging. simpl.
  destruct (disk st) as [|[|?] ?]; reflexivity.
Qed.

Lemma update_data_store_MESSAGE_MAP key v st :
  MESSAGE_MAP (exec (update_data_store key v) st) = MESSAGE_MAP st.
Proof.
  unfold exec, update_data_store, save_data, write_file, bind, logging. simpl.
  destruct (disk st) as [|[|?] ?]; reflexivity.
Qed.

Lemma update_message_map_MESSAGE_MAP key v st :
  MESSAGE_MAP (exec (update_message_map key v) st)
  = dict_set key v (MESSAGE_MAP st).
Proof.
  unfold exec, update_message_map, save_data, write_file, bind, logging. simpl.
  destruct (disk st) as [|[|?] ?]; reflexivity.
Qed.

(** C9.  After [upsert(k, r1)] then [upsert(k, r2)], [get(k)] is exactly
    [r2], whatever [r1] held (the record is replaced as a whole, no field
    of [r1] survives), and the entry of every other key is what it was
    before the two calls.  This holds whatever the disk does at the two
    flushes. *)
Theorem C9_overwrite_semantics :
  forall (st : state) (k : string) (r1 r2 : value),
    let st2 := exec (update_data_store k r2) (exec (update_data_store k r1) st) in
    eval (get_record k) st2 = Ok (Some r2)
    /\ (forall k', k' <> k ->
          eval (get_record k') st2 = eval (get_record k') st)
    /\ DATA_STORE st2 = dict_set k r2 (DATA_STORE st).
Proof.
  intros st k r1 r2 st2. subst st2.
  unfold eval, get_record, get_data_store, bind, ret. simpl.
  rewrite !update_data_store_DATA_STORE, dict_set_set.
  split; [|split].
  - by rewrite dict_lookup_set_eq.
  - intros k' Hne. rewrite dict_lookup_set_ne; [done | congruence].
  - reflexivity.
Qed.

(* ===================================================================== *)
(** ** The Sync Engine: routing *)
(* ===================================================================== *)

(** With the category disabled, [send_or_edit] logs one line and returns:
    nothing else of the state moves. *)
Lemma send_or_edit_disabled config w key handler_name st :
  disabled (DATA_STORE st) (category_of key) = true ->
  send_or_edit config w key handler_name st
  = (Ok tt, set_log (log st ++ [(INFO, disabled_message key)]) st).
Proof.
  unfold disabled, enabled_flag, routing_entry, category_of, disabled_message.
  unfold send_or_edit, bind, get_data_store, lift. simpl.
  destruct (get _ (split_head key) _) as [hc|]; [|discriminate].
  destruct (get hc "enabled" _) as [v|]; [|discriminate].
  intros ->. reflexivity.
Qed.

Lemma unconfigured_disabled store category :
  unconfigured store category -> disabled store category = true.
Proof.
  unfold disabled, enabled_flag, routing_entry, get.
  intros [H | [(h & H & Hc) | (h & c & H & Hc & He)]]; rewrite H; simpl.
  - reflexivity.
  - by rewrite Hc.
  - rewrite Hc. simpl. by rewrite He.
Qed.

(** C10.  For a key whose category has no routing entry (no ["handlers"]
    object in the store, or the category missing from it, or an entry
    without an ["enabled"] field), [send_or_edit] is a no-op: it returns
    normally having made no call at all (no rendering, no channel lookup, no
    fetch, edit or send) and having changed neither map nor the file; only
    the "disabled" line is logged. *)
Theorem C10_unconfigured_category_is_disabled :
  forall (config : Config) (w : world) (key : string)
         (handler_name : option string) (st : state),
    unconfigured (DATA_STORE st) (category_of key) ->
    let st' := exec (send_or_edit config w key handler_name) st in
    eval (send_or_edit config w key handler_name) st = Ok tt
    /\ calls st' = calls st
    /\ MESSAGE_MAP st' = MESSAGE_MAP st
    /\ DATA_STORE st' = DATA_STORE st
    /\ file st' = file st
    /\ st' = set_log (log st ++ [(INFO, disabled_message key)]) st.
Proof.
  intros config w key hn st H st'. subst st'. unfold exec, eval.
  rewrite send_or_edit_disabled by (by apply unconfigured_disabled).
  simpl. repeat split.
Qed.

Lemma C10_witness :
  let st := init "data_store.json" None [] in
  unconfigured (DATA_STORE st) (category_of "push:abc123")
  /\ calls (exec (send_or_edit default_config quiet "push:abc123" (Some "push")) st)
     = [].
Proof.
  assert (H : unconfigured (DATA_STORE (init "data_store.json" None []))
                           (category_of "push:abc123")) by (left; reflexivity).
  split; [exact H|].
  exact (proj1 (proj2 (C10_unconfigured_category_is_disabled
                         default_config quiet "push:abc123" (Some "push")
                         (init "data_store.json" None []) H))).
Defined.

Ltac unfold_monad :=
  unfold exec, eval, bind, lift, ret, raise, try_except, logging, record_call,
    run_coroutine_threadsafe, get_data_store, get_message_map,
    call_build_embed, call_get_channel, call_fetch_message, call_edit,
    call_send in *.

(** With the category enabled, the record rendered and the channel found,
    [send_or_edit] is its [try] block, run after the two preliminary calls. *)
Lemma send_or_edit_ready config w key handler_name st cid ch e :
  ready config w key handler_name st cid ch e ->
  send_or_edit config w key handler_name st
  = try_except (send_or_edit_body w key ch e) (outer_handler key)
      (set_calls (calls st ++ prelude key handler_name st cid) st).
Proof.
  unfold ready, enabled, enabled_flag, channel_id_for, routing_entry,
    category_of, record_for, prelude.
  intros (Hen & Hemb & Hcid & Hch).
  unfold send_or_edit. unfold_monad. simpl in *.
  destruct (get _ (split_head key) _) as [hc|]; [|discriminate].
  destruct (get hc "enabled" _) as [v|]; [|discriminate].
  rewrite Hen. simpl. rewrite Hemb. simpl. rewrite Hcid. simpl. rewrite Hch.
  rewrite <- app_assoc. simpl. reflexivity.
Qed.

(* ===================================================================== *)
(** ** The Sync Engine: a key that has a message *)
(* ===================================================================== *)

Ltac case_disk st :=
  destruct (disk st) as [|[|?] ?]; simpl.

(** C3.  Let [key] have the entry [mid] in the Message Map when
    [send_or_edit] reaches its [try] block.  The stored message is fetched
    and, if found, edited.
    - If both calls succeed, the Message Map is not modified and nothing is
      sent.
    - If either call reports not-found, one new message is sent; when the
      send returns [id] the entry of [key] is overwritten with [id] (and
      every other entry is kept), and when the send fails the map is not
      modified.
    - If either call fails for another reason, the attempt stops there:
      nothing is sent and the Message Map is not modified.
    In every case [send_or_edit] itself returns normally. *)
Theorem C3_existing_message_edit_outcomes :
  forall (config : Config) (w : world) (key : string)
         (handler_name : option string) (st : state)
         (cid : value) (ch : channel) (e : embed) (mid : value),
    ready config w key handler_name st cid ch e ->
    dict_lookup key (MESSAGE_MAP st) = Some mid ->
    let st' := exec (send_or_edit config w key handler_name) st in
    let before := calls st ++ prelude key handler_name st cid in
    eval (send_or_edit config w key handler_name) st = Ok tt
    /\ (fetch_message w ch mid = Ok tt -> edit w ch mid e = Ok tt ->
          MESSAGE_MAP st' = MESSAGE_MAP st
          /\ calls st' = before ++ [FetchMessage ch mid; EditMessage ch mid e])
    /\ (forall attempt,
          (fetch_message w ch mid = Raise NotFound
           /\ attempt = [FetchMessage ch mid])
          \/ (fetch_message w ch mid = Ok tt /\ edit w ch mid e = Raise NotFound
              /\ attempt = [FetchMessage ch mid; EditMessage ch mid e]) ->
          calls st' = before ++ attempt ++ [Send ch e]
          /\ (forall id, send w ch e = Ok id ->
                MESSAGE_MAP st' = dict_set key (PyInt id) (MESSAGE_MAP st)
                /\ dict_lookup key (MESSAGE_MAP st') = Some (PyInt id))
          /\ (forall ex, send w ch e = Raise ex ->
                MESSAGE_MAP st' = MESSAGE_MAP st))
    /\ (forall ex, ex <> NotFound ->
          (fetch_message w ch mid = Raise ex ->
             MESSAGE_MAP st' = MESSAGE_MAP st
             /\ calls st' = before ++ [FetchMessage ch mid])
          /\ (fetch_message w ch mid = Ok tt -> edit w ch mid e = Raise ex ->
                MESSAGE_MAP st' = MESSAGE_MAP st
                /\ calls st' = before
                               ++ [FetchMessage ch mid; EditMessage ch mid e])).
Proof.
  intros config w key hn st cid ch e mid Hready Hmid st' before.
  subst st' before. unfold exec, eval.
  rewrite (send_or_edit_ready _ _ _ _ _ _ _ _ Hready).
  unfold send_or_edit_body, outer_handler, update_message_map, save_data,
    write_file.
  unfold_monad. simpl. rewrite Hmid. simpl.
  destruct (fetch_message w ch mid) as [[]|exf] eqn:Hf; simpl.
  - destruct (edit w ch mid e) as [[]|exe] eqn:He; simpl.
    + split; [done|]. split; [|split].
      * intros _ _. by rewrite <- !app_assoc.
      * intros attempt [[? _]|(_ & ? & _)]; discriminate.
      * intros ex Hex. split; [discriminate|]. intros _ ?. discriminate.
    + destruct exe; simpl;
        try (split; [done|]; split; [intros _ ?; discriminate|]; split;
             [ intros attempt [[? _]|(_ & ? & _)]; discriminate
             | intros ex Hex; split; [discriminate|]; intros _ _;
               by rewrite <- !app_assoc ]).
      destruct (send w ch e) as [id|exs] eqn:Hs; simpl.
      * case_disk st; (split; [done|]; split; [intros _ ?; discriminate|];
          split;
          [ intros attempt [[? _]|(_ & _ & ->)]; [discriminate|];
            split; [by rewrite <- !app_assoc|]; split;
            [ intros id' [= <-]; split; [done | apply dict_lookup_set_eq]
            | intros ex ?; discriminate ]
          | intros ex Hex; split; [discriminate|]; intros _ [= <-]; done ]).
      * destruct (is_HTTPException exs); simpl;
          (split; [done|]; split; [intros _ ?; discriminate|]; split;
           [ intros attempt [[? _]|(_ & _ & ->)]; [discriminate|];
             split; [by rewrite <- !app_assoc|]; split;
             [ intros id' ?; discriminate | done ]
           | intros ex Hex; split; [discriminate|]; intros _ [= <-]; done ]).
  - destruct exf; simpl;
      try (split; [done|]; split; [intros ?; discriminate|]; split;
           [ intros attempt [[? _]|(? & _)]; discriminate
           | intros ex Hex; split; [|intros ?; discriminate]; intros _;
             by rewrite <- !app_assoc ]).
    destruct (send w ch e) as [id|exs] eqn:Hs; simpl.
    + case_disk st; (split; [done|]; split; [intros ?; discriminate|];
        split;
        [ intros attempt [[_ ->]|(? & _)]; [|discriminate];
          split; [by rewrite <- !app_assoc|]; split;
          [ intros id' [= <-]; split; [done | apply dict_lookup_set_eq]
          | intros ex ?; discriminate ]
        | intros ex Hex; split; [|intros ?; discriminate]; intros [= <-]; done ]).
    + destruct (is_HTTPException exs); simpl;
        (split; [done|]; split; [intros ?; discriminate|]; split;
         [ intros attempt [[_ ->]|(? & _)]; [|discriminate];
           split; [by rewrite <- !app_assoc|]; split;
           [ intros id' ?; discriminate | done ]
         | intros ex Hex; split; [|intros ?; discriminate]; intros [= <-]; done ]).
Qed.

Lemma C3_witness :
  ready default_config (deleted 22) "push:abc123" (Some "push") live
        (PyInt 1284897403706806423) "general" "embed"
  /\ dict_lookup "push:abc123" (MESSAGE_MAP live) = Some (PyInt 11)
  /\ dict_lookup "push:abc123"
       (MESSAGE_MAP (exec (send_or_edit default_config (deleted 22)
                             "push:abc123" (Some "push")) live))
     = Some (PyInt 22).
Proof.
  assert (Hr : ready default_config (deleted 22) "push:abc123" (Some "push")
                 live (PyInt 1284897403706806423) "general" "embed")
    by (repeat split; reflexivity).
  assert (Hm : dict_lookup "push:abc123" (MESSAGE_MAP live) = Some (PyInt 11))
    by reflexivity.
  split; [exact Hr|]. split; [exact Hm|].
  pose proof (C3_existing_message_edit_outcomes default_config (deleted 22)
                "push:abc123" (Some "push") live _ _ _ _ Hr Hm) as H.
  destruct H as (_ & _ & Hgone & _).
  destruct (Hgone [FetchMessage "general" (PyInt 11)]
              (or_introl (conj eq_refl eq_refl))) as (_ & Hid & _).
  exact (proj2 (Hid 22%Z eq_refl)).
Defined.

(* ===================================================================== *)
(** ** Persistence: a write that fails *)
(* ===================================================================== *)

(** The route catches whatever the handler raises and answers OK. *)
Lemma github_webhook_total event_type body st :
  eval (github_webhook event_type body) st = Ok ("OK", 200%Z).
Proof.
  unfold github_webhook. unfold_monad. simpl.
  destruct (handle_event _ _ _) as [[[]|ex] st1]; reflexivity.
Qed.

Lemma github_webhook_logs_failure event_type body st ex :
  truthy body = true ->
  eval (handle_event event_type body)
       (exec (logging INFO ("Received event: " +:+ event_type) ;;
              logging DEBUG ("Payload: " +:+ Json.dumps body)) st) = Raise ex ->
  exists entries,
    log (exec (github_webhook event_type body) st)
    = entries ++ [(ERROR, "Error handling event '" +:+ event_type +:+ "': "
                          +:+ exn_str ex)].
Proof.
  intros Hb. unfold github_webhook. rewrite Hb. unfold_monad. simpl.
  destruct (handle_event _ _ _) as [[[]|ex'] st1]; simpl; [discriminate|].
  intros [= ->]. by eexists.
Qed.


(* ===================================================================== *)
(** ** Handlers act on the store the same way from any state *)
(* ===================================================================== *)

Lemma frame_init st0 : healthy st0 -> frame st0 st0 blank.
Proof.
  intros H. unfold frame, overlay. simpl. rewrite app_nil_r.
  repeat split; try done. constructor.
Qed.

Lemma framed_ret {A} st0 (a : A) : framed st0 (ret a).
Proof. intros st b H. by split. Qed.

Lemma framed_lift {A} st0 (r : result A) : framed st0 (lift r).
Proof. intros st b H. by split. Qed.

Lemma framed_getM st0 o k d : framed st0 (getM o k d).
Proof. apply framed_lift. Qed.

Lemma framed_bind {A B} st0 (m : M A) (k : A -> M B) :
  framed st0 m -> (forall a, framed st0 (k a)) -> framed st0 (bind m k).
Proof.
  intros Hm Hk st b H. destruct (Hm st b H) as [He Hf].
  unfold eval, exec, bind in *.
  destruct (m st) as [[a|e] st1], (m b) as [[a'|e'] b1]; simpl in *;
    try discriminate.
  - injection He as ->. apply (Hk a' st1 b1 Hf).
  - injection He as ->. by split.
Qed.

Lemma framed_try_except {A} st0 (m : M A) handler :
  framed st0 m ->
  (forall e h, handler e = Some h -> framed st0 h) ->
  framed st0 (try_except m handler).
Proof.
  intros Hm Hh st b H. destruct (Hm st b H) as [He Hf].
  unfold eval, exec, try_except in *.
  destruct (m st) as [[a|e] st1], (m b) as [[a'|e'] b1]; simpl in *;
    try discriminate.
  - by split.
  - injection He as ->. destruct (handler e') as [h|] eqn:E.
    + apply (Hh _ _ E st1 b1 Hf).
    + by split.
Qed.

Lemma framed_logging st0 lv msg : framed st0 (logging lv msg).
Proof. intros st b H. split; [done|]. exact H. Qed.

Lemma framed_run_coroutine_threadsafe st0 key hn :
  framed st0 (run_coroutine_threadsafe key hn).
Proof.
  intros st b (H1 & H2 & H3 & H4 & H5 & H6 & H7). split; [done|].
  unfold frame, exec, run_coroutine_threadsafe. simpl.
  rewrite H3, app_assoc. repeat split; done.
Qed.

Lemma healthy_tail o d : Forall (fun o => o = Written) (o :: d) ->
  o = Written /\ Forall (fun o => o = Written) d.
Proof. intros H. by inversion H. Qed.

Lemma framed_update_data_store st0 key v :
  key <> "handlers" -> framed st0 (update_data_store key v).
Proof.
  intros Hkey st b (H1 & H2 & H3 & H4 & H5 & H6 & H7).
  unfold healthy in *.
  unfold frame, healthy, update_data_store, save_data, write_file.
  unfold_monad. simpl.
  assert (Hl : forall k, dict_lookup k (dict_set key v (DATA_STORE st))
               = overlay (dict_set key v (DATA_STORE b)) (DATA_STORE st0) k).
  { intros k. unfold overlay in *. rewrite !dict_lookup_set, H4.
    by destruct (String.eqb key k). }
  assert (Hh : dict_lookup "handlers" (dict_set key v (DATA_STORE b)) = None).
  { by rewrite dict_lookup_set_ne. }
  destruct (disk st) as [|o d], (disk b) as [|o' d']; simpl.
  - repeat split; done.
  - apply healthy_tail in H2 as [-> H2]. simpl. repeat split; done.
  - apply healthy_tail in H1 as [-> H1]. simpl. repeat split; done.
  - apply healthy_tail in H1 as [-> H1]. apply healthy_tail in H2 as [-> H2].
    simpl. repeat split; done.
Qed.

Lemma framed_for_each {A} st0 (xs : list A) body :
  (forall x, framed st0 (body x)) -> framed st0 (for_each xs body).
Proof.
  intros Hb. induction xs as [|x xs IH]; simpl.
  - apply framed_ret.
  - apply framed_bind; [apply Hb | intros _; exact IH].
Qed.

(** An entity key opens with its category and so is not ["handlers"]. *)
Lemma literal_ne c1 s1 t c2 s2 :
  c1 <> c2 -> String c1 s1 +:+ t <> String c2 s2.
Proof. intros Hc. change (String c1 (s1 +:+ t) <> String c2 s2). congruence. Qed.

Ltac key_ne := apply literal_ne; discriminate.

Create HintDb framed.
#[local] Hint Resolve framed_ret framed_lift framed_getM framed_logging
  framed_run_coroutine_threadsafe : framed.
#[local] Hint Extern 2 (framed _ (update_data_store _ _)) =>
  apply framed_update_data_store; key_ne : framed.

Ltac framed_step :=
  lazymatch goal with
  | |- framed _ (bind _ _) => apply framed_bind; [|intros ?]
  | |- framed _ (if ?c then _ else _) => destruct c
  | |- framed _ (for_each _ _) => apply framed_for_each; intros ?
  | |- framed _ (let _ := _ in _) => cbv zeta
  | |- framed _ _ => solve [auto with framed]
  end.

Ltac framed_handler h := unfold h; repeat framed_step.

Lemma framed_handlers st0 h payload :
  In h (List.map snd EVENT_HANDLERS) -> framed st0 (h payload).
Proof.
  simpl. intros H.
  repeat (destruct H as [<-|H]; [|]); try contradiction.
  all: try solve
    [ framed_handler handle_push | framed_handler handle_check_run
    | framed_handler handle_check_suite | framed_handler handle_workflow_run
    | framed_handler handle_workflow_job | framed_handler handle_pull_request
    | framed_handler handle_pull_request_review
    | framed_handler handle_pull_request_review_comment
    | framed_handler handle_issues | framed_handler handle_issue_comment
    | unfold handle_create, sender_of; repeat framed_step
    | unfold handle_delete, sender_of; repeat framed_step
    | framed_handler handle_fork | framed_handler handle_release
    | framed_handler handle_watch | framed_handler handle_member
    | framed_handler handle_public | framed_handler handle_repository
    | framed_handler handle_commit_comment ].
Qed.

Lemma handler_of_In event_type table h :
  handler_of event_type table = Some h -> In h (List.map snd table).
Proof.
  induction table as [|[name h'] table IH]; simpl; [discriminate|].
  destruct (String.eqb name event_type).
  - intros [= ->]. by left.
  - intros H. right. by apply IH.
Qed.

Lemma framed_handle_event st0 event_type payload :
  framed st0 (handle_event event_type payload).
Proof.
  unfold handle_event.
  destruct (handler_of event_type EVENT_HANDLERS) as [h|] eqn:E.
  - apply framed_bind; [apply framed_logging|intros _].
    apply framed_handlers. by apply handler_of_In in E.
  - apply framed_logging.
Qed.

Lemma framed_github_webhook st0 event_type body :
  framed st0 (github_webhook event_type body).
Proof.
  unfold github_webhook.
  repeat (apply framed_bind; [|intros ?]);
    try apply framed_logging; try apply framed_ret.
  apply framed_try_except; [apply framed_handle_event|].
  intros e h [= <-]. apply framed_logging.
Qed.

(** What the inbound path does from a state whose disk works is what it does
    from [blank], laid over that state. *)
Lemma normalize_frame st event_type body :
  healthy st ->
  frame st (exec (github_webhook event_type body) st) (normalize event_type body).
Proof.
  intros H. apply framed_github_webhook. by apply frame_init.
Qed.

(* ===================================================================== *)
(** ** Routing reads the ["handlers"] entry only *)
(* ===================================================================== *)

Lemma routing_entry_ext s1 s2 category :
  dict_lookup "handlers" s1 = dict_lookup "handlers" s2 ->
  routing_entry s1 category = routing_entry s2 category.
Proof. unfold routing_entry, get. by intros ->. Qed.

Lemma disabled_ext s1 s2 category :
  dict_lookup "handlers" s1 = dict_lookup "handlers" s2 ->
  disabled s1 category = disabled s2 category.
Proof.
  intros H. unfold disabled, enabled_flag.
  by rewrite (routing_entry_ext _ _ _ H).
Qed.

Lemma enabled_ext s1 s2 category :
  dict_lookup "handlers" s1 = dict_lookup "handlers" s2 ->
  enabled s1 category = enabled s2 category.
Proof.
  intros H. unfold enabled, enabled_flag.
  by rewrite (routing_entry_ext _ _ _ H).
Qed.

Lemma channel_id_for_ext config s1 s2 category :
  dict_lookup "handlers" s1 = dict_lookup "handlers" s2 ->
  channel_id_for config s1 category = channel_id_for config s2 category.
Proof.
  intros H. unfold channel_id_for. by rewrite (routing_entry_ext _ _ _ H).
Qed.

(** The inbound path leaves the Routing Table alone. *)
Lemma frame_handlers st0 st b :
  frame st0 st b ->
  dict_lookup "handlers" (DATA_STORE st) = dict_lookup "handlers" (DATA_STORE st0).
Proof.
  intros (_ & _ & _ & H4 & H5 & _). rewrite H4. unfold overlay. by rewrite H5.
Qed.

(* ===================================================================== *)
(** ** Disabled routing *)
(* ===================================================================== *)

Lemma run_all_disabled config w jobs st :
  (forall job, In job jobs ->
     disabled (DATA_STORE st) (category_of (fst job)) = true) ->
  exists entries, run_all config w jobs st = (Ok tt, set_log entries st).
Proof.
  revert st. induction jobs as [|[key hn] jobs IH]; intros st H; simpl.
  - exists (log st). by destruct st.
  - unfold bind, run_coroutine, try_except. simpl.
    rewrite send_or_edit_disabled by (apply (H (key, hn)); by left).
    destruct (IH (set_log (log st ++ [(INFO, disabled_message key)]) st))
      as [entries ->].
    + intros job Hj. apply H. by right.
    + by exists entries.
Qed.

(** An event all of whose keys are in disabled categories, delivered to a
    state whose disk works and whose loop is idle, causes no call at all and
    leaves the Message Map as it was; the Record Store holds what the
    inbound path stores from [blank], laid over what it held before. *)
Lemma deliver_disabled config w event_type body st :
  healthy st -> loop st = [] ->
  (forall k, In k (keys event_type body) ->
     disabled (DATA_STORE st) (category_of k) = true) ->
  let st' := exec (deliver config w event_type body) st in
  calls st' = calls st
  /\ MESSAGE_MAP st' = MESSAGE_MAP st
  /\ loop st' = []
  /\ (forall k, dict_lookup k (DATA_STORE st')
                = overlay (records event_type body) (DATA_STORE st) k).
Proof.
  intros Hh Hloop Hdis st'. subst st'. rename event_type into et.
  pose proof (normalize_frame st et body Hh) as Hf.
  pose proof (frame_handlers _ _ _ Hf) as Hhandlers.
  destruct Hf as (_ & _ & H3 & H4 & _ & H6 & H7).
  unfold deliver, exec, bind in *. unfold run_loop.
  destruct (github_webhook et body st) as [[r|ex] st1] eqn:E; simpl in *.
  2:{ pose proof (github_webhook_total et body st) as Ht.
      unfold eval in Ht. rewrite E in Ht. discriminate. }
  destruct (run_all_disabled config w (loop st1) (set_loop [] st1))
    as [entries ->].
  - intros job Hj. simpl.
    rewrite (disabled_ext _ (DATA_STORE st) _ Hhandlers).
    apply Hdis. rewrite H3, Hloop in Hj. simpl in Hj.
    unfold keys. by apply in_map.
  - simpl. repeat split; done.
Qed.

(* ===================================================================== *)
(** ** The workflow_run filter *)
(* ===================================================================== *)

Ltac unfold_store :=
  unfold update_data_store, update_message_map, save_data, write_file in *.

Lemma write_ok_cases st :
  write_ok st = true -> disk st = [] \/ exists d, disk st = Written :: d.
Proof.
  unfold write_ok. destruct (disk st) as [|[|?] d]; try discriminate; eauto.
Qed.

(** C6.  (1) A workflow_run event whose action is not "completed" makes
    [handle_workflow_run] return before it touches anything but the log: no
    Record Store mutation, no write to the disk, no sync call queued.
    (2) With action "completed" (the ["workflow_run"] object and its
    ["repository"] being dicts or missing, and the disk taking the write)
    the handler returns normally with the record stored under
    [workflow_run:<run id>] and one sync call for that key queued. *)
Theorem C6_workflow_run_only_when_completed :
  (forall (payload : value) (st : state),
     get payload "action" (PyStr "") <> Ok (PyStr "completed") ->
     let st' := exec (handle_workflow_run payload) st in
     DATA_STORE st' = DATA_STORE st /\ MESSAGE_MAP st' = MESSAGE_MAP st
     /\ loop st' = loop st /\ file st' = file st /\ disk st' = disk st
     /\ calls st' = calls st)
  /\ (forall (payload : value) (st : state) (wr repo : list (string * value)),
        get payload "action" (PyStr "") = Ok (PyStr "completed") ->
        get payload "workflow_run" empty_dict = Ok (PyDict wr) ->
        get (PyDict wr) "repository" empty_dict = Ok (PyDict repo) ->
        write_ok st = true ->
        let st' := exec (handle_workflow_run payload) st in
        eval (handle_workflow_run payload) st = Ok tt
        /\ DATA_STORE st'
           = dict_set (workflow_run_key wr) (workflow_run_record wr repo)
                      (DATA_STORE st)
        /\ dict_lookup (workflow_run_key wr) (DATA_STORE st')
           = Some (workflow_run_record wr repo)
        /\ loop st' = loop st ++ [(workflow_run_key wr, Some "workflow_run")]).
Proof.
  split.
  - intros payload st Hact st'. subst st'.
    unfold handle_workflow_run, getM. unfold_monad.
    destruct (get payload "workflow_run" empty_dict) as [wr|]; simpl;
      [|by repeat split].
    destruct (get payload "action" (PyStr "")) as [action|] eqn:Ha; simpl;
      [|by repeat split].
    destruct (eq_str action "completed") eqn:E; simpl; [|by repeat split].
    exfalso. apply Hact. f_equal.
    destruct action; try discriminate. simpl in E.
    apply String.eqb_eq in E. by subst.
  - intros payload st wr repo Hact Hwr Hrepo Hok st'. subst st'.
    unfold handle_workflow_run, getM. unfold_store. unfold_monad.
    rewrite Hwr. simpl. rewrite Hact. simpl.
    unfold get in Hrepo. injection Hrepo as Hrepo.
    fold (field wr "repository" empty_dict) in Hrepo.
    unfold field in Hrepo. rewrite Hrepo. simpl.
    unfold workflow_run_key, workflow_run_record, field.
    destruct (write_ok_cases st Hok) as [->|[d ->]]; simpl;
      (split; [done|]; split; [done|]; split; [apply dict_lookup_set_eq|done]).
Qed.

Lemma C6_witness :
  get (run_99 "in_progress") "action" (PyStr "") <> Ok (PyStr "completed")
  /\ get (run_99 "completed") "action" (PyStr "") = Ok (PyStr "completed")
  /\ write_ok (started []) = true
  /\ loop (exec (handle_workflow_run (run_99 "in_progress")) (started [])) = []
  /\ loop (exec (handle_workflow_run (run_99 "completed")) (started []))
     = [("workflow_run:99", Some "workflow_run")].
Proof.
  assert (H : get (run_99 "in_progress") "action" (PyStr "")
              <> Ok (PyStr "completed")) by discriminate.
  split; [exact H|]. split; [reflexivity|]. split; [reflexivity|].
  split.
  - exact (proj1 (proj2 (proj2 (proj1 C6_workflow_run_only_when_completed
                                  (run_99 "in_progress") (started []) H)))).
  - exact (proj2 (proj2 (proj2 (proj2 C6_workflow_run_only_when_completed
             (run_99 "completed") (started [])
             [("id", PyInt 99); ("name", PyStr "CI")] []
             eq_refl eq_refl eq_refl eq_refl)))).
Defined.

(** The scenario of the specification: the in_progress event is dropped,
    the completed event for the same run is stored and sent. *)
Example workflow_run_scenario :
  let st1 := exec (deliver default_config (smooth 5) "workflow_run"
                           (run_99 "in_progress")) (started []) in
  let st2 := exec (deliver default_config (smooth 5) "workflow_run"
                           (run_99 "completed")) st1 in
  DATA_STORE st1 = routing_sample /\ calls st1 = []
  /\ dict_lookup "workflow_run:99" (DATA_STORE st2)
     = Some (workflow_run_record [("id", PyInt 99); ("name", PyStr "CI")] [])
  /\ List.filter is_send (calls st2) = [Send "general" "embed"]
  /\ MESSAGE_MAP st2 = [("workflow_run:99", PyInt 5)].
Proof. repeat split. Qed.

(* ===================================================================== *)
(** ** Handlers are total on well-shaped payloads *)
(* ===================================================================== *)

Lemma getM_dict d name dflt st :
  getM (PyDict d) name dflt st = (Ok (field d name dflt), st).
Proof. reflexivity. Qed.

Lemma shaped_object d name :
  shaped (PyDict d) = true -> object_name name = true ->
  exists d', field d name empty_dict = PyDict d' /\ shaped (PyDict d') = true.
Proof.
  intros Hs Hn. unfold field.
  induction d as [|[k x] d IH]; simpl in *.
  - by exists [].
  - apply andb_true_iff in Hs as [Hk Hs].
    destruct (String.eqb k name) eqn:E; simpl.
    + apply String.eqb_eq in E. subst k. rewrite Hn in Hk.
      apply andb_true_iff in Hk as [Hd Hx].
      destruct x; try discriminate. by eexists.
    + by apply IH.
Qed.

Lemma shaped_commits d :
  shaped (PyDict d) = true ->
  field d "commits" (PyList []) = PyList []
  \/ exists l, field d "commits" (PyList []) = PyList l
               /\ forallb is_dict l = true.
Proof.
  intros Hs. unfold field.
  induction d as [|[k x] d IH]; simpl in *; [by left|].
  apply andb_true_iff in Hs as [Hk Hs].
  destruct (String.eqb k "commits") eqn:E; simpl.
  - apply String.eqb_eq in E. subst k. simpl in Hk.
    destruct x; try discriminate. right. by eexists.
  - by apply IH.
Qed.

Lemma total_ret {A} (a : A) : total (ret a).
Proof. intros st H. split; [by eexists | done]. Qed.

Lemma total_bind {A B} (m : M A) (k : A -> M B) :
  total m -> (forall a, total (k a)) -> total (bind m k).
Proof.
  intros Hm Hk st H. destruct (Hm st H) as [[a Ha] Hh].
  unfold eval, exec, bind in *.
  destruct (m st) as [[a'|e] st1]; simpl in *; [|discriminate].
  apply (Hk a' st1 Hh).
Qed.

Lemma total_bind_get {B} d name dflt (k : value -> M B) :
  total (k (field d name dflt)) -> total (bind (getM (PyDict d) name dflt) k).
Proof.
  intros Hk st H. unfold eval, exec, bind. rewrite getM_dict. apply (Hk st H).
Qed.

Lemma total_logging lv msg : total (logging lv msg).
Proof. intros st H. split; [by eexists | done]. Qed.

Lemma total_run_coroutine_threadsafe key hn :
  total (run_coroutine_threadsafe key hn).
Proof. intros st H. split; [by eexists | done]. Qed.

Lemma total_update_data_store key v : total (update_data_store key v).
Proof.
  intros st H. unfold healthy in *. unfold_store. unfold_monad. simpl.
  destruct (disk st) as [|o d]; simpl.
  - split; [by eexists | done].
  - apply healthy_tail in H as [-> H]. simpl. split; [by eexists | done].
Qed.

Lemma total_for_each {A} (xs : list A) body :
  (forall x, In x xs -> total (body x)) -> total (for_each xs body).
Proof.
  induction xs as [|x xs IH]; intros Hb; simpl.
  - apply total_ret.
  - apply total_bind; [apply Hb; by left | intros _; apply IH].
    intros y Hy. apply Hb. by right.
Qed.

Ltac total_step Hs :=
  lazymatch goal with
  | |- total (bind (getM (PyDict ?d) ?name empty_dict) _) =>
      apply total_bind_get;
      let d' := fresh "d" in
      let Hd := fresh "Hd" in
      let Hs' := fresh "Hs" in
      destruct (shaped_object d name ltac:(assumption) eq_refl)
        as (d' & Hd & Hs');
      rewrite Hd; clear Hd; cbv beta
  | |- total (bind (getM (PyDict _) _ _) _) => apply total_bind_get; cbv beta
  | |- total (bind (update_data_store _ _) _) =>
      apply total_bind; [apply total_update_data_store | intros _]
  | |- total (bind (logging _ _) _) =>
      apply total_bind; [apply total_logging | intros _]
  | |- total (run_coroutine_threadsafe _ _) =>
      apply total_run_coroutine_threadsafe
  | |- total (logging _ _) => apply total_logging
  | |- total (if ?c then _ else _) => destruct c
  | |- total (let _ := _ in _) => cbv zeta
  end.

Lemma total_handle_push d :
  shaped (PyDict d) = true -> total (handle_push (PyDict d)).
Proof.
  intros Hs. unfold handle_push.
  apply total_bind_get. cbv beta.
  do 2 total_step Hs.
  assert (Hbody : forall l, forallb is_dict l = true ->
            total (for_each l (fun commit =>
              bind (getM commit "id" (PyStr "")) (fun sha =>
              bind (getM commit "message" (PyStr "")) (fun message =>
              bind (getM commit "url" (PyStr "#")) (fun url =>
                bind (update_data_store ("push:" +:+ str sha)
                        (PyDict [("message", message); ("url", url);
                                 ("repo_full_name",
                                  field d0 "full_name" (PyStr "unknown/unknown"))]))
                     (fun _ => run_coroutine_threadsafe ("push:" +:+ str sha)
                                 (Some "push")))))))).
  { intros l Hl. apply total_for_each. intros c Hc.
    rewrite forallb_forall in Hl. specialize (Hl c Hc).
    destruct c; try discriminate. repeat total_step Hs. }
  destruct (shaped_commits d Hs) as [->|(l & -> & Hl)];
    intros st H; unfold eval, exec, bind, lift, iter.
  - simpl. split; [by eexists | done].
  - apply (Hbody l Hl st H).
Qed.

Lemma sender_of_dict d :
  shaped (PyDict d) = true ->
  exists v, forall st, sender_of (PyDict d) st = (Ok v, st).
Proof.
  intros Hs. unfold sender_of, bind.
  destruct (shaped_object d "sender" Hs eq_refl) as (d' & Hd & _).
  destruct (truthy (PyDict d')) eqn:E.
  - exists (field d' "login" PyNone). intros st.
    rewrite getM_dict, Hd, E. reflexivity.
  - exists (field d "user" (PyStr "unknown")). intros st.
    rewrite getM_dict, Hd, E. reflexivity.
Qed.

Lemma total_bind_pure {A B} (m : M A) (k : A -> M B) v :
  (forall st, m st = (Ok v, st)) -> total (k v) -> total (bind m k).
Proof.
  intros Hm Hk st H. unfold eval, exec, bind. rewrite Hm. apply (Hk st H).
Qed.

Lemma total_handlers h d :
  In h (List.map snd EVENT_HANDLERS) ->
  shaped (PyDict d) = true -> total (h (PyDict d)).
Proof.
  intros H Hs. simpl in H.
  repeat (destruct H as [<-|H]; [|]); try contradiction.
  - by apply total_handle_push.
  - unfold handle_check_run. repeat total_step Hs.
  - unfold handle_check_suite. repeat total_step Hs.
  - unfold handle_workflow_run. repeat total_step Hs.
  - unfold handle_workflow_job. repeat total_step Hs.
  - unfold handle_pull_request. repeat total_step Hs.
  - unfold handle_pull_request_review. repeat total_step Hs.
  - unfold handle_pull_request_review_comment. repeat total_step Hs.
  - unfold handle_issues. repeat total_step Hs.
  - unfold handle_issue_comment. repeat total_step Hs.
  - unfold handle_create. repeat total_step Hs.
    destruct (sender_of_dict d Hs) as [v Hv].
    apply (total_bind_pure _ _ v Hv). repeat total_step Hs.
  - unfold handle_delete. repeat total_step Hs.
    destruct (sender_of_dict d Hs) as [v Hv].
    apply (total_bind_pure _ _ v Hv). repeat total_step Hs.
  - unfold handle_fork. repeat total_step Hs.
  - unfold handle_release. repeat total_step Hs.
  - unfold handle_watch. repeat total_step Hs.
  - unfold handle_member. repeat total_step Hs.
  - unfold handle_public. repeat total_step Hs.
  - unfold handle_repository. repeat total_step Hs.
  - unfold handle_commit_comment. repeat total_step Hs.
Qed.

(* ===================================================================== *)
(** ** A payload without its core object *)
(* ===================================================================== *)


(* ===================================================================== *)
(** ** At most one live message per key *)
(* ===================================================================== *)

Lemma count_app p l1 l2 : count p (l1 ++ l2) = count p l1 + count p l2.
Proof. unfold count. by rewrite List.filter_app, length_app. Qed.

Lemma enabled_channel_id config store category :
  enabled store category = true ->
  exists cid, channel_id_for config store category = Ok cid.
Proof.
  unfold enabled, enabled_flag, channel_id_for.
  destruct (routing_entry store category) as [hc|]; [|discriminate].
  destruct hc; try discriminate. intros _. by eexists.
Qed.

Lemma responsive_ready config w id key hn st :
  responsive w id ->
  enabled (DATA_STORE st) (category_of key) = true ->
  exists cid ch e, ready config w key hn st cid ch e.
Proof.
  intros (Hr & Hc & _) Hen.
  destruct (enabled_channel_id config _ _ Hen) as [cid Hcid].
  destruct (Hc cid) as [ch Hch].
  destruct (Hr key (record_for (DATA_STORE st) key) hn) as [e He].
  exists cid, ch, e. by repeat split.
Qed.

Ltac finish_step :=
  repeat split; try done; try (by rewrite <- !app_assoc).

(** What one run of [send_or_edit] does once it is [ready], on a disk that
    works and with a send that returns [id]. *)
Lemma send_or_edit_step config w key hn st cid ch e id :
  ready config w key hn st cid ch e ->
  healthy st ->
  send w ch e = Ok id ->
  let st' := exec (send_or_edit config w key hn) st in
  let before := calls st ++ prelude key hn st cid in
  healthy st' /\ DATA_STORE st' = DATA_STORE st /\ loop st' = loop st
  /\ match dict_lookup key (MESSAGE_MAP st) with
     | None =>
         MESSAGE_MAP st' = dict_set key (PyInt id) (MESSAGE_MAP st)
         /\ calls st' = before ++ [Send ch e]
     | Some mid =>
         (fetch_message w ch mid = Ok tt -> edit w ch mid e = Ok tt ->
            MESSAGE_MAP st' = MESSAGE_MAP st
            /\ calls st' = before ++ [FetchMessage ch mid; EditMessage ch mid e])
         /\ (fetch_message w ch mid = Raise NotFound ->
               MESSAGE_MAP st' = dict_set key (PyInt id) (MESSAGE_MAP st)
               /\ calls st' = before ++ [FetchMessage ch mid; Send ch e])
         /\ (fetch_message w ch mid = Ok tt ->
             edit w ch mid e = Raise NotFound ->
               MESSAGE_MAP st' = dict_set key (PyInt id) (MESSAGE_MAP st)
               /\ calls st' = before ++ [FetchMessage ch mid;
                                         EditMessage ch mid e; Send ch e])
     end.
Proof.
  intros Hready Hh Hsend st' before. subst st' before. unfold exec.
  rewrite (send_or_edit_ready _ _ _ _ _ _ _ _ Hready).
  unfold send_or_edit_body, outer_handler. unfold_store. unfold_monad.
  unfold healthy in *. simpl.
  destruct (dict_lookup key (MESSAGE_MAP st)) as [mid|]; simpl.
  - destruct (fetch_message w ch mid) as [[]|exf]; simpl.
    + destruct (edit w ch mid e) as [[]|exe]; simpl; [by finish_step|].
      destruct exe; simpl; try (by finish_step).
      rewrite Hsend. simpl.
      destruct (disk st) as [|o d]; simpl; [by finish_step|].
      apply healthy_tail in Hh as [-> Hh]. simpl. by finish_step.
    + destruct exf; simpl; try (by finish_step).
      rewrite Hsend. simpl.
      destruct (disk st) as [|o d]; simpl; [by finish_step|].
      apply healthy_tail in Hh as [-> Hh]. simpl. by finish_step.
  - rewrite Hsend. simpl.
    destruct (disk st) as [|o d]; simpl; [by finish_step|].
    apply healthy_tail in Hh as [-> Hh]. simpl. by finish_step.
Qed.

(** A delivery that normalizes to one key is, after the inbound path, one
    run of [send_or_edit] for that key. *)
Lemma deliver_single config w event_type body st k :
  healthy st -> loop st = [] -> keys event_type body = [k] ->
  exists st1 hn,
    exec (deliver config w event_type body) st
    = exec (send_or_edit config w k hn) st1
    /\ healthy st1 /\ loop st1 = []
    /\ MESSAGE_MAP st1 = MESSAGE_MAP st /\ calls st1 = calls st
    /\ dict_lookup "handlers" (DATA_STORE st1)
       = dict_lookup "handlers" (DATA_STORE st).
Proof.
  intros Hh Hloop Hkeys.
  pose proof (normalize_frame st event_type body Hh) as Hf.
  pose proof (frame_handlers _ _ _ Hf) as Hhandlers.
  destruct Hf as (H1 & _ & H3 & _ & _ & H6 & H7).
  unfold keys in Hkeys. rewrite Hloop in H3. simpl in H3.
  destruct (loop (normalize event_type body)) as [|[k' hn] [|? ?]];
    try discriminate.
  injection Hkeys as ->.
  pose proof (github_webhook_total event_type body st) as Ht.
  unfold deliver, exec, eval, bind, run_loop in *.
  destruct (github_webhook event_type body st) as [[r|ex] st1]; simpl in *;
    [|discriminate].
  exists (set_loop [] st1), hn. rewrite H3. simpl.
  unfold bind, run_coroutine, try_except. simpl.
  split; [|by repeat split].
  by destruct (send_or_edit config w k hn (set_loop [] st1)) as [[[]|ex] st2].
Qed.

Lemma deliver_first config k ev st :
  settled k st -> dict_lookup k (MESSAGE_MAP st) = None -> about k ev ->
  let st' := exec (deliver config (ev_world ev) (ev_type ev) (ev_body ev)) st in
  settled k st'
  /\ dict_lookup k (MESSAGE_MAP st') = Some (PyInt (ev_id ev))
  /\ exists new, calls st' = calls st ++ new
       /\ count is_send new = 1 /\ count is_fetch new = 0
       /\ count is_edit new = 0.
Proof.
  intros (Hh & Hloop & Hen) Hnone (Hkeys & Hresp & _) st'. subst st'.
  destruct (deliver_single config (ev_world ev) _ _ st k Hh Hloop Hkeys)
    as (st1 & hn & -> & Hh1 & Hl1 & Hm1 & Hc1 & Hs1).
  assert (Hen1 : enabled (DATA_STORE st1) (category_of k) = true)
    by (by rewrite (enabled_ext _ _ _ Hs1)).
  destruct (responsive_ready config _ _ k hn st1 Hresp Hen1)
    as (cid & ch & e & Hready).
  destruct Hresp as (_ & _ & Hsend).
  pose proof (send_or_edit_step config _ k hn st1 cid ch e _ Hready Hh1
                (Hsend ch e)) as (Hh2 & Hd2 & Hl2 & Hbody).
  rewrite Hm1, Hnone in Hbody. destruct Hbody as [Hm2 Hc2].
  split; [|split].
  - split; [done|]. split; [congruence|]. by rewrite Hd2.
  - rewrite Hm2. apply dict_lookup_set_eq.
  - eexists. rewrite Hc2, Hc1, <- app_assoc. split; [reflexivity|].
    by repeat split.
Qed.

Lemma deliver_next config k ev st cur :
  settled k st -> dict_lookup k (MESSAGE_MAP st) = Some (PyInt cur) ->
  about k ev ->
  let st' := exec (deliver config (ev_world ev) (ev_type ev) (ev_body ev)) st in
  settled k st'
  /\ dict_lookup k (MESSAGE_MAP st')
     = Some (PyInt (if ev_gone ev then ev_id ev else cur))
  /\ exists new, calls st' = calls st ++ new
       /\ count is_send new = (if ev_gone ev then 1 else 0)
       /\ count is_fetch new = 1
       /\ (ev_gone ev = false -> count is_edit new = 1).
Proof.
  intros (Hh & Hloop & Hen) Hcur (Hkeys & Hresp & Hanswer) st'. subst st'.
  destruct (deliver_single config (ev_world ev) _ _ st k Hh Hloop Hkeys)
    as (st1 & hn & -> & Hh1 & Hl1 & Hm1 & Hc1 & Hs1).
  assert (Hen1 : enabled (DATA_STORE st1) (category_of k) = true)
    by (by rewrite (enabled_ext _ _ _ Hs1)).
  destruct (responsive_ready config _ _ k hn st1 Hresp Hen1)
    as (cid & ch & e & Hready).
  destruct Hresp as (_ & _ & Hsend).
  pose proof (send_or_edit_step config _ k hn st1 cid ch e _ Hready Hh1
                (Hsend ch e)) as (Hh2 & Hd2 & Hl2 & Hbody).
  rewrite Hm1, Hcur in Hbody. destruct Hbody as (Hok & Hgone1 & Hgone2).
  assert (Hsettled : settled k (exec (send_or_edit config (ev_world ev) k hn) st1)).
  { split; [done|]. split; [congruence|]. by rewrite Hd2. }
  split; [exact Hsettled|].
  destruct (ev_gone ev).
  - destruct (Hanswer ch (PyInt cur) e) as [Hf|[Hf He]].
    + destruct (Hgone1 Hf) as [Hm2 Hc2]. split.
      * rewrite Hm2. apply dict_lookup_set_eq.
      * eexists. rewrite Hc2, Hc1, <- app_assoc. split; [reflexivity|].
        by repeat split.
    + destruct (Hgone2 Hf He) as [Hm2 Hc2]. split.
      * rewrite Hm2. apply dict_lookup_set_eq.
      * eexists. rewrite Hc2, Hc1, <- app_assoc. split; [reflexivity|].
        by repeat split.
  - destruct (Hanswer ch (PyInt cur) e) as [Hf He].
    destruct (Hok Hf He) as [Hm2 Hc2]. split.
    + by rewrite Hm2.
    + eexists. rewrite Hc2, Hc1, <- app_assoc. split; [reflexivity|].
      by repeat split.
Qed.

Lemma run_all_returns config w jobs st :
  eval (run_all config w jobs) st = Ok tt.
Proof.
  revert st. induction jobs as [|j jobs IH]; intros st; [done|].
  unfold eval in *. simpl. unfold bind, run_coroutine, try_except.
  destruct (send_or_edit _ _ _ _ st) as [[[]|?] st']; simpl; apply IH.
Qed.

Lemma deliver_returns config w event_type body st :
  eval (deliver config w event_type body) st = Ok tt.
Proof.
  unfold eval, deliver, bind, run_loop.
  pose proof (github_webhook_total event_type body st) as Ht.
  unfold eval in Ht.
  destruct (github_webhook _ _ st) as [[r|ex] st1]; simpl in *; [|discriminate].
  apply run_all_returns.
Qed.

Lemma deliver_all_cons config ev evs st :
  exec (deliver_all config (ev :: evs)) st
  = exec (deliver_all config evs)
         (exec (deliver config (ev_world ev) (ev_type ev) (ev_body ev)) st).
Proof.
  pose proof (deliver_returns config (ev_world ev) (ev_type ev) (ev_body ev) st)
    as Hr.
  unfold exec, eval in *. simpl. unfold bind at 1.
  destruct (deliver config (ev_world ev) (ev_type ev) (ev_body ev) st)
    as [[[]|ex] st1]; simpl in *; [done | discriminate].
Qed.

Lemma deliver_rest config k evs : forall st cur,
  settled k st -> dict_lookup k (MESSAGE_MAP st) = Some (PyInt cur) ->
  Forall (about k) evs ->
  let st' := exec (deliver_all config evs) st in
  settled k st'
  /\ dict_lookup k (MESSAGE_MAP st') = Some (PyInt (live_id cur evs))
  /\ exists new, calls st' = calls st ++ new
       /\ count is_send new = gone_count evs
       /\ count is_fetch new = length evs
       /\ (gone_count evs = 0 -> count is_edit new = length evs).
Proof.
  induction evs as [|ev evs IH]; intros st cur Hs Hcur Hall.
  - simpl. split; [done|]. split; [done|]. exists []. by rewrite app_nil_r.
  - apply Forall_cons in Hall as [Hev Hall].
    cbv zeta. rewrite deliver_all_cons.
    destruct (deliver_next config k ev st cur Hs Hcur Hev)
      as (Hs1 & Hcur1 & new1 & Hc1 & Hn1 & Hf1 & He1).
    destruct (IH _ _ Hs1 Hcur1 Hall) as (Hs2 & Hcur2 & new2 & Hc2 & Hn2 & Hf2 & He2).
    split; [done|]. split; [done|].
    exists (new1 ++ new2). rewrite Hc2, Hc1, <- app_assoc.
    split; [done|]. rewrite !count_app, Hn1, Hn2, Hf1, Hf2.
    unfold gone_count in *. simpl.
    destruct (ev_gone ev); simpl in *; repeat split; try done.
    intros Hz. by rewrite He1, He2.
Qed.

Lemma live_id_no_gone cur evs : gone_count evs = 0 -> live_id cur evs = cur.
Proof.
  unfold gone_count. revert cur.
  induction evs as [|ev evs IH]; intros cur; simpl; [done|].
  destruct (ev_gone ev); simpl; [discriminate | apply IH].
Qed.


Lemma responsive_smooth id : responsive (smooth id) id.
Proof. repeat split; intros; by eexists. Qed.

Lemma responsive_deleted id : responsive (deleted id) id.
Proof. repeat split; intros; by eexists. Qed.


(** The scenario of the specification, run: the first push is sent, its
    redelivery edits the same message, and after the message is deleted the
    third delivery sends again and the map keeps the new id only. *)
Example three_pushes_run :
  let st' := exec (deliver_all default_config three_pushes) (started []) in
  List.filter (fun c => is_send c || is_edit c || is_fetch c) (calls st')
  = [Send "general" "embed";
     FetchMessage "general" (PyInt 5); EditMessage "general" (PyInt 5) "embed";
     FetchMessage "general" (PyInt 5); Send "general" "embed"]
  /\ MESSAGE_MAP st' = [("push:abc123", PyInt 7)].
Proof. split; reflexivity. Qed.

(* ===================================================================== *)
(** ** The Canonical Key Scheme *)
(* ===================================================================== *)

Lemma keys_unfold event_type body :
  keys event_type body
  = List.map fst
      (loop (exec (try_except (handle_event event_type (payload_of body))
                     (fun e => Some (logging ERROR
                        ("Error handling event '" +:+ event_type +:+ "': "
                         +:+ exn_str e))))
                  (exec (logging INFO ("Received event: " +:+ event_type) ;;
                         logging DEBUG ("Payload: " +:+
                                        Json.dumps (payload_of body)))
                        blank))).
Proof.
  unfold keys, normalize, github_webhook, payload_of. unfold_monad. simpl.
  destruct (handle_event _ _ _) as [[[]|ex] st1]; reflexivity.
Qed.

Ltac destruct_gets :=
  repeat match goal with
  | |- context [get ?o ?k ?d] =>
      let E := fresh "E" in
      destruct (get o k d) eqn:E; simpl; try (by left)
  end.

Ltac destruct_tests :=
  repeat match goal with
  | |- context [truthy ?v] => destruct (truthy v); simpl; try (by left)
  | |- context [eq_str ?v ?s] => destruct (eq_str v s); simpl; try (by left)
  end.

(** Every single-key handler builds its key by the scheme of its event
    type: the category, then the [str] of the discriminator fields read
    along the scheme's paths, joined by colons.  (No key at all when the
    handler raises or filters the event out.) *)
Lemma scheme_keys event_type sch body :
  In (event_type, sch) KEY_SCHEME ->
  keys event_type body = []
  \/ exists ds,
       discriminator (fields sch) (payload_of body) = Ok ds
       /\ keys event_type body = [key_of (category sch) ds].
Proof.
  intros H. rewrite keys_unfold. generalize (payload_of body). intros p.
  simpl in H.
  repeat (destruct H as [[= <- <-]|H]; [|]); try contradiction.
  all: unfold handle_event; simpl handler_of; cbv iota beta.
  all: cbv delta [handle_check_run handle_check_suite handle_workflow_run
         handle_workflow_job handle_pull_request handle_pull_request_review
         handle_pull_request_review_comment handle_issues handle_issue_comment
         handle_create handle_delete handle_fork handle_release handle_watch
         handle_member handle_public handle_repository handle_commit_comment
         sender_of getM] beta.
  all: unfold_store; unfold_monad.
  Opaque get.
  all: simpl; destruct_gets; destruct_tests.
  all: try (right; eexists; split; reflexivity).
  Transparent get.
Qed.

Lemma handle_push_unfold payload :
  handle_push payload
  = bind (getM payload "commits" (PyList [])) (fun commits =>
    bind (getM payload "repository" empty_dict) (fun repo =>
    bind (getM repo "full_name" (PyStr "unknown/unknown")) (fun rfn =>
    bind (lift (iter commits)) (fun cs => for_each cs (push_commit rfn))))).
Proof. reflexivity. Qed.

(** One turn of the loop of [handle_push]: either it queues the key of the
    commit, or it raises and queues nothing. *)
Lemma push_body rfn commit st :
  (exists sha, get commit "id" (PyStr "") = Ok sha
     /\ eval (push_commit rfn commit) st = Ok tt
     /\ loop (exec (push_commit rfn commit) st)
        = loop st ++ [("push:" +:+ str sha, Some "push")])
  \/ ((exists ex, eval (push_commit rfn commit) st = Raise ex)
      /\ loop (exec (push_commit rfn commit) st) = loop st).
Proof.
  unfold push_commit, getM. unfold_store. unfold_monad.
  destruct (get commit "id" (PyStr "")) as [sha|] eqn:Esha; simpl;
    [|right; split; [by eexists | done]].
  destruct (get commit "message" (PyStr "")) as [message|]; simpl;
    [|right; split; [by eexists | done]].
  destruct (get commit "url" (PyStr "#")) as [url|]; simpl;
    [|right; split; [by eexists | done]].
  destruct (disk st) as [|[|left_on_disk] coming]; simpl.
  - left. exists sha. by repeat split.
  - left. exists sha. by repeat split.
  - right. split; [by eexists | done].
Qed.

(** The keys of a push are the scheme's keys of its commits. *)
Lemma push_loop rfn cs : forall st,
  exists jobs,
    loop (exec (for_each cs (push_commit rfn)) st) = loop st ++ jobs
    /\ forall job, In job jobs ->
         exists commit ds,
           In commit cs
           /\ discriminator (fields PUSH_SCHEME) commit = Ok ds
           /\ fst job = key_of (category PUSH_SCHEME) ds.
Proof.
  induction cs as [|c cs IH]; intros st.
  - exists []. simpl. by rewrite app_nil_r.
  - destruct (push_body rfn c st) as [(sha & Hsha & Hr & Hl)|[[ex Hr] Hl]];
      unfold exec, eval in *; cbn [for_each]; unfold bind at 1;
      destruct (push_commit rfn c st) as [[[]|ex'] st1];
      simpl in *; try discriminate.
    + destruct (IH st1) as (jobs & Hl' & Hj).
      exists (("push:" +:+ str sha, Some "push") :: jobs).
      rewrite Hl', Hl, <- app_assoc. split; [done|].
      intros job [<-|Hin].
      * exists c, [sha]. split; [by left|]. split; [|reflexivity].
        simpl. by rewrite Hsha.
      * destruct (Hj job Hin) as (c' & ds & Hc & Hd & Hk).
        exists c', ds. split; [by right | by split].
    + exists []. rewrite app_nil_r. by split.
Qed.

Lemma push_keys body k :
  In k (keys "push" body) ->
  exists commit ds,
    discriminator (fields PUSH_SCHEME) commit = Ok ds
    /\ k = key_of (category PUSH_SCHEME) ds.
Proof.
  rewrite keys_unfold. generalize (payload_of body). intros p.
  unfold handle_event. simpl handler_of. cbv iota beta.
  rewrite handle_push_unfold. unfold getM.
  unfold exec, try_except, bind, logging, lift. simpl.
  destruct (get p "commits" (PyList [])) as [commits|]; simpl; [|done].
  destruct (get p "repository" empty_dict) as [repo|]; simpl; [|done].
  destruct (get repo "full_name" (PyStr "unknown/unknown")) as [rfn|]; simpl;
    [|done].
  destruct (iter commits) as [cs|]; simpl; [|done].
  match goal with
  | |- context [for_each cs (push_commit rfn) ?s] =>
      destruct (push_loop rfn cs s) as (jobs & Hl & Hj);
      unfold exec in Hl;
      destruct (for_each cs (push_commit rfn) s) as [[[]|ex] st1] eqn:E
  end; simpl in *; rewrite Hl; intros Hin;
    apply in_map_iff in Hin as (job & <- & Hin);
    destruct (Hj job Hin) as (c & ds & _ & Hd & Hk); by exists c, ds.
Qed.

(** *** Keys are kept apart by the colon *)

Lemma contains_app c s t :
  contains c (s +:+ t) = contains c s || contains c t.
Proof.
  induction s as [|a s IH]; [done|].
  change (String a s +:+ t) with (String a (s +:+ t)). simpl.
  by destruct (Ascii.eqb a c).
Qed.

Lemma pretty_N_go_no_colon x s :
  contains ":"%char s = false -> contains ":"%char (pretty_N_go x s) = false.
Proof.
  revert s. induction (N.lt_wf_0 x) as [x _ IH]; intros s Hs.
  assert (x = 0 \/ 0 < x)%N as [->|?] by lia.
  - by rewrite pretty_N_go_0.
  - rewrite pretty_N_go_step by done. apply IH.
    { by apply N.div_lt. }
    simpl. unfold pretty_N_char. by repeat case_match.
Qed.

Lemma pretty_Z_no_colon (z : Z) : contains ":"%char (pretty z) = false.
Proof.
  assert (Hp : forall p : positive, contains ":"%char (pretty p) = false).
  { intros p. unfold pretty, pretty_positive, pretty, pretty_N.
    case_decide; [done|]. by apply pretty_N_go_no_colon. }
  destruct z as [|p|p]; [done | apply Hp |].
  unfold pretty, pretty_Z. rewrite contains_app. simpl. apply Hp.
Qed.

Lemma colon_free_str v : colon_free v = true -> contains ":"%char (str v) = false.
Proof.
  destruct v; simpl; try discriminate.
  - intros _. apply pretty_Z_no_colon.
  - by intros ->%negb_true_iff.
Qed.

(** Two texts that agree, each a colon-free head, a colon and a tail, agree
    head by head and tail by tail. *)
Lemma split_at_colon s1 s2 t1 t2 :
  contains ":"%char s1 = false -> contains ":"%char s2 = false ->
  s1 +:+ String ":"%char t1 = s2 +:+ String ":"%char t2 ->
  s1 = s2 /\ t1 = t2.
Proof.
  revert s2. induction s1 as [|a s1 IH]; intros [|b s2] H1 H2 H; simpl in *.
  - by injection H as ->.
  - injection H as <- _. simpl in H2. discriminate.
  - injection H as -> _. simpl in H1. discriminate.
  - change ((String a (s1 +:+ String ":"%char t1))
            = String b (s2 +:+ String ":"%char t2)) in H.
    injection H as -> H.
    destruct (Ascii.eqb b ":"%char); [discriminate|].
    destruct (IH s2 H1 H2 H) as [-> ->]. done.
Qed.

Lemma same_kind_str v1 v2 : same_kind v1 v2 = true -> str v1 = str v2 -> v1 = v2.
Proof.
  destruct v1, v2; simpl; try discriminate; intros _ H.
  - f_equal. by apply (inj pretty).
  - by f_equal.
Qed.

Lemma concat_cons sep x y l :
  String.concat sep (x :: y :: l) = x +:+ sep +:+ String.concat sep (y :: l).
Proof. reflexivity. Qed.

Lemma joined_inj ds1 : forall ds2,
  separable ds1 ds2 = true ->
  String.concat ":" (List.map str ds1) = String.concat ":" (List.map str ds2) ->
  ds1 = ds2.
Proof.
  induction ds1 as [|v1 [|w1 r1] IH]; intros [|v2 [|w2 r2]] Hsep H;
    simpl in Hsep; rewrite ?andb_false_r in Hsep; try done;
    try (destruct r1; rewrite ?andb_false_r in Hsep; done).
  - simpl in H. f_equal. by apply same_kind_str.
  - rewrite !andb_true_iff in Hsep. destruct Hsep as [[[Hk Hc1] Hc2] Hr].
    cbn [List.map] in H. rewrite !concat_cons in H.
    apply split_at_colon in H as [Hv Hrest]; try by apply colon_free_str.
    f_equal; [by apply same_kind_str|].
    apply IH; [exact Hr | exact Hrest].
Qed.

(** Distinct discriminators of one category get distinct keys, as long as
    the fields are separable. *)
Lemma key_of_inj cat ds1 ds2 :
  separable ds1 ds2 = true -> key_of cat ds1 = key_of cat ds2 -> ds1 = ds2.
Proof.
  intros Hsep H. unfold key_of in H.
  destruct ds1 as [|v1 r1], ds2 as [|v2 r2]; try discriminate Hsep;
    try (destruct r1; discriminate Hsep); [done|].
  cbn [List.map] in H. rewrite !concat_cons in H.
  apply (inj (String.app cat)) in H.
  change (":" +:+ ?x) with (String ":"%char x) in H.
  injection H as H. by apply joined_inj.
Qed.

(** A key opens with its category: [send_or_edit] routes a key of a scheme
    on the scheme's category. *)
Lemma split_head_app cat t :
  contains ":"%char cat = false ->
  split_head (cat +:+ String ":"%char t) = cat.
Proof.
  induction cat as [|a cat IH]; intros H; [done|].
  change (String a cat +:+ String ":"%char t)
    with (String a (cat +:+ String ":"%char t)).
  simpl in *. destruct (Ascii.eqb a ":"%char); [discriminate|].
  by rewrite IH.
Qed.

Lemma split_head_no_colon s : contains ":"%char s = false -> split_head s = s.
Proof.
  induction s as [|a s IH]; intros H; [done|]. simpl in *.
  destruct (Ascii.eqb a ":"%char); [discriminate|]. by rewrite IH.
Qed.

Lemma category_of_key cat ds :
  contains ":"%char cat = false -> category_of (key_of cat ds) = cat.
Proof.
  intros H. unfold category_of, key_of.
  destruct ds as [|v r]; simpl.
  - by apply split_head_no_colon.
  - change (String.concat ":" (cat :: str v :: List.map str r))
      with (cat +:+ String ":"%char (String.concat ":" (str v :: List.map str r))).
    by apply split_head_app.
Qed.

Lemma scheme_category_no_colon event_type sch :
  In (event_type, sch) (("push", PUSH_SCHEME) :: KEY_SCHEME) ->
  contains ":"%char (category sch) = false.
Proof.
  simpl. intros H.
  repeat (destruct H as [[= <- <-]|H]; [reflexivity|]). contradiction.
Qed.




(* ===================================================================== *)
(** ** The persisted document: reading back what was written *)
(* ===================================================================== *)

Lemma dump_list lvl x l rest :
  Json.dump lvl (PyList (x :: l)) rest
  = String "["%char
      (Json.newline_indent (S lvl)
         (Json.dump (S lvl) x (dump_items lvl rest l))).
Proof.
  cbn [Json.dump]. do 3 f_equal.
  induction l as [|y l IH]; cbn [dump_items]; [done|]. by rewrite IH.
Qed.

Lemma dump_dict lvl k x d rest :
  Json.dump lvl (PyDict ((k, x) :: d)) rest
  = String "{"%char
      (Json.newline_indent (S lvl)
         (Json.dump_str k
            (Json.pre ": " (Json.dump (S lvl) x (dump_members lvl rest d))))).
Proof.
  cbn [Json.dump]. do 5 f_equal.
  induction d as [|[k' y] d IH]; cbn [dump_members]; [done|]. by rewrite IH.
Qed.

Lemma size_list l : size (PyList l) = S (sizes l).
Proof. reflexivity. Qed.

Lemma size_dict d : size (PyDict d) = S (member_sizes d).
Proof. reflexivity. Qed.

(** *** White space *)

Lemma skip_ws_spaces n s : Json.skip_ws (Json.spaces n s) = Json.skip_ws s.
Proof. induction n as [|n IH]; simpl; [done | exact IH]. Qed.

Lemma skip_ws_newline_indent lvl s :
  Json.skip_ws (Json.newline_indent lvl s) = Json.skip_ws s.
Proof. unfold Json.newline_indent. simpl. apply skip_ws_spaces. Qed.

Lemma skip_ws_head c s :
  Json.is_ws c = false -> Json.skip_ws (String c s) = String c s.
Proof. intros H. simpl. by rewrite H. Qed.

(** *** String literals *)

Lemma read_chars_escape_char c tail :
  Json.read_chars (Json.pre (Json.escape_char c) tail)
  = match Json.read_chars tail with
    | Some (t, r) => Some (String c t, r)
    | None => None
    end.
Proof.
  destruct c as [[] [] [] [] [] [] [] []]; reflexivity.
Qed.

Lemma read_chars_escape s rest :
  Json.read_chars (Json.escape s (String Json.dquote rest)) = Some (s, rest).
Proof.
  induction s as [|c s IH]; [reflexivity|].
  cbn [Json.escape]. by rewrite read_chars_escape_char, IH.
Qed.

(** *** Integers *)

Lemma digit_val_pretty_N_char n :
  (n < 10)%N -> Json.digit_val (pretty_N_char n) = Some n.
Proof.
  intros H. destruct n as [|p]; [reflexivity|].
  do 4 (try (destruct p as [p|p|]; try reflexivity; try lia)).
Qed.

(** Reading the digits that [pretty_N_go] wrote continues from the number
    they spell. *)
Lemma read_digits_pretty_N_go x :
  exists k, forall s acc,
    Json.read_digits acc (pretty_N_go x s)
    = Json.read_digits (acc * 10 ^ k + x)%N s.
Proof.
  induction (N.lt_wf_0 x) as [x _ IH].
  assert (x = 0 \/ 0 < x)%N as [->|Hx] by lia.
  - exists 0%N. intros s acc. rewrite pretty_N_go_0. f_equal. lia.
  - destruct (IH (x `div` 10)%N) as [k Hk]; [by apply N.div_lt|].
    exists (N.succ k). intros s acc.
    rewrite pretty_N_go_step by done. rewrite Hk.
    cbn [Json.read_digits].
    rewrite digit_val_pretty_N_char by (by apply N.mod_lt).
    f_equal. rewrite N.pow_succ_r'.
    pose proof (N.div_mod x 10 ltac:(done)) as Hdm.
    generalize dependent (10 ^ k)%N. intros P _. nia.
Qed.

(** A positive number is written with a leading digit that is not zero. *)
Lemma pretty_N_go_head x s :
  (0 < x)%N ->
  exists c r d, pretty_N_go x s = String c r
                /\ Json.digit_val c = Some (N.pos d).
Proof.
  revert s. induction (N.lt_wf_0 x) as [x _ IH]; intros s Hx.
  rewrite pretty_N_go_step by done.
  destruct (N.eq_0_gt_0_cases (x `div` 10)%N) as [Hz|Hp].
  - rewrite Hz, pretty_N_go_0.
    assert (x < 10)%N by (apply N.div_small_iff in Hz; lia).
    rewrite (N.mod_small x 10) by done.
    destruct x as [|d]; [lia|].
    exists (pretty_N_char (N.pos d)), s, d. split; [done|].
    by apply digit_val_pretty_N_char.
  - apply IH; [by apply N.div_lt | done].
Qed.

Lemma pre_pretty_N_go x s rest :
  Json.pre (pretty_N_go x s) rest = pretty_N_go x (Json.pre s rest).
Proof.
  revert s. induction (N.lt_wf_0 x) as [x _ IH]; intros s.
  assert (x = 0 \/ 0 < x)%N as [->|Hx] by lia.
  - by rewrite !pretty_N_go_0.
  - rewrite (pretty_N_go_step x s), (pretty_N_go_step x (Json.pre s rest))
      by done.
    rewrite IH by (by apply N.div_lt). reflexivity.
Qed.

Lemma delimited_no_digit rest acc :
  delimited rest = true -> Json.read_digits acc rest = (acc, rest).
Proof.
  destruct rest as [|c r]; [done|]. simpl.
  intros [->%Ascii.eqb_eq | ->%Ascii.eqb_eq]%orb_true_iff; reflexivity.
Qed.

Lemma delimited_no_float rest :
  delimited rest = true -> Json.float_tail rest = false.
Proof.
  destruct rest as [|c r]; [done|]. simpl.
  intros [->%Ascii.eqb_eq | ->%Ascii.eqb_eq]%orb_true_iff; reflexivity.
Qed.

Lemma read_nat_pretty p rest :
  delimited rest = true ->
  Json.read_nat (Json.pre (pretty (N.pos p)) rest) = Some (N.pos p, rest).
Proof.
  intros Hrest. unfold pretty, pretty_N. case_decide; [done|].
  rewrite pre_pretty_N_go. cbn [Json.pre].
  destruct (read_digits_pretty_N_go (N.pos p)) as [k Hk].
  destruct (pretty_N_go_head (N.pos p) rest ltac:(done)) as (c & r & d & Hc & Hd).
  specialize (Hk rest 0%N). rewrite Hc in *.
  cbn [Json.read_digits] in Hk. rewrite Hd in Hk.
  unfold Json.read_nat. rewrite Hd.
  replace (10 * 0 + N.pos d)%N with (N.pos d) in Hk by lia.
  rewrite Hk. replace (0 * 10 ^ k + N.pos p)%N with (N.pos p) by lia.
  rewrite delimited_no_digit by done.
  by rewrite delimited_no_float.
Qed.

Lemma digit_plain c d :
  Json.digit_val c = Some d ->
  Json.is_ws c = false /\ Ascii.eqb c Json.dquote = false
  /\ Ascii.eqb c "{"%char = false /\ Ascii.eqb c "["%char = false
  /\ Ascii.eqb c "n"%char = false /\ Ascii.eqb c "t"%char = false
  /\ Ascii.eqb c "f"%char = false /\ Ascii.eqb c "-"%char = false
  /\ Ascii.eqb c "]"%char = false /\ Ascii.eqb c "}"%char = false.
Proof.
  destruct c as [[] [] [] [] [] [] [] []]; intros H;
    try discriminate H; by repeat split.
Qed.

Lemma load_int fuel z rest :
  delimited rest = true ->
  Json.load (S fuel) (Json.pre (pretty z) rest) = Some (PyInt z, rest).
Proof.
  intros Hrest. destruct z as [|p|p].
  - cbn. by rewrite delimited_no_float.
  - change (pretty (Z.pos p)) with (pretty (N.pos p)).
    pose proof (read_nat_pretty p rest Hrest) as Hr.
    destruct (Json.pre (pretty (N.pos p)) rest) as [|c r] eqn:E; [done|].
    assert (exists d, Json.digit_val c = Some d) as [d Hd].
    { unfold Json.read_nat in Hr. destruct (Json.digit_val c); [by eexists|done]. }
    destruct (digit_plain c d Hd) as (_ & H1 & H2 & H3 & H4 & H5 & H6 & H7 & _).
    cbn [Json.load]. rewrite H1, H2, H3, H4, H5, H6, H7, Hr. reflexivity.
  - change (pretty (Z.neg p)) with ("-" +:+ pretty (N.pos p)).
    change (Json.pre ("-" +:+ pretty (N.pos p)) rest)
      with (String "-"%char (Json.pre (pretty (N.pos p)) rest)).
    cbn [Json.load]. cbn. rewrite (read_nat_pretty p rest Hrest). reflexivity.
Qed.

(** *** Values *)

(** A written value opens with a character that is neither white space nor
    a closing bracket. *)
Lemma dump_head lvl v rest :
  exists c r, Json.dump lvl v rest = String c r
    /\ Json.is_ws c = false
    /\ Ascii.eqb c "]"%char = false /\ Ascii.eqb c "}"%char = false.
Proof.
  destruct v as [|[]|z|s|[|x l]|[|[k x] d]];
    try (by eexists _, _; split; [reflexivity|]).
  - destruct z as [|p|p].
    + by eexists _, _; split; [reflexivity|].
    + cbn [Json.dump]. change (pretty (Z.pos p)) with (pretty (N.pos p)).
      unfold pretty, pretty_N. case_decide; [done|].
      rewrite pre_pretty_N_go.
      destruct (pretty_N_go_head (N.pos p) (Json.pre "" rest) ltac:(done))
        as (c & r & d & -> & Hd).
      destruct (digit_plain c _ Hd) as (? & _ & _ & _ & _ & _ & _ & _ & ? & ?).
      by exists c, r.
    + by eexists _, _; split; [reflexivity|].
Qed.

Lemma skip_ws_dump lvl v rest :
  Json.skip_ws (Json.dump lvl v rest) = Json.dump lvl v rest.
Proof.
  destruct (dump_head lvl v rest) as (c & r & -> & H & _).
  by apply skip_ws_head.
Qed.

Lemma delimited_items lvl rest l : delimited (dump_items lvl rest l) = true.
Proof. by destruct l. Qed.

Lemma delimited_members lvl rest d : delimited (dump_members lvl rest d) = true.
Proof. by destruct d as [|[]]. Qed.

Lemma value_ind' (P : value -> Prop) :
  P PyNone -> (forall b, P (PyBool b)) -> (forall z, P (PyInt z)) ->
  (forall s, P (PyStr s)) ->
  (forall l, Forall P l -> P (PyList l)) ->
  (forall d, Forall (fun kv => P (snd kv)) d -> P (PyDict d)) ->
  forall v, P v.
Proof.
  intros HN HB HI HS HL HD. fix IH 1. intros [|b|z|s|l|d].
  - exact HN.
  - apply HB.
  - apply HI.
  - apply HS.
  - apply HL. induction l as [|x l IHl]; constructor; [apply IH | exact IHl].
  - apply HD. induction d as [|[k x] d IHd]; constructor; [apply IH | exact IHd].
Qed.

(** The steps of the reader, one lemma per branch taken on a written
    document. *)
Lemma items_last f s x r1 r2 :
  Json.load f s = Some (x, r1) ->
  Json.skip_ws r1 = String "]"%char r2 ->
  Json.items (S f) s = Some ([x], r2).
Proof. intros H1 H2. cbn [Json.items]. by rewrite H1, H2. Qed.

Lemma items_more f s x r1 r2 l r3 :
  Json.load f s = Some (x, r1) ->
  Json.skip_ws r1 = String ","%char r2 ->
  Json.items f (Json.skip_ws r2) = Some (l, r3) ->
  Json.items (S f) s = Some (x :: l, r3).
Proof. intros H1 H2 H3. cbn [Json.items]. rewrite H1, H2. cbn. by rewrite H3. Qed.

Lemma members_last f r k r1 r2 x r3 r4 :
  Json.read_chars r = Some (k, r1) ->
  Json.skip_ws r1 = String ":"%char r2 ->
  Json.load f (Json.skip_ws r2) = Some (x, r3) ->
  Json.skip_ws r3 = String "}"%char r4 ->
  Json.members (S f) (String Json.dquote r) = Some ([(k, x)], r4).
Proof.
  intros H1 H2 H3 H4. cbn [Json.members].
  rewrite Ascii.eqb_refl, H1, H2. cbn. by rewrite H3, H4.
Qed.

Lemma members_more f r k r1 r2 x r3 r4 d r5 :
  Json.read_chars r = Some (k, r1) ->
  Json.skip_ws r1 = String ":"%char r2 ->
  Json.load f (Json.skip_ws r2) = Some (x, r3) ->
  Json.skip_ws r3 = String ","%char r4 ->
  Json.members f (Json.skip_ws r4) = Some (d, r5) ->
  Json.members (S f) (String Json.dquote r) = Some ((k, x) :: d, r5).
Proof.
  intros H1 H2 H3 H4 H5. cbn [Json.members].
  rewrite Ascii.eqb_refl, H1, H2. cbn. rewrite H3, H4. cbn. by rewrite H5.
Qed.

Lemma load_array f r c r' l rest :
  Json.skip_ws r = String c r' ->
  Ascii.eqb c "]"%char = false ->
  Json.items f (String c r') = Some (l, rest) ->
  Json.load (S f) (String "["%char r) = Some (PyList l, rest).
Proof. intros H1 H2 H3. cbn [Json.load]. cbn. by rewrite H1, H2, H3. Qed.

Lemma load_object f r c r' d rest :
  Json.skip_ws r = String c r' ->
  Ascii.eqb c "}"%char = false ->
  Json.members f (String c r') = Some (d, rest) ->
  Json.load (S f) (String "{"%char r) = Some (PyDict d, rest).
Proof. intros H1 H2 H3. cbn [Json.load]. cbn. by rewrite H1, H2, H3. Qed.

Lemma load_items lvl rest l : forall x fuel,
  reads_back x -> Forall reads_back l ->
  sizes (x :: l) <= fuel ->
  Json.items fuel (Json.dump (S lvl) x (dump_items lvl rest l))
  = Some (x :: l, rest).
Proof.
  induction l as [|y l IH]; intros x fuel Hx Hl Hfuel;
    (destruct fuel as [|f]; [simpl in Hfuel; lia|]); cbn [sizes] in Hfuel.
  - eapply items_last.
    + apply Hx; [lia | apply delimited_items].
    + cbn [dump_items]. rewrite skip_ws_newline_indent. reflexivity.
  - apply Forall_cons in Hl as [Hy Hl].
    eapply items_more.
    + apply Hx; [lia | apply delimited_items].
    + cbn [dump_items]. reflexivity.
    + rewrite skip_ws_newline_indent, skip_ws_dump.
      apply IH; [done | done | cbn [sizes]; lia].
Qed.

Lemma load_members lvl rest d : forall k x fuel,
  reads_back x -> Forall (fun kv => reads_back (snd kv)) d ->
  member_sizes ((k, x) :: d) <= fuel ->
  Json.members fuel
    (Json.dump_str k
       (Json.pre ": " (Json.dump (S lvl) x (dump_members lvl rest d))))
  = Some ((k, x) :: d, rest).
Proof.
  induction d as [|[k' y] d IH]; intros k x fuel Hx Hd Hfuel;
    (destruct fuel as [|f]; [simpl in Hfuel; lia|]);
    cbn [member_sizes] in Hfuel; unfold Json.dump_str.
  - eapply members_last.
    + apply read_chars_escape.
    + reflexivity.
    + cbn [Json.skip_ws]. change (Json.is_ws " "%char) with true. cbv iota.
      rewrite skip_ws_dump. apply Hx; [lia | apply delimited_members].
    + cbn [dump_members]. rewrite skip_ws_newline_indent. reflexivity.
  - apply Forall_cons in Hd as [Hy Hd]. simpl in Hy.
    eapply members_more.
    + apply read_chars_escape.
    + reflexivity.
    + cbn [Json.skip_ws]. change (Json.is_ws " "%char) with true. cbv iota.
      rewrite skip_ws_dump. apply Hx; [lia | apply delimited_members].
    + cbn [dump_members]. reflexivity.
    + rewrite skip_ws_newline_indent.
      change (Json.skip_ws (Json.dump_str k' ?t)) with (Json.dump_str k' t).
      apply IH; [done | done | cbn [member_sizes]; lia].
Qed.

(** Every value is read back from its text, whatever follows it in the
    document. *)
Lemma load_dump v : reads_back v.
Proof.
  induction v as [|b|z|s|l IH|d IH] using value_ind';
    intros lvl rest fuel Hfuel Hrest;
    (destruct fuel as [|f]; [simpl in Hfuel; lia|]).
  - reflexivity.
  - by destruct b.
  - by apply load_int.
  - cbn [Json.dump]. unfold Json.dump_str. cbn [Json.load].
    rewrite Ascii.eqb_refl. by rewrite read_chars_escape.
  - destruct l as [|x l]; [reflexivity|].
    apply Forall_cons in IH as [Hx Hl].
    rewrite dump_list. rewrite size_list in Hfuel.
    destruct (dump_head (S lvl) x (dump_items lvl rest l))
      as (c & r & Hc & _ & Hc1 & _).
    eapply load_array.
    + rewrite skip_ws_newline_indent, skip_ws_dump. exact Hc.
    + exact Hc1.
    + rewrite <- Hc. apply load_items; [done | done | lia].
  - destruct d as [|[k x] d]; [reflexivity|].
    apply Forall_cons in IH as [Hx Hd]. simpl in Hx.
    rewrite dump_dict. rewrite size_dict in Hfuel.
    eapply load_object.
    + rewrite skip_ws_newline_indent. reflexivity.
    + reflexivity.
    + apply (load_members lvl rest d k x f); [done | done | lia].
Qed.

(** *** The text is long enough to fuel its own reading *)

Lemma length_pre s r :
  String.length (Json.pre s r) = String.length s + String.length r.
Proof. induction s as [|c s IH]; simpl; [done | by rewrite IH]. Qed.

Lemma length_escape s r : String.length r <= String.length (Json.escape s r).
Proof.
  induction s as [|c s IH]; simpl; [done|]. rewrite length_pre. lia.
Qed.

Lemma length_dump_str s r :
  2 + String.length r <= String.length (Json.dump_str s r).
Proof.
  unfold Json.dump_str. simpl.
  pose proof (length_escape s (String Json.dquote r)) as H. simpl in H. lia.
Qed.

Lemma length_spaces n r : String.length r <= String.length (Json.spaces n r).
Proof. induction n as [|n IH]; simpl; lia. Qed.

Lemma length_newline_indent lvl r :
  1 + String.length r <= String.length (Json.newline_indent lvl r).
Proof.
  unfold Json.newline_indent. cbn [String.length].
  pose proof (length_spaces (2 * lvl) r). lia.
Qed.

Lemma length_pretty (z : Z) : 1 <= String.length (pretty z).
Proof.
  destruct (dump_head 0 (PyInt z) "") as (c & r & H & _).
  cbn [Json.dump] in H. apply (f_equal String.length) in H.
  rewrite length_pre in H. simpl in H. lia.
Qed.

Lemma length_dump_items lvl rest l :
  Forall long_enough l ->
  sizes l + 1 + String.length rest <= String.length (dump_items lvl rest l).
Proof.
  induction l as [|y l IH]; intros Hl; cbn [dump_items sizes].
  - pose proof (length_newline_indent lvl (String "]"%char rest)) as H.
    cbn [String.length] in H. lia.
  - apply Forall_cons in Hl as [Hy Hl]. specialize (IH Hl).
    cbn [String.length].
    pose proof (length_newline_indent (S lvl)
                  (Json.dump (S lvl) y (dump_items lvl rest l))) as H.
    pose proof (Hy (S lvl) (dump_items lvl rest l)). lia.
Qed.

Lemma length_dump_members lvl rest d :
  Forall (fun kv => long_enough (snd kv)) d ->
  member_sizes d + 1 + String.length rest
  <= String.length (dump_members lvl rest d).
Proof.
  induction d as [|[k y] d IH]; intros Hd; cbn [dump_members member_sizes].
  - pose proof (length_newline_indent lvl (String "}"%char rest)) as H.
    cbn [String.length] in H. lia.
  - apply Forall_cons in Hd as [Hy Hd]. specialize (IH Hd). simpl in Hy.
    cbn [String.length].
    pose proof (length_newline_indent (S lvl)
                  (Json.dump_str k (Json.pre ": "
                     (Json.dump (S lvl) y (dump_members lvl rest d))))) as H1.
    pose proof (length_dump_str k (Json.pre ": "
                  (Json.dump (S lvl) y (dump_members lvl rest d)))) as H2.
    rewrite length_pre in H2.
    pose proof (Hy (S lvl) (dump_members lvl rest d)).
    change (String.length ": ") with 2 in H2. lia.
Qed.

Lemma length_dump v : long_enough v.
Proof.
  induction v as [|b|z|s|l IH|d IH] using value_ind'; intros lvl rest.
  - simpl. lia.
  - destruct b; simpl; lia.
  - cbn [Json.dump size]. rewrite length_pre.
    pose proof (length_pretty z). lia.
  - cbn [Json.dump size]. pose proof (length_dump_str s rest). lia.
  - destruct l as [|x l]; [simpl; lia|].
    rewrite dump_list, size_list. cbn [sizes String.length].
    apply Forall_cons in IH as [Hx Hl].
    pose proof (length_newline_indent (S lvl)
                  (Json.dump (S lvl) x (dump_items lvl rest l))) as H1.
    pose proof (Hx (S lvl) (dump_items lvl rest l)) as H2.
    pose proof (length_dump_items lvl rest l Hl). lia.
  - destruct d as [|[k x] d]; [simpl; lia|].
    rewrite dump_dict, size_dict. cbn [member_sizes String.length].
    apply Forall_cons in IH as [Hx Hd]. simpl in Hx.
    pose proof (length_newline_indent (S lvl)
                  (Json.dump_str k (Json.pre ": "
                     (Json.dump (S lvl) x (dump_members lvl rest d))))) as H1.
    pose proof (length_dump_str k (Json.pre ": "
                  (Json.dump (S lvl) x (dump_members lvl rest d)))) as H2.
    rewrite length_pre in H2.
    pose proof (Hx (S lvl) (dump_members lvl rest d)) as H3.
    pose proof (length_dump_members lvl rest d Hd).
    change (String.length ": ") with 2 in H2. lia.
Qed.

(** [json.loads(json.dumps(v, indent=2)) == v]. *)
Lemma loads_dumps v : Json.loads (Json.dumps v) = Some v.
Proof.
  unfold Json.loads, Json.dumps. rewrite skip_ws_dump.
  rewrite (load_dump v 0 "" (S (String.length (Json.dump 0 v "")))).
  - reflexivity.
  - pose proof (length_dump v 0 ""). simpl in *. lia.
  - reflexivity.
Qed.

(* ===================================================================== *)
(** ** Persistence: load after save *)
(* ===================================================================== *)

Lemma save_data_file st :
  write_ok st = true ->
  eval save_data st = Ok tt
  /\ file (exec save_data st) = Some (Json.dumps (document st))
  /\ DATA_STORE (exec save_data st) = DATA_STORE st
  /\ MESSAGE_MAP (exec save_data st) = MESSAGE_MAP st.
Proof.
  intros Hok. unfold save_data, write_file. unfold_monad.
  destruct (write_ok_cases st Hok) as [->|[d ->]]; by repeat split.
Qed.

Lemma load_data_document st_r ds mm :
  file st_r
  = Some (Json.dumps (PyDict [("DATA_STORE", PyDict ds);
                              ("MESSAGE_MAP", PyDict mm)])) ->
  eval load_data st_r = Ok tt
  /\ DATA_STORE (exec load_data st_r) = ds
  /\ MESSAGE_MAP (exec load_data st_r) = mm.
Proof.
  intros Hfile. unfold load_data, read_file. unfold_monad.
  rewrite Hfile, loads_dumps. by repeat split.
Qed.

(** C7.  Whatever the two in-memory maps hold, once a save has completed
    the file holds the whole document, and loading that file, in the same
    process or in one restarted after a crash, returns normally with
    [DATA_STORE] and [MESSAGE_MAP] exactly as they were when the save ran.
    In particular the state after a completed upsert ([update_data_store]
    or [update_message_map]) is what a restarted process loads. *)
Theorem C7_load_after_save_is_identity :
  forall (st : state),
    write_ok st = true ->
    (file (exec save_data st) = Some (Json.dumps (document st))
     /\ forall st_r,
          file st_r = file (exec save_data st) ->
          eval load_data st_r = Ok tt
          /\ DATA_STORE (exec load_data st_r) = DATA_STORE st
          /\ MESSAGE_MAP (exec load_data st_r) = MESSAGE_MAP st)
    /\ (forall key v d,
          let st1 := exec (update_data_store key v) st in
          let st2 := exec load_data (restarted st1 d) in
          DATA_STORE st2 = DATA_STORE st1 /\ MESSAGE_MAP st2 = MESSAGE_MAP st1)
    /\ (forall key id d,
          let st1 := exec (update_message_map key id) st in
          let st2 := exec load_data (restarted st1 d) in
          DATA_STORE st2 = DATA_STORE st1 /\ MESSAGE_MAP st2 = MESSAGE_MAP st1).
Proof.
  intros st Hok. split; [|split].
  - destruct (save_data_file st Hok) as (_ & Hfile & _).
    split; [exact Hfile|]. intros st_r Hr. rewrite Hfile in Hr.
    by apply load_data_document.
  - intros key v d st1 st2. subst st1 st2.
    apply (load_data_document (restarted _ d)).
    unfold restarted, update_data_store, save_data, write_file.
    unfold_monad. simpl.
    by destruct (write_ok_cases st Hok) as [->|[d' ->]].
  - intros key id d st1 st2. subst st1 st2.
    apply (load_data_document (restarted _ d)).
    unfold restarted, update_message_map, save_data, write_file.
    unfold_monad. simpl.
    by destruct (write_ok_cases st Hok) as [->|[d' ->]].
Qed.

Lemma C7_witness :
  write_ok live = true
  /\ DATA_STORE (exec load_data (restarted (exec save_data live) []))
     = routing_sample
  /\ MESSAGE_MAP (exec load_data (restarted (exec save_data live) []))
     = [("push:abc123", PyInt 11)].
Proof.
  split; [reflexivity|].
  exact (proj2 (proj2 (proj1 (C7_load_after_save_is_identity live eq_refl))
                  (restarted (exec save_data live) []) eq_refl)).
Defined.

(* ===================================================================== *)
(** ** Invariants of the inbound and of the outbound path *)
(* ===================================================================== *)

Lemma keeps_ret {A} I (a : A) : keeps I (ret a).
Proof. by intros st H. Qed.

Lemma keeps_lift {A} I (r : result A) : keeps I (lift r).
Proof. by intros st H. Qed.

Lemma keeps_bind {A B} I (m : M A) (k : A -> M B) :
  keeps I m -> (forall a, keeps I (k a)) -> keeps I (bind m k).
Proof.
  intros Hm Hk st H. specialize (Hm st H). unfold exec, bind in *.
  destruct (m st) as [[a|e] st1]; simpl in *; [by apply Hk | done].
Qed.

Lemma keeps_try_except {A} I (m : M A) handler :
  keeps I m -> (forall e h, handler e = Some h -> keeps I h) ->
  keeps I (try_except m handler).
Proof.
  intros Hm Hh st H. specialize (Hm st H). unfold exec, try_except in *.
  destruct (m st) as [[a|e] st1]; simpl in *; [done|].
  destruct (handler e) as [h|] eqn:E; [by apply (Hh e h E) | done].
Qed.

Lemma keeps_for_each {A} I (xs : list A) body :
  (forall x, keeps I (body x)) -> keeps I (for_each xs body).
Proof.
  intros Hb. induction xs as [|x xs IH]; simpl.
  - apply keeps_ret.
  - apply keeps_bind; [apply Hb | intros _; exact IH].
Qed.

(** The three primitives of a handler, one by one, are enough. *)
Lemma inbound_safe_intro I :
  (forall lv msg, keeps I (logging lv msg)) ->
  (forall key hn, keeps I (run_coroutine_threadsafe key hn)) ->
  (forall key v, key <> "handlers" -> keeps I (update_data_store key v)) ->
  inbound_safe I.
Proof.
  intros Hl Hq Hu. split; [exact Hl|]. split.
  - intros key v hn Hk. apply keeps_bind; [by apply Hu | intros _; apply Hq].
  - intros key v lv msg hn Hk. apply keeps_bind; [by apply Hu | intros _].
    apply keeps_bind; [apply Hl | intros _; apply Hq].
Qed.

Ltac keeps_step HI :=
  lazymatch goal with
  | |- keeps _ (bind (update_data_store _ _)
                     (fun _ => run_coroutine_threadsafe _ _)) =>
      apply (proj1 (proj2 HI)); key_ne
  | |- keeps _ (bind (update_data_store _ _)
                     (fun _ => bind (logging _ _)
                                 (fun _ => run_coroutine_threadsafe _ _))) =>
      apply (proj2 (proj2 HI)); key_ne
  | |- keeps _ (bind _ _) => apply keeps_bind; [|intros ?]
  | |- keeps _ (if ?c then _ else _) => destruct c
  | |- keeps _ (for_each _ _) => apply keeps_for_each; intros ?
  | |- keeps _ (let _ := _ in _) => cbv zeta
  | |- keeps _ (getM _ _ _) => apply keeps_lift
  | |- keeps _ (lift _) => apply keeps_lift
  | |- keeps _ (logging _ _) => apply (proj1 HI)
  | |- keeps _ (ret _) => apply keeps_ret
  end.

Ltac keeps_handler HI h := unfold h; repeat keeps_step HI.

(** Whatever the payload, a handler keeps what its primitives keep. *)
Lemma keeps_handlers I h payload :
  inbound_safe I -> In h (List.map snd EVENT_HANDLERS) -> keeps I (h payload).
Proof.
  intros HI H. simpl in H.
  repeat (destruct H as [<-|H]; [|]); try contradiction.
  all: try solve
    [ keeps_handler HI handle_push | keeps_handler HI handle_check_run
    | keeps_handler HI handle_check_suite | keeps_handler HI handle_workflow_run
    | keeps_handler HI handle_workflow_job | keeps_handler HI handle_pull_request
    | keeps_handler HI handle_pull_request_review
    | keeps_handler HI handle_pull_request_review_comment
    | keeps_handler HI handle_issues | keeps_handler HI handle_issue_comment
    | unfold handle_create, sender_of; repeat keeps_step HI
    | unfold handle_delete, sender_of; repeat keeps_step HI
    | keeps_handler HI handle_fork | keeps_handler HI handle_release
    | keeps_handler HI handle_watch | keeps_handler HI handle_member
    | keeps_handler HI handle_public | keeps_handler HI handle_repository
    | keeps_handler HI handle_commit_comment ].
Qed.

Lemma keeps_handle_event I event_type payload :
  inbound_safe I -> keeps I (handle_event event_type payload).
Proof.
  intros HI. unfold handle_event.
  destruct (handler_of event_type EVENT_HANDLERS) as [h|] eqn:E.
  - apply keeps_bind; [apply (proj1 HI) | intros _].
    apply keeps_handlers; [exact HI | by apply handler_of_In in E].
  - apply (proj1 HI).
Qed.

Lemma keeps_github_webhook I event_type body :
  inbound_safe I -> keeps I (github_webhook event_type body).
Proof.
  intros HI. unfold github_webhook.
  repeat (apply keeps_bind; [|intros ?]);
    try apply (proj1 HI); try apply keeps_ret.
  apply keeps_try_except; [by apply keeps_handle_event|].
  intros e h [= <-]. apply (proj1 HI).
Qed.

(** Whatever the collaborators answer, [send_or_edit] keeps what its
    primitives keep. *)
Lemma keeps_send_or_edit I config w key hn :
  outbound_safe key I -> keeps I (send_or_edit config w key hn).
Proof.
  intros (Hl & Hc & Hu).
  assert (Hcall : forall A (c : call) (r : result A),
            keeps I (bind (record_call c) (fun _ => lift r))).
  { intros A c r. apply keeps_bind; [apply Hc | intros _; apply keeps_lift]. }
  assert (Hsend : forall ch e msg,
            keeps I (bind (call_send w ch e) (fun new_msg =>
                     bind (update_message_map key (PyInt new_msg)) (fun _ =>
                     logging INFO msg)))).
  { intros ch e msg. apply keeps_bind; [apply Hcall | intros id].
    apply keeps_bind; [apply Hu | intros _; apply Hl]. }
  unfold send_or_edit.
  apply keeps_bind; [by intros st H | intros store].
  apply keeps_bind; [apply keeps_lift | intros handlers].
  apply keeps_bind; [apply keeps_lift | intros handler_config].
  apply keeps_bind; [apply keeps_lift | intros en].
  destruct (negb (truthy en)); [apply Hl|].
  apply keeps_bind; [by intros st H | intros store'].
  apply keeps_bind; [apply keeps_lift | intros data].
  apply keeps_bind; [apply Hcall | intros e].
  apply keeps_bind; [apply keeps_lift | intros cid].
  apply keeps_bind.
  { apply keeps_bind; [apply Hc | intros _; apply keeps_ret]. }
  intros [ch|]; [|apply Hl].
  apply keeps_try_except.
  - unfold send_or_edit_body.
    apply keeps_bind; [by intros st H | intros mm].
    destruct (dict_lookup key mm) as [mid|]; [|apply Hsend].
    apply keeps_try_except.
    + apply keeps_bind; [apply Hcall | intros _].
      apply keeps_bind; [apply Hcall | intros _; apply Hl].
    + intros ex h. destruct ex; try discriminate. intros [= <-]. apply Hsend.
  - intros ex h. destruct (is_HTTPException ex); intros [= <-]; apply Hl.
Qed.

Lemma keeps_run_all I config w jobs :
  (forall key hn, In (key, hn) jobs -> keeps I (send_or_edit config w key hn)) ->
  keeps I (run_all config w jobs).
Proof.
  induction jobs as [|[key hn] jobs IH]; intros H; simpl.
  - apply keeps_ret.
  - apply keeps_bind.
    + apply keeps_try_except; [apply H; by left|].
      intros e h [= <-]. apply keeps_ret.
    + intros _. apply IH. intros k h Hin. apply H. by right.
Qed.

(* ===================================================================== *)
(** ** The inbound path: what it leaves alone, what it queues *)
(* ===================================================================== *)

Lemma inbound_safe_untouched st0 : inbound_safe (untouched_by_inbound st0).
Proof.
  apply inbound_safe_intro.
  - by intros lv msg st H.
  - by intros key hn st H.
  - intros key v Hk st (H1 & H2 & H3).
    unfold untouched_by_inbound. unfold_store. unfold_monad. simpl.
    assert (dict_lookup "handlers" (dict_set key v (DATA_STORE st))
            = dict_lookup "handlers" (DATA_STORE st0))
      by (by rewrite dict_lookup_set_ne).
    by destruct (disk st) as [|[|?] ?].
Qed.

(** X13.  Whatever the event type, the payload and the behaviour of the
    disk, the inbound path (the route and the handler it dispatches to)
    never changes the Message Map, never calls the renderer or the Discord
    client, and never changes the routing table: the entry of every
    category reads after the request as it read before. *)
Theorem X13_inbound_path_leaves_sync_state :
  forall (event_type : string) (body : value) (st : state),
    let st' := exec (github_webhook event_type body) st in
    MESSAGE_MAP st' = MESSAGE_MAP st
    /\ calls st' = calls st
    /\ dict_lookup "handlers" (DATA_STORE st')
       = dict_lookup "handlers" (DATA_STORE st)
    /\ (forall category,
          routing_entry (DATA_STORE st') category
          = routing_entry (DATA_STORE st) category).
Proof.
  intros event_type body st st'. subst st'.
  destruct (keeps_github_webhook (untouched_by_inbound st) event_type body
              (inbound_safe_untouched st) st) as (H1 & H2 & H3);
    [done|].
  repeat split; try done. intros category. by apply routing_entry_ext.
Qed.

Lemma inbound_safe_queued : inbound_safe queued_are_stored.
Proof.
  assert (Hset : forall key v st job,
            queued_are_stored st -> In job (loop st) ->
            dict_lookup (fst job) (dict_set key v (DATA_STORE st)) <> None).
  { intros key v st job H Hin. rewrite dict_lookup_set.
    destruct (String.eqb key (fst job)); [done | by apply H]. }
  split; [by intros lv msg st H|]. split.
  - intros key v hn _ st H. unfold queued_are_stored. unfold_store.
    unfold_monad. simpl.
    destruct (disk st) as [|[|?] ?]; simpl; intros job Hin;
      try (by apply Hset);
      (apply in_app_or in Hin as [Hin|[<-|[]]];
       [by apply Hset | simpl; by rewrite dict_lookup_set_eq]).
  - intros key v lv msg hn _ st H. unfold queued_are_stored. unfold_store.
    unfold_monad. simpl.
    destruct (disk st) as [|[|?] ?]; simpl; intros job Hin;
      try (by apply Hset);
      (apply in_app_or in Hin as [Hin|[<-|[]]];
       [by apply Hset | simpl; by rewrite dict_lookup_set_eq]).
Qed.

(** X12.  A handler queues the sync call for a key only after it has
    stored the record of that key.  So if every key waiting on the loop has
    a record before a request, every key waiting after it has one, whatever
    the event, the payload and the disk do: [send_or_edit] will render a
    stored record, never the empty default of its lookup. *)
Theorem X12_sync_is_queued_for_stored_records :
  forall (event_type : string) (body : value) (st : state),
    queued_are_stored st ->
    let st' := exec (github_webhook event_type body) st in
    queued_are_stored st'
    /\ forall key hn, In (key, hn) (loop st') ->
         exists record, dict_lookup key (DATA_STORE st') = Some record
                        /\ record_for (DATA_STORE st') key = record.
Proof.
  intros event_type body st H st'. subst st'.
  pose proof (keeps_github_webhook queued_are_stored event_type body
                inbound_safe_queued st H) as Hq.
  split; [exact Hq|]. intros key hn Hin. specialize (Hq _ Hin). simpl in Hq.
  unfold record_for.
  destruct (dict_lookup key _) as [record|]; [by exists record | done].
Qed.

Lemma X12_witness :
  queued_are_stored (started [WriteFails None])
  /\ queued_are_stored
       (exec (github_webhook "push" push_abc) (started [WriteFails None]))
  /\ queued_are_stored (exec (github_webhook "push" push_abc) (started [])).
Proof.
  assert (H : forall d, queued_are_stored (started d)) by (by intros d job).
  split; [apply H|]. split.
  - exact (proj1 (X12_sync_is_queued_for_stored_records "push" push_abc
                    (started [WriteFails None]) (H _))).
  - exact (proj1 (X12_sync_is_queued_for_stored_records "push" push_abc
                    (started []) (H _))).
Defined.

Lemma handler_of_None event_type table :
  ~ In event_type (List.map fst table) -> handler_of event_type table = None.
Proof.
  induction table as [|[name h] table IH]; simpl; [done|]. intros H.
  destruct (String.eqb name event_type) eqn:E.
  - apply String.eqb_eq in E. exfalso. apply H. by left.
  - apply IH. intros Hin. apply H. by right.
Qed.

(** X11.  An event whose type is not one of the nineteen names of the
    dispatch table is acknowledged and dropped: the route answers
    ("OK", 200), and nothing of the state moves but the log, which gains the
    two lines of the route and the warning of the dispatcher; no record is
    stored, nothing is written, nothing is queued. *)
Theorem X11_unknown_event_is_ignored :
  forall (event_type : string) (body : value) (st : state),
    ~ In event_type (List.map fst EVENT_HANDLERS) ->
    github_webhook event_type body st
    = (Ok ("OK", 200%Z),
       set_log (log st ++
                [(INFO, "Received event: " +:+ event_type);
                 (DEBUG, "Payload: " +:+ Json.dumps (payload_of body));
                 (WARNING, "No handler found for event type: " +:+ event_type)])
               st).
Proof.
  intros event_type body st H.
  unfold github_webhook, handle_event, payload_of.
  rewrite (handler_of_None _ _ H). unfold_monad. simpl.
  by rewrite <- !app_assoc.
Qed.

Lemma X11_witness :
  ~ In "ping" (List.map fst EVENT_HANDLERS)
  /\ DATA_STORE (exec (github_webhook "ping" empty_dict) (started []))
     = routing_sample
  /\ loop (exec (github_webhook "ping" empty_dict) (started [])) = [].
Proof.
  assert (H : ~ In "ping" (List.map fst EVENT_HANDLERS)).
  { simpl. intros Hin.
    repeat (destruct Hin as [Hin|Hin]; [discriminate Hin|]). exact Hin. }
  split; [exact H|]. unfold exec.
  rewrite (X11_unknown_event_is_ignored "ping" empty_dict (started []) H).
  split; reflexivity.
Defined.

(* ===================================================================== *)
(** ** [send_or_edit]: its frame and its early exits *)
(* ===================================================================== *)

Lemma outbound_safe_untouched key st0 :
  outbound_safe key (untouched_by_sync key st0).
Proof.
  split; [by intros lv msg st H|]. split; [by intros c st H|].
  intros id st (H1 & H2 & H3). unfold untouched_by_sync. unfold_store.
  unfold_monad. simpl.
  assert (forall k, k <> key ->
            dict_lookup k (dict_set key id (MESSAGE_MAP st))
            = dict_lookup k (MESSAGE_MAP st0)).
  { intros k Hk. rewrite dict_lookup_set_ne; [by apply H3 | congruence]. }
  by destruct (disk st) as [|[|?] ?].
Qed.

Lemma outbound_safe_calls key st0 :
  outbound_safe key (fun st => exists new, calls st = calls st0 ++ new).
Proof.
  split; [by intros lv msg st H|]. split.
  - intros c st [new H]. exists (new ++ [c]). simpl. by rewrite H, app_assoc.
  - intros id st [new H]. exists new. unfold_store. unfold_monad. simpl.
    by destruct (disk st) as [|[|?] ?].
Qed.

(** X7.  Whatever the renderer and the Discord client answer and whatever
    the disk does, one run of [send_or_edit] for [key] never changes the
    Record Store, never queues anything, leaves the Message Map entry of
    every other key as it was, and only adds to the trace of calls. *)
Theorem X7_send_or_edit_frame :
  forall (config : Config) (w : world) (key : string)
         (handler_name : option string) (st : state),
    let st' := exec (send_or_edit config w key handler_name) st in
    DATA_STORE st' = DATA_STORE st
    /\ loop st' = loop st
    /\ (forall k, k <> key ->
          dict_lookup k (MESSAGE_MAP st') = dict_lookup k (MESSAGE_MAP st))
    /\ exists new, calls st' = calls st ++ new.
Proof.
  intros config w key hn st st'. subst st'.
  destruct (keeps_send_or_edit _ config w key hn
              (outbound_safe_untouched key st) st) as (H1 & H2 & H3); [done|].
  split; [done|]. split; [done|]. split; [done|].
  apply (keeps_send_or_edit _ config w key hn (outbound_safe_calls key st) st).
  exists []. by rewrite app_nil_r.
Qed.

(** In this development the renderer inside [send_or_edit] is the
    collaborator [build_embed w]: the lines it logs on its own are not in
    the log of the three lemmas below, which give the state [send_or_edit]
    ends in.  The properties after them say of the log only what does not
    depend on that: which record is the last one, and that nothing but the
    renderer's lines comes before it. *)
Lemma send_or_edit_no_channel config w key handler_name st cid e :
  enabled (DATA_STORE st) (category_of key) = true ->
  build_embed w key (record_for (DATA_STORE st) key) handler_name = Ok e ->
  channel_id_for config (DATA_STORE st) (category_of key) = Ok cid ->
  get_channel w cid = None ->
  send_or_edit config w key handler_name st
  = (Ok tt,
     set_log (log st ++
              [(ERROR, "Channel " +:+ str cid +:+ " for handler '" +:+
                       category_of key +:+ "' not found.")])
       (set_calls (calls st ++ prelude key handler_name st cid) st)).
Proof.
  unfold enabled, enabled_flag, channel_id_for, routing_entry, category_of,
    record_for, prelude.
  intros Hen Hemb Hcid Hch.
  unfold send_or_edit. unfold_monad. simpl in *.
  destruct (get _ (split_head key) _) as [hc|]; [|discriminate].
  destruct (get hc "enabled" _) as [v|]; [|discriminate].
  rewrite Hen. simpl. rewrite Hemb. simpl. rewrite Hcid. simpl. rewrite Hch.
  rewrite <- app_assoc. reflexivity.
Qed.

Lemma send_or_edit_renderer_raises config w key handler_name st ex :
  enabled (DATA_STORE st) (category_of key) = true ->
  build_embed w key (record_for (DATA_STORE st) key) handler_name = Raise ex ->
  send_or_edit config w key handler_name st
  = (Raise ex,
     set_calls (calls st ++
                [BuildEmbed key (record_for (DATA_STORE st) key) handler_name])
               st).
Proof.
  intros Hen Hemb.
  unfold enabled, enabled_flag, routing_entry, category_of, record_for in *.
  unfold send_or_edit. unfold_monad. simpl in *.
  destruct (get _ (split_head key) _) as [hc|]; [|discriminate].
  destruct (get hc "enabled" _) as [v|]; [|discriminate].
  rewrite Hen. simpl. rewrite Hemb. reflexivity.
Qed.

Lemma send_or_edit_send_raises config w key handler_name st cid ch e ex :
  ready config w key handler_name st cid ch e ->
  dict_lookup key (MESSAGE_MAP st) = None ->
  send w ch e = Raise ex ->
  send_or_edit config w key handler_name st
  = (Ok tt,
     set_log (log st ++
              [(ERROR, (if is_HTTPException ex
                        then "Discord HTTPException for "
                        else "Unexpected error for ")
                       +:+ key +:+ ": " +:+ exn_str ex)])
       (set_calls (calls st ++ prelude key handler_name st cid ++ [Send ch e])
                  st)).
Proof.
  intros Hready Hnone Hsend.
  rewrite (send_or_edit_ready _ _ _ _ _ _ _ _ Hready).
  unfold send_or_edit_body, outer_handler. unfold_monad. simpl.
  rewrite Hnone. simpl. rewrite Hsend. simpl.
  rewrite <- !app_assoc. by destruct (is_HTTPException ex).
Qed.

Lemma traffic_prelude cs key handler_name st cid :
  traffic (cs ++ prelude key handler_name st cid) = traffic cs.
Proof.
  unfold traffic, prelude. rewrite !count_app. unfold count. simpl. lia.
Qed.

(** X8.  When the category is enabled and the record rendered, but the
    client does not know the channel of the category, [send_or_edit] returns
    normally, the last record of the log being its ERROR line that the
    channel was not found: after the renderer and the channel lookup no call
    is made (no fetch, no edit, no send), and neither map, nor the file, nor
    the disk, nor the loop is touched. *)
Theorem X8_unknown_channel_is_logged_and_skipped :
  forall (config : Config) (w : world) (key : string)
         (handler_name : option string) (st : state) (cid : value) (e : embed),
    enabled (DATA_STORE st) (category_of key) = true ->
    build_embed w key (record_for (DATA_STORE st) key) handler_name = Ok e ->
    channel_id_for config (DATA_STORE st) (category_of key) = Ok cid ->
    get_channel w cid = None ->
    let st' := exec (send_or_edit config w key handler_name) st in
    eval (send_or_edit config w key handler_name) st = Ok tt
    /\ calls st' = calls st ++ prelude key handler_name st cid
    /\ traffic (calls st') = traffic (calls st)
    /\ DATA_STORE st' = DATA_STORE st /\ MESSAGE_MAP st' = MESSAGE_MAP st
    /\ file st' = file st /\ disk st' = disk st /\ loop st' = loop st
    /\ exists entries,
         log st' = log st ++ entries ++
                   [(ERROR, "Channel " +:+ str cid +:+ " for handler '" +:+
                            category_of key +:+ "' not found.")].
Proof.
  intros config w key hn st cid e Hen Hemb Hcid Hch st'. subst st'.
  unfold exec, eval.
  rewrite (send_or_edit_no_channel config w key hn st cid e Hen Hemb Hcid Hch).
  cbn [fst snd]. split; [reflexivity|]. split; [reflexivity|].
  split; [apply traffic_prelude|]. do 5 (split; [reflexivity|]).
  by exists [].
Qed.

Lemma X8_witness :
  enabled (DATA_STORE (started [])) (category_of "push:abc123") = true
  /\ count is_send
       (calls (exec (send_or_edit default_config no_channel "push:abc123"
                       (Some "push")) (started []))) = 0
  /\ MESSAGE_MAP (exec (send_or_edit default_config no_channel "push:abc123"
                          (Some "push")) (started [])) = [].
Proof.
  split; [reflexivity|].
  destruct (X8_unknown_channel_is_logged_and_skipped default_config no_channel
              "push:abc123" (Some "push") (started [])
              (PyInt 1284897403706806423) "embed"
              eq_refl eq_refl eq_refl eq_refl)
    as (_ & Hc & _ & _ & Hm & _).
  split; [by rewrite Hc | exact Hm].
Defined.



(** X10.  For a key that has no message yet, when the send fails (the
    category enabled, the record rendered, the channel found),
    [send_or_edit] returns normally, the last record of the log being its
    ERROR line for the key ("Discord HTTPException for ..." or "Unexpected
    error for ...", followed by the text of the exception, which is left
    open here).  The send was the last call; the key still has no entry in
    the Message Map, nothing was written to the disk, and the Record Store
    keeps the record, so the next event for the key tries the send again. *)
Theorem X10_failed_first_send_leaves_no_entry :
  forall (config : Config) (w : world) (key : string)
         (handler_name : option string) (st : state)
         (cid : value) (ch : channel) (e : embed) (ex : exn),
    ready config w key handler_name st cid ch e ->
    dict_lookup key (MESSAGE_MAP st) = None ->
    send w ch e = Raise ex ->
    let st' := exec (send_or_edit config w key handler_name) st in
    eval (send_or_edit config w key handler_name) st = Ok tt
    /\ calls st' = calls st ++ prelude key handler_name st cid ++ [Send ch e]
    /\ MESSAGE_MAP st' = MESSAGE_MAP st
    /\ dict_lookup key (MESSAGE_MAP st') = None
    /\ DATA_STORE st' = DATA_STORE st
    /\ file st' = file st /\ disk st' = disk st /\ loop st' = loop st
    /\ exists entries message,
         log st' = log st ++ entries ++
                   [(ERROR, (if is_HTTPException ex
                             then "Discord HTTPException for "
                             else "Unexpected error for ")
                            +:+ key +:+ ": " +:+ message)].
Proof.
  intros config w key hn st cid ch e ex Hready Hnone Hsend st'. subst st'.
  unfold exec, eval.
  rewrite (send_or_edit_send_raises config w key hn st cid ch e ex
             Hready Hnone Hsend).
  cbn [fst snd]. do 3 (split; [reflexivity|]). split; [exact Hnone|].
  do 4 (split; [reflexivity|]).
  exists [], (exn_str ex). reflexivity.
Qed.

Lemma X10_witness :
  ready default_config send_refused "push:abc123" (Some "push") (started [])
        (PyInt 1284897403706806423) "general" "embed"
  /\ MESSAGE_MAP (exec (send_or_edit default_config send_refused "push:abc123"
                          (Some "push")) (started [])) = []
  /\ eval (send_or_edit default_config send_refused "push:abc123" (Some "push"))
          (started []) = Ok tt.
Proof.
  assert (Hr : ready default_config send_refused "push:abc123" (Some "push")
                 (started []) (PyInt 1284897403706806423) "general" "embed")
    by (repeat split; reflexivity).
  split; [exact Hr|].
  destruct (X10_failed_first_send_leaves_no_entry default_config send_refused
              "push:abc123" (Some "push") (started []) _ _ _ HTTPException
              Hr eq_refl eq_refl) as (He & _ & Hm & _).
  split; [exact Hm | exact He].
Defined.

(* ===================================================================== *)
(** ** [load_data]: the start of a process *)
(* ===================================================================== *)

(** X1.  Started where the file does not exist, on a disk that takes the
    write, [load_data] returns normally with both maps empty and creates the
    file: it holds the document of two empty maps (which reads back as
    such), and the log tells of the missing file and of the save. *)
Theorem X1_load_data_creates_missing_file :
  forall (st : state),
    file st = None -> write_ok st = true ->
    let st' := exec load_data st in
    eval load_data st = Ok tt
    /\ DATA_STORE st' = [] /\ MESSAGE_MAP st' = []
    /\ file st' = Some (Json.dumps empty_document)
    /\ Json.loads (Json.dumps empty_document) = Some empty_document
    /\ log st' = log st ++
                 [(INFO, "No existing " +:+ file_path st +:+
                         " found. Starting with empty data stores.");
                  (INFO, "Data saved to " +:+ file_path st)].
Proof.
  intros st Hfile Hok st'. subst st'.
  unfold load_data, read_file, reset_and_save, save_data, write_file.
  unfold_monad. rewrite Hfile. simpl.
  destruct (write_ok_cases st Hok) as [->|[d ->]]; simpl;
    rewrite <- !app_assoc; by repeat split.
Qed.

Lemma X1_witness :
  file (init "data_store.json" None []) = None
  /\ write_ok (init "data_store.json" None []) = true
  /\ file (exec load_data (init "data_store.json" None []))
     = Some (Json.dumps empty_document).
Proof.
  split; [reflexivity|]. split; [reflexivity|].
  exact (proj1 (proj2 (proj2 (proj2 (X1_load_data_creates_missing_file
                                       (init "data_store.json" None [])
                                       eq_refl eq_refl))))).
Defined.



(** X3.  Started on a file that holds valid JSON which is not an object (a
    list, a number, a string, null, true or false), [load_data] does not
    return: the [AttributeError] of [data.get] matches neither [except]
    clause and leaves the method.  Nothing is logged, the file is left as it
    is, and the maps are still what they were. *)
Theorem X3_load_data_rejects_non_object_document :
  forall (st : state) (text : string) (v : value),
    file st = Some text -> Json.loads text = Some v -> is_dict v = false ->
    load_data st = (Raise AttributeError, st).
Proof.
  intros st text v Hfile Hv Hd.
  unfold load_data, read_file. unfold_monad. rewrite Hfile, Hv. simpl.
  by destruct v.
Qed.

Lemma X3_witness :
  Json.loads "[]" = Some (PyList [])
  /\ load_data (init "data_store.json" (Some "[]") [])
     = (Raise AttributeError, init "data_store.json" (Some "[]") []).
Proof.
  split; [reflexivity|].
  exact (X3_load_data_rejects_non_object_document
           (init "data_store.json" (Some "[]") []) "[]" (PyList [])
           eq_refl eq_refl eq_refl).
Defined.

(** X4.  Started on a file that holds a JSON object (no object in it
    having a key twice), [load_data] takes the two maps from the members
    ["DATA_STORE"] and ["MESSAGE_MAP"] (here: each an object, or missing, in
    which case the map is empty), ignores every other member, and writes
    nothing: the file and the disk are as they were, and only the line
    "Data loaded" is logged. *)
Theorem X4_load_data_reads_without_writing :
  forall (st : state) (text : string) (d ds mm : list (string * value)),
    file st = Some text -> Json.loads text = Some (PyDict d) ->
    distinct_keys (PyDict d) = true ->
    field d "DATA_STORE" empty_dict = PyDict ds ->
    field d "MESSAGE_MAP" empty_dict = PyDict mm ->
    load_data st
    = (Ok tt,
       set_log (log st ++ [(INFO, "Data loaded from " +:+ file_path st)])
         (set_MESSAGE_MAP mm (set_DATA_STORE ds st))).
Proof.
  intros st text d ds mm Hfile Hd _ Hds Hmm. unfold field in *.
  unfold load_data, read_file. unfold_monad. rewrite Hfile, Hd. simpl.
  rewrite Hds. simpl. rewrite Hmm. reflexivity.
Qed.

Lemma X4_witness :
  let st := init "data_store.json"
              (Some (Json.dumps
                       (PyDict [("MESSAGE_MAP",
                                 PyDict [("push:abc123", PyInt 11)]);
                                ("v", PyInt 2)])))
              [WriteFails None] in
  DATA_STORE (exec load_data st) = []
  /\ MESSAGE_MAP (exec load_data st) = [("push:abc123", PyInt 11)]
  /\ disk (exec load_data st) = [WriteFails None].
Proof.
  cbv zeta. unfold exec.
  rewrite (X4_load_data_reads_without_writing
             (init "data_store.json"
                (Some (Json.dumps
                         (PyDict [("MESSAGE_MAP",
                                   PyDict [("push:abc123", PyInt 11)]);
                                  ("v", PyInt 2)])))
                [WriteFails None])
             (Json.dumps (PyDict [("MESSAGE_MAP",
                                   PyDict [("push:abc123", PyInt 11)]);
                                  ("v", PyInt 2)]))
             [("MESSAGE_MAP", PyDict [("push:abc123", PyInt 11)]);
              ("v", PyInt 2)] [] [("push:abc123", PyInt 11)]
             eq_refl eq_refl eq_refl eq_refl eq_refl).
  repeat split.
Defined.

(** X5.  Started where the file does not exist, on a disk that refuses the
    write, [load_data] does not return: the save inside the [except] clause
    raises [OSError], which nothing in [load_data] catches.  The maps are
    empty and the file is what the failed write left. *)
Theorem X5_load_data_fails_when_file_cannot_be_created :
  forall (st : state) (left_on_disk : option string)
         (coming : list write_outcome),
    file st = None -> disk st = WriteFails left_on_disk :: coming ->
    let st' := exec load_data st in
    eval load_data st = Raise OSError
    /\ DATA_STORE st' = [] /\ MESSAGE_MAP st' = []
    /\ file st' = left_on_disk /\ disk st' = coming.
Proof.
  intros st l coming Hfile Hdisk st'. subst st'.
  unfold load_data, read_file, reset_and_save, save_data, write_file.
  unfold_monad. rewrite Hfile. simpl. rewrite Hdisk. by repeat split.
Qed.

Lemma X5_witness :
  file (init "data_store.json" None [WriteFails None]) = None
  /\ eval load_data (init "data_store.json" None [WriteFails None])
     = Raise OSError.
Proof.
  split; [reflexivity|].
  exact (proj1 (X5_load_data_fails_when_file_cannot_be_created
                  (init "data_store.json" None [WriteFails None]) None []
                  eq_refl eq_refl)).
Defined.

(* ===================================================================== *)
(** ** What a restart finds *)
(* ===================================================================== *)

Lemma written_through_refl st : healthy st -> written_through st st.
Proof. intros H. split; [done|]. split; [done|]. by left. Qed.

Lemma written_through_update_data_store st0 key v :
  keeps (written_through st0) (update_data_store key v).
Proof.
  intros st (Hh & Hp & _). unfold written_through, in_sync, healthy in *.
  unfold_store. unfold_monad. simpl.
  destruct (disk st) as [|o d]; simpl.
  - split; [done|]. split; [done|]. by right.
  - apply healthy_tail in Hh as [-> Hh]. simpl.
    split; [done|]. split; [done|]. by right.
Qed.

Lemma written_through_update_message_map st0 key id :
  keeps (written_through st0) (update_message_map key id).
Proof.
  intros st (Hh & Hp & _). unfold written_through, in_sync, healthy in *.
  unfold_store. unfold_monad. simpl.
  destruct (disk st) as [|o d]; simpl.
  - split; [done|]. split; [done|]. by right.
  - apply healthy_tail in Hh as [-> Hh]. simpl.
    split; [done|]. split; [done|]. by right.
Qed.

Lemma inbound_safe_written_through st0 : inbound_safe (written_through st0).
Proof.
  apply inbound_safe_intro.
  - by intros lv msg st H.
  - by intros key hn st H.
  - intros key v _. apply written_through_update_data_store.
Qed.

Lemma outbound_safe_written_through key st0 :
  outbound_safe key (written_through st0).
Proof.
  split; [by intros lv msg st H|]. split; [by intros c st H|].
  intros id. apply written_through_update_message_map.
Qed.

Lemma keeps_deliver I config w event_type body :
  inbound_safe I -> (forall key, outbound_safe key I) ->
  (forall st, I st -> I (set_loop [] st)) ->
  keeps I (deliver config w event_type body).
Proof.
  intros Hin Hout Hloop. unfold deliver.
  apply keeps_bind; [by apply keeps_github_webhook | intros _].
  intros st H. unfold exec, run_loop.
  apply (keeps_run_all I config w (loop st)); [|by apply Hloop].
  intros key hn _. by apply keeps_send_or_edit.
Qed.

Lemma keeps_settle {A} I (m : M A) : keeps I m -> keeps I (settle m).
Proof.
  intros H. unfold settle. apply keeps_try_except.
  - apply keeps_bind; [exact H | intros _; apply keeps_ret].
  - intros e h [= <-]. apply keeps_ret.
Qed.

(** A command that assigns in place and then saves. *)
Lemma written_through_assign {A} st0 handlers name info member v (r : A) :
  keeps (written_through st0)
    (bind (assign_in_place handlers name info member v) (fun h =>
     bind (update_data_store "handlers" h) (fun _ => ret r))).
Proof.
  intros st H. pose proof H as (Hh & Hp & _).
  unfold written_through, in_sync, healthy in *.
  unfold assign_in_place. unfold_store. unfold_monad.
  destruct handlers as [| | | | |hs]; try exact H.
  destruct info as [| | | | |entry]; try exact H. simpl.
  destruct (disk st) as [|o d]; simpl.
  - split; [done|]. split; [done|]. by right.
  - apply healthy_tail in Hh as [-> Hh]. simpl.
    split; [done|]. split; [done|]. by right.
Qed.

Lemma written_through_togglehandler st0 handler_name :
  keeps (written_through st0) (togglehandler handler_name).
Proof.
  unfold togglehandler. cbv zeta.
  apply keeps_bind; [by intros st H | intros store].
  apply keeps_bind; [apply keeps_lift | intros handlers].
  apply keeps_bind; [apply keeps_lift | intros [info|]]; [|apply keeps_ret].
  apply keeps_bind; [apply keeps_lift | intros current].
  apply written_through_assign.
Qed.

Lemma written_through_sethandlerchannel st0 handler_name channel_id :
  keeps (written_through st0) (sethandlerchannel handler_name channel_id).
Proof.
  unfold sethandlerchannel. cbv zeta.
  apply keeps_bind; [by intros st H | intros store].
  apply keeps_bind; [apply keeps_lift | intros handlers].
  apply keeps_bind; [apply keeps_lift | intros [info|]]; [|apply keeps_ret].
  apply written_through_assign.
Qed.

Lemma keeps_map_M {A B} I (xs : list A) (f : A -> M B) :
  (forall x, keeps I (f x)) -> keeps I (map_M xs f).
Proof.
  intros Hf. induction xs as [|x xs IH]; simpl; [apply keeps_ret|].
  apply keeps_bind; [apply Hf | intros y].
  apply keeps_bind; [exact IH | intros ys; apply keeps_ret].
Qed.

(** [listhandlers] only looks channels up. *)
Lemma keeps_listhandlers I config w :
  (forall c, keeps I (record_call c)) -> keeps I (listhandlers config w).
Proof.
  intros Hc. unfold listhandlers.
  apply keeps_bind; [by intros st H | intros store].
  apply keeps_bind; [apply keeps_lift | intros handlers].
  destruct (negb (truthy handlers)); [apply keeps_ret|].
  apply keeps_bind; [apply keeps_lift | intros items].
  apply keeps_bind; [|intros fs; apply keeps_ret].
  apply keeps_map_M. intros [handler info]. unfold list_one.
  apply keeps_bind; [apply keeps_lift | intros status].
  apply keeps_bind; [apply keeps_lift | intros cid].
  apply keeps_bind.
  { apply keeps_bind; [apply Hc | intros _; apply keeps_ret]. }
  intros [ch|]; [apply keeps_ret|].
  apply keeps_bind; [apply keeps_lift | intros shown; apply keeps_ret].
Qed.

Lemma written_through_run_operations st0 config ops :
  keeps (written_through st0) (run_operations config ops).
Proof.
  induction ops as [|op ops IH]; simpl; [apply keeps_ret|].
  apply keeps_bind; [|intros _; exact IH].
  destruct op as [ev|name|name cid|w]; simpl.
  - apply keeps_deliver.
    + apply inbound_safe_written_through.
    + intros key. apply outbound_safe_written_through.
    + by intros st H.
  - apply keeps_settle, written_through_togglehandler.
  - apply keeps_settle, written_through_sethandlerchannel.
  - apply keeps_settle, keeps_listhandlers. by intros c st H.
Qed.

Lemma written_through_recoverable st0 st :
  written_through st0 st -> recoverable st0 -> recoverable st.
Proof.
  intros (_ & Hp & [[Hf Hs]|Hsync]) Hr d.
  - unfold restarted. rewrite Hp, Hf, Hs. apply Hr.
  - unfold in_sync, document in Hsync.
    destruct (load_data_document (restarted st d) _ _ Hsync) as (_ & H1 & H2).
    unfold stores. by rewrite H1, H2.
Qed.

(** X6.  On a disk that works, a restart never loses anything.  Start from
    a state that a restart would recover (a process restarted on its file
    loads the two maps it holds: so after [load_data] at start).  Then
    after any sequence of deliveries, each run to quiescence, and of
    commands of an administrator, whatever the payloads and whatever the
    Discord client answers, a process restarted on the file loads exactly
    the Record Store and the Message Map the running process holds. *)
Theorem X6_restart_recovers_the_maps :
  forall (config : Config) (ops : list operation) (st : state),
    healthy st -> recoverable st ->
    let st' := exec (run_operations config ops) st in
    healthy st'
    /\ recoverable st'
    /\ forall d,
         DATA_STORE (exec load_data (restarted st' d)) = DATA_STORE st'
         /\ MESSAGE_MAP (exec load_data (restarted st' d)) = MESSAGE_MAP st'.
Proof.
  intros config ops st Hh Hr st'. subst st'.
  pose proof (written_through_run_operations st config ops st
                (written_through_refl st Hh)) as Hw.
  pose proof (written_through_recoverable _ _ Hw Hr) as Hr'.
  split; [by destruct Hw|]. split; [exact Hr'|].
  intros d. specialize (Hr' d). unfold stores in Hr'. by injection Hr'.
Qed.

Lemma X6_witness :
  let st := exec load_data (init "data_store.json" None []) in
  let ops := [Delivers (mkDelivery "push" push_abc (smooth 5) 5 false);
              TogglesHandler "push"] in
  healthy st /\ recoverable st
  /\ forall d, DATA_STORE (exec load_data
                             (restarted (exec (run_operations default_config ops)
                                              st) d))
               = DATA_STORE (exec (run_operations default_config ops) st).
Proof.
  cbv zeta.
  assert (Hh : healthy (exec load_data (init "data_store.json" None [])))
    by constructor.
  assert (Hr : recoverable (exec load_data (init "data_store.json" None [])))
    by (intros d; reflexivity).
  split; [exact Hh|]. split; [exact Hr|]. intros d.
  exact (proj1 (proj2 (proj2 (X6_restart_recovers_the_maps default_config
                 [Delivers (mkDelivery "push" push_abc (smooth 5) 5 false);
                  TogglesHandler "push"]
                 _ Hh Hr)) d)).
Defined.

(* ===================================================================== *)
(** ** A push, commit by commit *)
(* ===================================================================== *)

Lemma healthy_cases st :
  healthy st ->
  (disk st = [] \/ exists d, disk st = Written :: d)
  /\ Forall (fun o => o = Written) (List.skipn 1 (disk st)).
Proof.
  unfold healthy. destruct (disk st) as [|o d]; simpl; intros H.
  - split; [by left | done].
  - apply healthy_tail in H as [-> H]. split; [right; by eexists | done].
Qed.

(** One turn of the loop on a commit that is an object, the disk working. *)
Lemma push_commit_dict rfn c st :
  healthy st ->
  eval (push_commit rfn (PyDict c)) st = Ok tt
  /\ healthy (exec (push_commit rfn (PyDict c)) st)
  /\ DATA_STORE (exec (push_commit rfn (PyDict c)) st)
     = dict_set (push_key c) (push_record rfn c) (DATA_STORE st)
  /\ loop (exec (push_commit rfn (PyDict c)) st)
     = loop st ++ [(push_key c, Some "push")]
  /\ disk (exec (push_commit rfn (PyDict c)) st) = List.skipn 1 (disk st).
Proof.
  intros Hh. destruct (healthy_cases st Hh) as [Hd Ht].
  unfold push_commit, getM, push_key, push_record, field, healthy.
  unfold_store. unfold_monad. simpl.
  destruct Hd as [Hd|[d Hd]]; rewrite Hd in *; simpl; by repeat split.
Qed.

Lemma push_commits_dicts rfn cs : forall st,
  forallb is_dict cs = true -> healthy st ->
  eval (for_each cs (push_commit rfn)) st = Ok tt
  /\ healthy (exec (for_each cs (push_commit rfn)) st)
  /\ DATA_STORE (exec (for_each cs (push_commit rfn)) st)
     = store_commits rfn cs (DATA_STORE st)
  /\ loop (exec (for_each cs (push_commit rfn)) st) = loop st ++ push_jobs cs
  /\ disk (exec (for_each cs (push_commit rfn)) st)
     = List.skipn (length cs) (disk st).
Proof.
  induction cs as [|commit cs IH]; intros st Hcs Hh.
  - simpl. rewrite app_nil_r. by repeat split.
  - simpl in Hcs. apply andb_true_iff in Hcs as [Hc Hcs].
    destruct commit as [| | | | |c]; try discriminate.
    destruct (push_commit_dict rfn c st Hh) as (He & Hh1 & Hs1 & Hl1 & Hd1).
    unfold exec, eval in *. cbn [for_each]. unfold bind.
    destruct (push_commit rfn (PyDict c) st) as [[[]|ex] st1];
      simpl in *; [|discriminate].
    destruct (IH st1 Hcs Hh1) as (He2 & Hh2 & Hs2 & Hl2 & Hd2).
    split; [done|]. split; [done|].
    rewrite Hs2, Hl2, Hd2, Hs1, Hl1, Hd1, <- app_assoc.
    split; [done|]. split; [done|].
    by rewrite drop_drop.
Qed.

Lemma handle_push_commits d repo cs st :
  field d "commits" (PyList []) = PyList cs ->
  field d "repository" empty_dict = PyDict repo ->
  handle_push (PyDict d) st
  = for_each cs
      (push_commit (field repo "full_name" (PyStr "unknown/unknown"))) st.
Proof.
  intros Hcs Hrepo. rewrite handle_push_unfold. unfold bind.
  rewrite !getM_dict, Hcs, Hrepo, getM_dict. reflexivity.
Qed.

(** X14.  A push whose commits are objects (and whose ["repository"] is an
    object or missing), on a disk that works: the handler returns normally
    having stored one record per commit under [push:<id of the commit>], in
    the order of the payload (a later commit with the same id overwrites the
    earlier), queued one sync call per commit in that order, and rewritten
    the whole file once per commit.  A push without commits stores, queues
    and writes nothing. *)
Theorem X14_push_stores_and_queues_every_commit :
  forall (d repo : list (string * value)) (cs : list value) (st : state),
    field d "commits" (PyList []) = PyList cs ->
    forallb is_dict cs = true ->
    field d "repository" empty_dict = PyDict repo ->
    healthy st ->
    let repo_full_name := field repo "full_name" (PyStr "unknown/unknown") in
    let st' := exec (handle_push (PyDict d)) st in
    eval (handle_push (PyDict d)) st = Ok tt
    /\ DATA_STORE st' = store_commits repo_full_name cs (DATA_STORE st)
    /\ loop st' = loop st ++ push_jobs cs
    /\ disk st' = List.skipn (length cs) (disk st)
    /\ (cs = [] -> st' = st).
Proof.
  intros d repo cs st Hcs Hdicts Hrepo Hh rfn st'. subst rfn st'.
  unfold exec, eval. rewrite (handle_push_commits d repo cs st Hcs Hrepo).
  destruct (push_commits_dicts (field repo "full_name" (PyStr "unknown/unknown"))
              cs st Hdicts Hh) as (H1 & _ & H2 & H3 & H4).
  repeat split; try done. by intros ->.
Qed.

Lemma X14_witness :
  healthy (started [Written; Written; Written])
  /\ loop (exec (handle_push push_abc) (started [Written; Written; Written]))
     = [("push:abc123", Some "push")]
  /\ disk (exec (handle_push push_abc) (started [Written; Written; Written]))
     = [Written; Written].
Proof.
  assert (Hh : healthy (started [Written; Written; Written]))
    by (repeat constructor).
  split; [exact Hh|].
  pose proof (X14_push_stores_and_queues_every_commit
                [("repository", PyDict [("full_name", PyStr "octo/repo")]);
                 ("commits", PyList [PyDict [("id", PyStr "abc123");
                                             ("message", PyStr "fix");
                                             ("url", PyStr "https://x/abc123")]])]
                [("full_name", PyStr "octo/repo")]
                [PyDict [("id", PyStr "abc123"); ("message", PyStr "fix");
                         ("url", PyStr "https://x/abc123")]]
                (started [Written; Written; Written])
                eq_refl eq_refl eq_refl Hh) as (_ & _ & Hl & Hd & _).
  split; [exact Hl | exact Hd].
Defined.

Lemma push_commit_not_dict rfn bad st :
  is_dict bad = false -> push_commit rfn bad st = (Raise AttributeError, st).
Proof. by destruct bad. Qed.

Lemma for_each_app {A} (xs ys : list A) body st :
  eval (for_each xs body) st = Ok tt ->
  for_each (xs ++ ys) body st = for_each ys body (exec (for_each xs body) st).
Proof.
  revert st. induction xs as [|x xs IH]; intros st; [done|].
  unfold eval, exec in *. cbn [for_each app]. unfold bind.
  destruct (body x st) as [[[]|ex] st1]; simpl; [apply IH | discriminate].
Qed.

(** X15.  A push in which a commit is not an object (the commits before it
    are, the disk works): the handler raises [AttributeError] at that
    commit.  The commits before it have been stored and their sync calls
    queued; the malformed commit and every commit after it are dropped.  The
    route still answers ("OK", 200), and the last record of the log is its
    ERROR line "Error handling event 'push': " followed by the text of the
    exception (which is left open here). *)
Theorem X15_malformed_commit_stops_the_push :
  forall (d repo : list (string * value)) (good rest : list value)
         (bad : value) (st : state),
    field d "commits" (PyList []) = PyList (good ++ bad :: rest) ->
    forallb is_dict good = true -> is_dict bad = false ->
    field d "repository" empty_dict = PyDict repo ->
    healthy st ->
    let repo_full_name := field repo "full_name" (PyStr "unknown/unknown") in
    let st' := exec (handle_push (PyDict d)) st in
    let st'' := exec (github_webhook "push" (PyDict d)) st in
    eval (handle_push (PyDict d)) st = Raise AttributeError
    /\ DATA_STORE st' = store_commits repo_full_name good (DATA_STORE st)
    /\ loop st' = loop st ++ push_jobs good
    /\ eval (github_webhook "push" (PyDict d)) st = Ok ("OK", 200%Z)
    /\ DATA_STORE st'' = store_commits repo_full_name good (DATA_STORE st)
    /\ loop st'' = loop st ++ push_jobs good
    /\ exists entries message,
         log st'' = entries ++ [(ERROR, "Error handling event 'push': "
                                        +:+ message)].
Proof.
  intros d repo good rest bad st Hcs Hgood Hbad Hrepo Hh rfn st' st''.
  subst rfn st' st''.
  assert (Hrun : forall s, healthy s ->
            eval (handle_push (PyDict d)) s = Raise AttributeError
            /\ DATA_STORE (exec (handle_push (PyDict d)) s)
               = store_commits (field repo "full_name" (PyStr "unknown/unknown"))
                               good (DATA_STORE s)
            /\ loop (exec (handle_push (PyDict d)) s) = loop s ++ push_jobs good).
  { intros s Hs. unfold exec, eval.
    rewrite (handle_push_commits d repo _ s Hcs Hrepo).
    destruct (push_commits_dicts
                (field repo "full_name" (PyStr "unknown/unknown")) good s
                Hgood Hs) as (H1 & _ & H2 & H3 & _).
    rewrite (for_each_app _ _ _ _ H1). cbn [for_each]. unfold bind.
    rewrite (push_commit_not_dict _ _ _ Hbad). simpl. by repeat split. }
  destruct (Hrun st Hh) as (H1 & H2 & H3).
  split; [done|]. split; [done|]. split; [done|]. clear H1 H2 H3.
  split; [apply github_webhook_total|].
  assert (Ht : truthy (PyDict d) = true).
  { destruct d; [|done]. destruct good; discriminate Hcs. }
  set (s := exec (logging INFO ("Handling event: " +:+ "push"))
              (exec (logging INFO ("Received event: " +:+ "push") ;;
                     logging DEBUG ("Payload: " +:+ Json.dumps (PyDict d))) st)).
  destruct (Hrun s Hh) as (H1' & H2' & H3').
  unfold github_webhook, handle_event. rewrite Ht. simpl handler_of. cbv iota.
  unfold exec, eval in *. unfold bind, try_except, logging, ret in *.
  simpl in *. subst s. simpl in *.
  destruct (handle_push (PyDict d) _) as [[[]|ex] s1]; simpl in *;
    [discriminate|].
  injection H1' as ->. split; [done|]. split; [done|].
  eexists. exists (exn_str AttributeError). reflexivity.
Qed.

Lemma X15_witness :
  healthy (started [])
  /\ eval (handle_push push_with_bad_commit) (started []) = Raise AttributeError
  /\ loop (exec (github_webhook "push" push_with_bad_commit) (started []))
     = [("push:abc123", Some "push")].
Proof.
  assert (Hh : healthy (started [])) by constructor.
  split; [exact Hh|].
  pose proof (X15_malformed_commit_stops_the_push
                [("repository", PyDict [("full_name", PyStr "octo/repo")]);
                 ("commits", PyList [PyDict [("id", PyStr "abc123")];
                                     PyStr "def456";
                                     PyDict [("id", PyStr "0a1b2c")]])]
                [("full_name", PyStr "octo/repo")]
                [PyDict [("id", PyStr "abc123")]]
                [PyDict [("id", PyStr "0a1b2c")]]
                (PyStr "def456") (started [])
                eq_refl eq_refl eq_refl eq_refl Hh)
    as (He & _ & _ & _ & _ & Hl & _).
  split; [exact He | exact Hl].
Defined.

(* ===================================================================== *)
(** ** The commands of an administrator *)
(* ===================================================================== *)

Lemma routing_table_lookup store hs :
  routing_table store = Some hs ->
  dict_lookup "handlers" store = Some (PyDict hs).
Proof.
  unfold routing_table.
  destruct (dict_lookup "handlers" store) as [[| | | | |hs']|];
    try discriminate.
  by intros [= ->].
Qed.

Lemma routing_table_set store hs :
  routing_table (dict_set "handlers" (PyDict hs) store) = Some hs.
Proof. unfold routing_table. by rewrite dict_lookup_set_eq. Qed.

(** How the sync engine reads an entry of the table. *)
Lemma routing_of_entry store hs category entry :
  routing_table store = Some hs ->
  dict_lookup category hs = Some (PyDict entry) ->
  routing_entry store category = Ok (PyDict entry)
  /\ enabled store category = entry_enabled entry
  /\ disabled store category = negb (entry_enabled entry)
  /\ forall config,
       channel_id_for config store category
       = Ok (entry_channel_id config entry).
Proof.
  intros Ht He. apply routing_table_lookup in Ht.
  unfold enabled, disabled, enabled_flag, channel_id_for, routing_entry, get,
    entry_enabled, entry_channel_id, field.
  rewrite Ht. simpl. rewrite He. simpl. by repeat split.
Qed.

Lemma routing_of_other store hs hs' category :
  routing_table store = Some hs ->
  dict_lookup category hs' = dict_lookup category hs ->
  routing_entry (dict_set "handlers" (PyDict hs') store) category
  = routing_entry store category.
Proof.
  intros Ht He. apply routing_table_lookup in Ht.
  unfold routing_entry, get. rewrite dict_lookup_set_eq, Ht. simpl.
  by rewrite He.
Qed.

(** A command that finds its handler assigns in place and saves. *)
Lemma assign_and_save hs name entry member v (r : reply) st :
  routing_table (DATA_STORE st) = Some hs ->
  bind (assign_in_place (PyDict hs) name (PyDict entry) member v) (fun h =>
  bind (update_data_store "handlers" h) (fun _ => ret r)) st
  = bind save_data (fun _ => ret r)
      (set_DATA_STORE
         (dict_set "handlers" (PyDict (assigned hs name entry member v))
                   (DATA_STORE st)) st).
Proof.
  intros _. unfold assign_in_place, update_data_store, assigned. unfold bind at 1 2 3.
  simpl. by rewrite dict_set_set.
Qed.

Lemma togglehandler_found handler_name st hs entry :
  routing_table (DATA_STORE st) = Some hs ->
  dict_lookup (lower handler_name) hs = Some (PyDict entry) ->
  togglehandler handler_name st
  = bind save_data
      (fun _ => ret (Toggled (lower handler_name) (negb (entry_enabled entry))))
      (set_DATA_STORE
         (dict_set "handlers"
            (PyDict (assigned hs (lower handler_name) entry "enabled"
                       (PyBool (negb (entry_enabled entry)))))
            (DATA_STORE st)) st).
Proof.
  intros Ht He. rewrite <- (assign_and_save _ _ _ _ _ _ _ Ht).
  apply routing_table_lookup in Ht.
  unfold togglehandler. cbv zeta. unfold bind at 1 2 3 4, get_data_store, lift.
  simpl. rewrite Ht. simpl. rewrite He. reflexivity.
Qed.

Lemma sethandlerchannel_found handler_name channel_id st hs entry :
  routing_table (DATA_STORE st) = Some hs ->
  dict_lookup (lower handler_name) hs = Some (PyDict entry) ->
  sethandlerchannel handler_name channel_id st
  = bind save_data
      (fun _ => ret (ChannelSet (lower handler_name) channel_id))
      (set_DATA_STORE
         (dict_set "handlers"
            (PyDict (assigned hs (lower handler_name) entry "channel_id"
                       (PyInt channel_id)))
            (DATA_STORE st)) st).
Proof.
  intros Ht He. rewrite <- (assign_and_save _ _ _ _ _ _ _ Ht).
  apply routing_table_lookup in Ht.
  unfold sethandlerchannel. cbv zeta.
  unfold bind at 1 2 3, get_data_store, lift.
  simpl. rewrite Ht. simpl. rewrite He. reflexivity.
Qed.

(** The table after an assignment, read by the sync engine. *)
Lemma assigned_routing store hs name entry member v :
  routing_table store = Some hs ->
  dict_lookup name hs = Some (PyDict entry) ->
  let store' :=
    dict_set "handlers" (PyDict (assigned hs name entry member v)) store in
  routing_entry store' name = Ok (PyDict (dict_set member v entry))
  /\ (forall category, category <> name ->
        routing_entry store' category = routing_entry store category)
  /\ (forall k, k <> "handlers" -> dict_lookup k store' = dict_lookup k store).
Proof.
  intros Ht He store'. subst store'. split; [|split].
  - apply (routing_of_entry _ (assigned hs name entry member v));
      [apply routing_table_set | apply dict_lookup_set_eq].
  - intros category Hc. apply (routing_of_other _ hs); [done|].
    unfold assigned. rewrite dict_lookup_set_ne; [done | congruence].
  - intros k Hk. rewrite dict_lookup_set_ne; [done | congruence].
Qed.

Lemma save_then_reply (r : reply) s :
  write_ok s = true ->
  eval (bind save_data (fun _ => ret r)) s = Ok r
  /\ DATA_STORE (exec (bind save_data (fun _ => ret r)) s) = DATA_STORE s
  /\ MESSAGE_MAP (exec (bind save_data (fun _ => ret r)) s) = MESSAGE_MAP s
  /\ in_sync (exec (bind save_data (fun _ => ret r)) s).
Proof.
  intros Hok. unfold in_sync, save_data, write_file. unfold_monad.
  destruct (write_ok_cases s Hok) as [->|[d ->]]; by repeat split.
Qed.

Lemma save_fails_then_no_reply (r : reply) s left_on_disk coming :
  disk s = WriteFails left_on_disk :: coming ->
  bind save_data (fun _ => ret r) s
  = (Raise OSError, set_file left_on_disk coming s).
Proof.
  intros Hd. unfold save_data, write_file. unfold_monad. by rewrite Hd.
Qed.

Lemma entry_enabled_assigned entry b :
  entry_enabled (dict_set "enabled" (PyBool b) entry) = b.
Proof. unfold entry_enabled, field. by rewrite dict_lookup_set_eq. Qed.

Lemma entry_channel_id_assigned config entry b :
  entry_channel_id config (dict_set "enabled" (PyBool b) entry)
  = entry_channel_id config entry.
Proof. unfold entry_channel_id, field. by rewrite dict_lookup_set_ne. Qed.

(** X17.  For a handler that has an entry (an object) in the routing
    table, on a disk that takes the write, [togglehandler] flips the flag
    the sync engine reads: the category is enabled afterwards exactly when
    it was not before, and disabled exactly when it was enabled.  The reply
    names the lower-cased handler and its new status.  The channel of the
    category, the entries of all other categories, the records of the
    Record Store and the Message Map are as they were, and the file holds
    the new state. *)
Theorem X17_togglehandler_flips_the_flag :
  forall (handler_name : string) (st : state)
         (hs entry : list (string * value)),
    routing_table (DATA_STORE st) = Some hs ->
    dict_lookup (lower handler_name) hs = Some (PyDict entry) ->
    write_ok st = true ->
    let name := lower handler_name in
    let st' := exec (togglehandler handler_name) st in
    eval (togglehandler handler_name) st
    = Ok (Toggled name (negb (enabled (DATA_STORE st) name)))
    /\ enabled (DATA_STORE st') name = negb (enabled (DATA_STORE st) name)
    /\ disabled (DATA_STORE st') name = enabled (DATA_STORE st) name
    /\ (forall config,
          channel_id_for config (DATA_STORE st') name
          = channel_id_for config (DATA_STORE st) name)
    /\ (forall category, category <> name ->
          routing_entry (DATA_STORE st') category
          = routing_entry (DATA_STORE st) category)
    /\ (forall k, k <> "handlers" ->
          dict_lookup k (DATA_STORE st') = dict_lookup k (DATA_STORE st))
    /\ MESSAGE_MAP st' = MESSAGE_MAP st
    /\ in_sync st'.
Proof.
  intros handler_name st hs entry Ht He Hok name st'. subst name st'.
  destruct (routing_of_entry _ _ _ _ Ht He) as (_ & Hen & _ & Hch).
  unfold exec, eval. rewrite (togglehandler_found _ _ _ _ Ht He).
  match goal with
  | |- context [bind save_data (fun _ => ret ?r) ?s] =>
      destruct (save_then_reply r s Hok) as (H1 & H2 & H3 & H4)
  end.
  unfold exec, eval in *. rewrite H1, H2, H3. simpl.
  destruct (assigned_routing _ _ _ _ "enabled"
              (PyBool (negb (entry_enabled entry))) Ht He) as (Hr & Ho & Hk).
  destruct (routing_of_entry _ (assigned hs (lower handler_name) entry "enabled"
                                  (PyBool (negb (entry_enabled entry))))
              (lower handler_name)
              (dict_set "enabled" (PyBool (negb (entry_enabled entry))) entry)
              (routing_table_set (DATA_STORE st) _) (dict_lookup_set_eq _ _ _))
    as (_ & Hen' & Hdis' & Hch').
  rewrite Hen', Hdis', Hen, entry_enabled_assigned.
  split; [done|]. split; [done|]. split; [by rewrite negb_involutive|].
  split; [intros config; by rewrite Hch', Hch, entry_channel_id_assigned|].
  by repeat split.
Qed.

Lemma X17_witness :
  routing_table (DATA_STORE (configured [])) = Some [("push", PyDict [("enabled", PyBool false)])]
  /\ enabled (DATA_STORE (configured [])) "push" = false
  /\ enabled (DATA_STORE (exec (togglehandler "PUSH") (configured []))) "push"
     = true.
Proof.
  split; [reflexivity|]. split; [reflexivity|].
  exact (proj1 (proj2 (X17_togglehandler_flips_the_flag "PUSH" (configured [])
                         [("push", PyDict [("enabled", PyBool false)])]
                         [("enabled", PyBool false)]
                         eq_refl eq_refl eq_refl))).
Defined.

Lemma no_table_refuses config w handler_name channel_id st :
  dict_lookup "handlers" (DATA_STORE st) = None ->
  togglehandler handler_name st = (Ok (NoSuchHandler (lower handler_name)), st)
  /\ sethandlerchannel handler_name channel_id st
     = (Ok (NoSuchHandler (lower handler_name)), st)
  /\ listhandlers config w st = (Ok NoHandlers, st).
Proof.
  intros H. unfold togglehandler, sethandlerchannel, listhandlers.
  unfold_monad. simpl. rewrite H. by repeat split.
Qed.

(** X18.  No command adds a handler.  When the store has no routing table,
    or the table has no entry under the lower-cased name, [togglehandler]
    and [sethandlerchannel] answer that the handler does not exist and
    change nothing at all: not the Record Store, not the file, not the
    log. *)
Theorem X18_unknown_handler_is_refused :
  forall (handler_name : string) (channel_id : Z) (st : state),
    dict_lookup "handlers" (DATA_STORE st) = None
    \/ (exists hs, routing_table (DATA_STORE st) = Some hs
                   /\ dict_lookup (lower handler_name) hs = None) ->
    togglehandler handler_name st
    = (Ok (NoSuchHandler (lower handler_name)), st)
    /\ sethandlerchannel handler_name channel_id st
       = (Ok (NoSuchHandler (lower handler_name)), st).
Proof.
  intros handler_name channel_id st [H|(hs & Ht & Hn)].
  - destruct (no_table_refuses default_config quiet handler_name channel_id
                st H) as (H1 & H2 & _). by split.
  - apply routing_table_lookup in Ht.
    unfold togglehandler, sethandlerchannel. unfold_monad. simpl.
    rewrite Ht. simpl. rewrite Hn. by split.
Qed.

Lemma X18_witness :
  (exists hs, routing_table (DATA_STORE (configured [])) = Some hs
              /\ dict_lookup (lower "Issues") hs = None)
  /\ togglehandler "Issues" (configured [])
     = (Ok (NoSuchHandler "issues"), configured []).
Proof.
  assert (H : exists hs, routing_table (DATA_STORE (configured [])) = Some hs
                         /\ dict_lookup (lower "Issues") hs = None)
    by (eexists; split; reflexivity).
  split; [exact H|].
  exact (proj1 (X18_unknown_handler_is_refused "Issues" 0 (configured [])
                  (or_intror H))).
Defined.

(** X19.  When the disk refuses the write, [togglehandler] (for a handler
    that has an entry) raises [OSError] before it replies, but the flag is
    already flipped in memory, the assignment having been made in place: the
    running process routes by the new flag while the file was not updated.
    If the failed write left the file as it was, a restarted process routes
    by the old flag again. *)
Theorem X19_togglehandler_with_a_failing_disk :
  forall (handler_name : string) (st : state)
         (hs entry : list (string * value))
         (left_on_disk : option string) (coming : list write_outcome),
    routing_table (DATA_STORE st) = Some hs ->
    dict_lookup (lower handler_name) hs = Some (PyDict entry) ->
    disk st = WriteFails left_on_disk :: coming ->
    let name := lower handler_name in
    let st' := exec (togglehandler handler_name) st in
    eval (togglehandler handler_name) st = Raise OSError
    /\ enabled (DATA_STORE st') name = negb (enabled (DATA_STORE st) name)
    /\ file st' = left_on_disk
    /\ (recoverable st -> left_on_disk = file st ->
        forall d,
          enabled (DATA_STORE (exec load_data (restarted st' d))) name
          = enabled (DATA_STORE st) name).
Proof.
  intros handler_name st hs entry l coming Ht He Hd name st'. subst name st'.
  destruct (routing_of_entry _ _ _ _ Ht He) as (_ & Hen & _ & _).
  unfold exec, eval. rewrite (togglehandler_found _ _ _ _ Ht He).
  rewrite (save_fails_then_no_reply _ _ l coming) by exact Hd. simpl.
  destruct (routing_of_entry _ (assigned hs (lower handler_name) entry "enabled"
                                  (PyBool (negb (entry_enabled entry))))
              (lower handler_name)
              (dict_set "enabled" (PyBool (negb (entry_enabled entry))) entry)
              (routing_table_set (DATA_STORE st) _) (dict_lookup_set_eq _ _ _))
    as (_ & Hen' & _).
  rewrite Hen', Hen, entry_enabled_assigned.
  split; [done|]. split; [done|]. split; [done|].
  intros Hr -> d. specialize (Hr d). unfold stores, restarted in *. simpl.
  injection Hr as Hr _. unfold exec in Hr. by rewrite Hr.
Qed.

Lemma X19_witness :
  let st := exec save_data (configured [Written; WriteFails (file (exec save_data (configured [])))]) in
  recoverable st
  /\ enabled (DATA_STORE (exec (togglehandler "push") st)) "push" = true
  /\ forall d, enabled (DATA_STORE (exec load_data
                                      (restarted (exec (togglehandler "push") st) d)))
                       "push" = false.
Proof.
  cbv zeta.
  pose proof (X19_togglehandler_with_a_failing_disk "push"
                (exec save_data
                   (configured [Written;
                                WriteFails (file (exec save_data (configured [])))]))
                [("push", PyDict [("enabled", PyBool false)])]
                [("enabled", PyBool false)]
                (file (exec save_data (configured []))) []
                eq_refl eq_refl eq_refl) as (_ & H1 & _ & H2).
  assert (Hr : recoverable
                 (exec save_data
                    (configured [Written;
                                 WriteFails (file (exec save_data (configured [])))])))
    by (intros d; reflexivity).
  split; [exact Hr|]. split; [exact H1|].
  exact (H2 Hr eq_refl).
Defined.

(** X20.  For a handler that has an entry (an object) in the routing
    table, on a disk that takes the write, [sethandlerchannel] makes the
    given channel the destination of the category: the channel id the sync
    engine resolves for it is then the id of that channel, whatever the
    default.  Whether the category is enabled, the entries of all other
    categories, the records of the Record Store and the Message Map are as
    they were, and the file holds the new state. *)
Theorem X20_sethandlerchannel_routes_the_category :
  forall (handler_name : string) (channel_id : Z) (st : state)
         (hs entry : list (string * value)),
    routing_table (DATA_STORE st) = Some hs ->
    dict_lookup (lower handler_name) hs = Some (PyDict entry) ->
    write_ok st = true ->
    let name := lower handler_name in
    let st' := exec (sethandlerchannel handler_name channel_id) st in
    eval (sethandlerchannel handler_name channel_id) st
    = Ok (ChannelSet name channel_id)
    /\ (forall config,
          channel_id_for config (DATA_STORE st') name = Ok (PyInt channel_id))
    /\ enabled (DATA_STORE st') name = enabled (DATA_STORE st) name
    /\ (forall category, category <> name ->
          routing_entry (DATA_STORE st') category
          = routing_entry (DATA_STORE st) category)
    /\ (forall k, k <> "handlers" ->
          dict_lookup k (DATA_STORE st') = dict_lookup k (DATA_STORE st))
    /\ MESSAGE_MAP st' = MESSAGE_MAP st
    /\ in_sync st'.
Proof.
  intros handler_name channel_id st hs entry Ht He Hok name st'.
  subst name st'.
  destruct (routing_of_entry _ _ _ _ Ht He) as (_ & Hen & _ & _).
  unfold exec, eval. rewrite (sethandlerchannel_found _ _ _ _ _ Ht He).
  match goal with
  | |- context [bind save_data (fun _ => ret ?r) ?s] =>
      destruct (save_then_reply r s Hok) as (H1 & H2 & H3 & H4)
  end.
  unfold exec, eval in *. rewrite H1, H2, H3. simpl.
  destruct (assigned_routing _ _ _ _ "channel_id" (PyInt channel_id) Ht He)
    as (Hr & Ho & Hk).
  destruct (routing_of_entry _ (assigned hs (lower handler_name) entry
                                  "channel_id" (PyInt channel_id))
              (lower handler_name)
              (dict_set "channel_id" (PyInt channel_id) entry)
              (routing_table_set (DATA_STORE st) _) (dict_lookup_set_eq _ _ _))
    as (_ & Hen' & _ & Hch').
  rewrite Hen', Hen.
  split; [done|]. split.
  { intros config. rewrite Hch'. unfold entry_channel_id, field.
    by rewrite dict_lookup_set_eq. }
  split.
  { unfold entry_enabled, field. by rewrite dict_lookup_set_ne. }
  by repeat split.
Qed.

Lemma X20_witness :
  write_ok (configured []) = true
  /\ channel_id_for default_config
       (DATA_STORE (exec (sethandlerchannel "Push" 42) (configured []))) "push"
     = Ok (PyInt 42).
Proof.
  split; [reflexivity|].
  exact (proj1 (proj2 (X20_sethandlerchannel_routes_the_category "Push" 42
                         (configured [])
                         [("push", PyDict [("enabled", PyBool false)])]
                         [("enabled", PyBool false)]
                         eq_refl eq_refl eq_refl)) default_config).
Defined.

Lemma set_calls_same st : set_calls (calls st) st = st.
Proof. by destruct st. Qed.

Lemma list_one_dict config w handler entry st :
  list_one config w (handler, PyDict entry) st
  = (Ok (listed config w handler entry),
     set_calls (calls st ++ [GetChannel (entry_channel_id config entry)]) st).
Proof.
  unfold list_one, listed, entry_enabled, entry_channel_id, field.
  unfold_monad. simpl.
  by destruct (get_channel w _).
Qed.

Lemma list_all config w hs : forall st,
  entries_are_dicts hs = true ->
  map_M hs (list_one config w) st
  = (Ok (List.map (fun item =>
                     listed config w (fst item) (members_of (snd item))) hs),
     set_calls (calls st ++
                List.map (fun item =>
                            GetChannel (entry_channel_id config
                                          (members_of (snd item)))) hs) st).
Proof.
  induction hs as [|[handler info] hs IH]; intros st Hd.
  - simpl. by rewrite app_nil_r, set_calls_same.
  - simpl in Hd. apply andb_true_iff in Hd as [Hi Hd].
    destruct info as [| | | | |entry]; try discriminate.
    cbn [map_M]. unfold bind at 1. rewrite list_one_dict.
    unfold bind at 1. rewrite (IH _ Hd). simpl. unfold ret.
    by rewrite <- app_assoc.
Qed.

Lemma dict_lookup_In k x (d : list (string * value)) :
  dict_lookup k d = Some x -> In (k, x) d.
Proof.
  induction d as [|[k' y] d IH]; simpl; [discriminate|].
  destruct (String.eqb k' k) eqn:E.
  - apply String.eqb_eq in E. intros [= ->]. left. by subst.
  - intros H. right. by apply IH.
Qed.

(** X21.  [listhandlers] shows what the sync engine uses.  With a routing
    table that is a non-empty object whose entries are objects, the command
    replies with one field per entry, in the order of the table, and asks
    the client for the channel of each.  For every handler the status shown
    is "Enabled" exactly when [send_or_edit] treats the category as enabled,
    and the channel looked up is the channel [send_or_edit] resolves for the
    category.  When the client does not know that channel and the entry has
    no ["channel_id"], the field reads "Channel ID None": the default id
    that was looked up is not shown.  Nothing but the trace of calls
    changes. *)
Theorem X21_listhandlers_shows_what_routing_uses :
  forall (config : Config) (w : world) (st : state)
         (hs : list (string * value)),
    routing_table (DATA_STORE st) = Some hs ->
    hs <> [] -> entries_are_dicts hs = true ->
    let shown :=
      List.map (fun item =>
                  listed config w (fst item) (members_of (snd item))) hs in
    listhandlers config w st
    = (Ok (HandlerList shown),
       set_calls (calls st ++
                  List.map (fun item =>
                              GetChannel (entry_channel_id config
                                            (members_of (snd item)))) hs) st)
    /\ forall handler entry,
         dict_lookup handler hs = Some (PyDict entry) ->
         In (listed config w handler entry) shown
         /\ field_enabled (listed config w handler entry)
            = enabled (DATA_STORE st) handler
         /\ channel_id_for config (DATA_STORE st) handler
            = Ok (entry_channel_id config entry)
         /\ (get_channel w (entry_channel_id config entry) = None ->
             dict_lookup "channel_id" entry = None ->
             field_channel (listed config w handler entry) = ChannelID PyNone).
Proof.
  intros config w st hs Ht Hne Hd shown. subst shown. split.
  - apply routing_table_lookup in Ht.
    assert (Htrue : truthy (PyDict hs) = true) by (by destruct hs).
    unfold listhandlers, bind, get_data_store, lift, get, items_of, default.
    rewrite Ht. unfold id. rewrite Htrue. cbn [negb]. cbv iota.
    by rewrite (list_all config w _ st Hd).
  - intros handler entry He.
    destruct (routing_of_entry _ _ _ _ Ht He) as (_ & Hen & _ & Hch).
    split; [|split; [|split]].
    + apply dict_lookup_In in He.
      apply (in_map (fun item =>
                       listed config w (fst item) (members_of (snd item))))
        in He. exact He.
    + by rewrite Hen.
    + apply Hch.
    + intros Hnone Hcid. unfold listed, field. by rewrite Hnone, Hcid.
Qed.

Lemma X21_witness :
  routing_table (DATA_STORE (configured []))
  = Some [("push", PyDict [("enabled", PyBool false)])]
  /\ listhandlers default_config no_channel (configured [])
     = (Ok (HandlerList [mkField "push" false (ChannelID PyNone)]),
        set_calls [GetChannel (PyInt 1284897403706806423)] (configured [])).
Proof.
  split; [reflexivity|].
  exact (proj1 (X21_listhandlers_shows_what_routing_uses default_config
                  no_channel (configured [])
                  [("push", PyDict [("enabled", PyBool false)])]
                  eq_refl ltac:(discriminate) eq_refl)).
Defined.

(* ===================================================================== *)
(** ** A store without a routing table *)
(* ===================================================================== *)

Lemma untouched_run_operations st0 config ops :
  dict_lookup "handlers" (DATA_STORE st0) = None ->
  keeps (untouched_by_inbound st0) (run_operations config ops).
Proof.
  intros Hnone.
  assert (Hcmd : forall A (m : M A) (r : A),
            (forall st, dict_lookup "handlers" (DATA_STORE st) = None ->
                        m st = (Ok r, st)) ->
            keeps (untouched_by_inbound st0) (settle m)).
  { intros A m r Hm st H. pose proof H as (_ & _ & H3).
    rewrite Hnone in H3. unfold exec, settle, try_except, bind, ret.
    by rewrite (Hm st H3). }
  induction ops as [|op ops IH]; simpl; [apply keeps_ret|].
  apply keeps_bind; [|intros _; exact IH].
  destruct op as [ev|name|name cid|w]; simpl.
  - unfold deliver.
    apply keeps_bind;
      [apply keeps_github_webhook, inbound_safe_untouched | intros _].
    intros st H. pose proof H as (_ & _ & H3). rewrite Hnone in H3.
    unfold exec, run_loop.
    destruct (run_all_disabled config (ev_world ev) (loop st) (set_loop [] st))
      as [entries ->]; [|exact H].
    intros job _. apply unconfigured_disabled. by left.
  - apply (Hcmd _ _ (NoSuchHandler (lower name))). intros st H.
    apply (no_table_refuses config quiet name 0 st H).
  - apply (Hcmd _ _ (NoSuchHandler (lower name))). intros st H.
    apply (no_table_refuses config quiet name cid st H).
  - apply (Hcmd _ _ NoHandlers). intros st H.
    apply (no_table_refuses config w "" 0 st H).
Qed.

(** X16.  Nothing in the program creates the routing table.  Started with
    a Record Store that has no ["handlers"] entry (so after [load_data] found
    no file), whatever events are delivered, whatever commands are given and
    whatever the disk does, the store never gets a routing table, every
    category stays disabled, and not one call reaches the renderer or the
    Discord client: no message is ever sent. *)
Theorem X16_fresh_install_sends_nothing :
  forall (config : Config) (ops : list operation) (st : state),
    dict_lookup "handlers" (DATA_STORE st) = None ->
    let st' := exec (run_operations config ops) st in
    dict_lookup "handlers" (DATA_STORE st') = None
    /\ (forall category, disabled (DATA_STORE st') category = true)
    /\ calls st' = calls st
    /\ MESSAGE_MAP st' = MESSAGE_MAP st.
Proof.
  intros config ops st Hnone st'. subst st'.
  destruct (untouched_run_operations st config ops Hnone st) as (H1 & H2 & H3);
    [done|].
  rewrite Hnone in H3. split; [done|]. split; [|by split].
  intros category. apply unconfigured_disabled. by left.
Qed.

Lemma X16_witness :
  let st := exec load_data (init "data_store.json" None []) in
  let ops := [TogglesHandler "push";
              Delivers (mkDelivery "push" push_abc (smooth 5) 5 false);
              ListsHandlers (smooth 5)] in
  dict_lookup "handlers" (DATA_STORE st) = None
  /\ calls (exec (run_operations default_config ops) st) = [].
Proof.
  cbv zeta. split; [reflexivity|].
  exact (proj1 (proj2 (proj2 (X16_fresh_install_sends_nothing default_config
           [TogglesHandler "push";
            Delivers (mkDelivery "push" push_abc (smooth 5) 5 false);
            ListsHandlers (smooth 5)]
           (exec load_data (init "data_store.json" None [])) eq_refl)))).
Defined.

(* ===================================================================== *)
(** ** The signature of a request *)
(* ===================================================================== *)

Lemma split_no_sep sep s :
  contains sep s = false -> Webhook.split sep s = [s].
Proof.
  induction s as [|c s IH]; simpl; [done|].
  destruct (Ascii.eqb c sep); [discriminate|]. intros H. by rewrite (IH H).
Qed.

Lemma split_at_sep sep a b :
  contains sep a = false ->
  Webhook.split sep (a +:+ String sep b) = a :: Webhook.split sep b.
Proof.
  induction a as [|c a IH]; intros H.
  - change (Webhook.split sep (String sep b) = "" :: Webhook.split sep b).
    simpl. by rewrite Ascii.eqb_refl.
  - change (Webhook.split sep (String c (a +:+ String sep b))
            = String c a :: Webhook.split sep b).
    simpl in *. destruct (Ascii.eqb c sep); [discriminate|].
    by rewrite (IH H).
Qed.

Lemma split_nonempty sep s : Webhook.split sep s <> [].
Proof.
  destruct s as [|c s]; simpl; [done|].
  destruct (Ascii.eqb c sep); [done|]. by destruct (Webhook.split sep s).
Qed.

(** Joining the parts with the separator gives the string back. *)
Lemma split_join sep s :
  String.concat (String sep "") (Webhook.split sep s) = s.
Proof.
  induction s as [|c s IH]; [done|]. cbn [Webhook.split].
  pose proof (split_nonempty sep s) as Hne.
  destruct (Webhook.split sep s) as [|p ps]; [done|]. clear Hne.
  destruct (Ascii.eqb c sep) eqn:E.
  - apply Ascii.eqb_eq in E. subst c.
    change (String sep (String.concat (String sep "") (p :: ps)) = String sep s).
    by rewrite IH.
  - destruct ps as [|q ps].
    + simpl in *. by subst.
    + change (String c (String.concat (String sep "") (p :: q :: ps))
              = String c s).
      by rewrite IH.
Qed.

Lemma is_hex_char_plain c :
  is_hex_char c = true ->
  Ascii.eqb c "="%char = false /\ (N_of_ascii c <? 128)%N = true.
Proof.
  destruct c as [[] [] [] [] [] [] [] []]; intros H;
    try discriminate H; by split.
Qed.

Lemma is_hex_plain s :
  is_hex s = true ->
  contains "="%char s = false /\ Webhook.is_ascii s = true.
Proof.
  induction s as [|c s IH]; simpl; [done|]. intros H.
  apply andb_true_iff in H as [Hc Hs].
  destruct (is_hex_char_plain c Hc) as [-> ->]. by apply IH.
Qed.

Lemma verify_signature_cases secret hexdigest req :
  Webhook.verify_signature secret hexdigest req = Ok true
  \/ Webhook.verify_signature secret hexdigest req = Ok false
  \/ Webhook.verify_signature secret hexdigest req = Raise TypeError.
Proof.
  unfold Webhook.verify_signature, Webhook.compare_digest.
  destruct secret as [secret|]; [|by left].
  destruct (String.eqb secret ""); [by left|].
  destruct (Webhook.req_header req _) as [signature|]; [|by right; left].
  destruct (String.eqb signature ""); [by right; left|].
  destruct (Webhook.split _ signature) as [|a [|b [|? ?]]];
    try (by right; left).
  destruct (negb (String.eqb a "sha256")); [by right; left|].
  destruct (_ && _); [|by right; right].
  destruct (String.eqb b _); [by left | by right; left].
Qed.

(** With a secret, the check passes for one header value only. *)
Lemma verify_signature_exact secret hexdigest req :
  secret <> "" ->
  is_hex (hexdigest secret (Webhook.req_data req)) = true ->
  Webhook.verify_signature (Some secret) hexdigest req = Ok true
  <-> Webhook.req_header req "X-Hub-Signature-256"
      = Some ("sha256=" +:+ hexdigest secret (Webhook.req_data req)).
Proof.
  intros Hs Hhex. destruct (is_hex_plain _ Hhex) as [Hsep Hascii].
  apply String.eqb_neq in Hs.
  unfold Webhook.verify_signature, Webhook.compare_digest. rewrite Hs.
  split.
  - destruct (Webhook.req_header req _) as [signature|]; [|discriminate].
    destruct (String.eqb signature ""); [discriminate|].
    pose proof (split_join "="%char signature) as Hj.
    destruct (Webhook.split _ signature) as [|a [|b [|? ?]]];
      try discriminate.
    destruct (String.eqb a "sha256") eqn:Ea; [|discriminate].
    apply String.eqb_eq in Ea. subst a. simpl.
    destruct (_ && _); [|discriminate].
    destruct (String.eqb b _) eqn:Eb; [|discriminate].
    apply String.eqb_eq in Eb. subst b. intros _. by rewrite <- Hj.
  - intros ->.
    change ("sha256=" +:+ hexdigest secret (Webhook.req_data req))
      with ("sha256" +:+ String "="%char (hexdigest secret (Webhook.req_data req))).
    rewrite split_at_sep by reflexivity. rewrite (split_no_sep _ _ Hsep).
    change ("sha256" +:+ String "="%char (hexdigest secret (Webhook.req_data req)))
      with (String "s" ("ha256=" +:+ hexdigest secret (Webhook.req_data req))).
    simpl. by rewrite Hascii, String.eqb_refl.
Qed.

(** X22.  The signature check, with a secret configured and the digest
    written in lower-case hexadecimal, passes for exactly one value of the
    header X-Hub-Signature-256: the text "sha256=" followed by the digest of
    the body under the secret.  Any other value (another scheme name, upper
    case, a second "=", a wrong digest) and a missing header are refused;
    a received digest with a character outside ASCII makes the comparison
    raise [TypeError].  Without a secret (unset or empty) every request
    passes, signed or not. *)
Theorem X22_signature_is_checked_exactly :
  forall (hexdigest : string -> string -> string) (req : Webhook.request)
         (secret : string),
    secret <> "" ->
    is_hex (hexdigest secret (Webhook.req_data req)) = true ->
    let expected := "sha256=" +:+ hexdigest secret (Webhook.req_data req) in
    let header := Webhook.req_header req "X-Hub-Signature-256" in
    (Webhook.verify_signature (Some secret) hexdigest req = Ok true
     <-> header = Some expected)
    /\ (header = None ->
        Webhook.verify_signature (Some secret) hexdigest req = Ok false)
    /\ (forall received,
          header = Some ("sha256=" +:+ received) ->
          contains "="%char received = false ->
          Webhook.is_ascii received = false ->
          Webhook.verify_signature (Some secret) hexdigest req
          = Raise TypeError)
    /\ Webhook.verify_signature None hexdigest req = Ok true
    /\ Webhook.verify_signature (Some "") hexdigest req = Ok true.
Proof.
  intros hexdigest req secret Hs Hhex expected header. subst expected header.
  split; [by apply verify_signature_exact|].
  apply String.eqb_neq in Hs.
  unfold Webhook.verify_signature, Webhook.compare_digest. rewrite Hs.
  split; [by intros ->|]. split; [|by split].
  intros received -> Hsep Hascii.
  change ("sha256=" +:+ received) with ("sha256" +:+ String "="%char received).
  rewrite split_at_sep by reflexivity. rewrite (split_no_sep _ _ Hsep).
  change ("sha256" +:+ String "="%char received)
    with (String "s" ("ha256=" +:+ received)).
  simpl. by rewrite Hascii.
Qed.

Lemma X22_witness :
  is_hex (sample_digest "s3cret" "{}") = true
  /\ Webhook.verify_signature (Some "s3cret") sample_digest
       (signed (Some "sha256=00ff")) = Ok true
  /\ Webhook.verify_signature (Some "s3cret") sample_digest (signed None)
     = Ok false.
Proof.
  split; [reflexivity|]. split.
  - exact (proj2 (proj1 (X22_signature_is_checked_exactly sample_digest
                           (signed (Some "sha256=00ff")) "s3cret"
                           ltac:(discriminate) eq_refl)) eq_refl).
  - exact (proj1 (proj2 (X22_signature_is_checked_exactly sample_digest
                           (signed None) "s3cret"
                           ltac:(discriminate) eq_refl)) eq_refl).
Defined.

(** X23.  With a secret configured, a request reaches a handler only if
    it carries the right signature.  A request with the right header whose
    body the framework reads as JSON is handled as the route handles its
    event and answered ("OK", 200); with the right header and a body the
    framework does not read as JSON, [request.json] ends the request with
    the framework's error (415 or 400) before anything is logged or handled.
    Any other request ends before the event type or the payload is looked
    at: either it is refused with 403 "Invalid signature", the state
    unchanged but for the warning in the log, or the comparison raises
    [TypeError] and the state is unchanged altogether.  Only in the first
    case is a record stored, a sync call queued or the file written. *)
Theorem X23_unsigned_request_reaches_no_handler :
  forall (hexdigest : string -> string -> string) (req : Webhook.request)
         (secret : string) (st : state),
    secret <> "" ->
    is_hex (hexdigest secret (Webhook.req_data req)) = true ->
    let view := Webhook.github_webhook (Some secret) hexdigest req in
    let expected := "sha256=" +:+ hexdigest secret (Webhook.req_data req) in
    let header := Webhook.req_header req "X-Hub-Signature-256" in
    (header = Some expected ->
       (forall body, Webhook.req_json req = Webhook.Parsed body ->
          eval view st = Ok (Webhook.Returned "OK" 200)
          /\ exec view st
             = exec (github_webhook
                       (default "unknown"
                          (Webhook.req_header req "X-GitHub-Event"))
                       body) st)
       /\ (forall status description,
             Webhook.req_json req = Webhook.Unreadable status description ->
             view st = (Ok (Webhook.Aborted status description), st)))
    /\ (header <> Some expected ->
          view st
          = (Ok (Webhook.Aborted 403 "Invalid signature"),
             set_log (log st ++
                      [(WARNING, "Invalid signature for incoming webhook.")])
                     st)
          \/ view st = (Raise TypeError, st)).
Proof.
  intros hexdigest req secret st Hs Hhex view expected header.
  subst view expected header.
  pose proof (verify_signature_exact secret hexdigest req Hs Hhex) as Hiff.
  unfold Webhook.github_webhook. split.
  - intros Hh. apply Hiff in Hh. split.
    + intros body Hbody.
      pose proof (github_webhook_total
                    (default "unknown" (Webhook.req_header req "X-GitHub-Event"))
                    body st) as Ht.
      unfold exec, eval, bind, lift, ret in *. rewrite Hh. cbn [negb].
      rewrite Hbody.
      destruct (github_webhook _ _ st) as [[r|ex] st1]; cbn [fst snd] in *;
        [|discriminate].
      injection Ht as ->. by split.
    + intros status description Hbody.
      unfold bind, lift, ret. rewrite Hh. cbn [negb]. by rewrite Hbody.
  - intros Hh. unfold bind at 1, lift.
    destruct (verify_signature_cases (Some secret) hexdigest req)
      as [H|[H|H]]; rewrite H.
    + exfalso. apply Hh. by apply Hiff.
    + by left.
    + by right.
Qed.

Lemma X23_witness :
  is_hex (sample_digest "s3cret" "{}") = true
  /\ loop (exec (Webhook.github_webhook (Some "s3cret") sample_digest
                   (signed (Some "sha256=00ff"))) (started []))
     = [("push:abc123", Some "push")]
  /\ Webhook.github_webhook (Some "s3cret") sample_digest
       (signed_form (Some "sha256=00ff")) (started [])
     = (Ok (Webhook.Aborted 415 "Unsupported Media Type"), started [])
  /\ loop (exec (Webhook.github_webhook (Some "s3cret") sample_digest
                   (signed (Some "sha256=00fe"))) (started [])) = [].
Proof.
  split; [reflexivity|].
  pose proof (X23_unsigned_request_reaches_no_handler sample_digest
                (signed (Some "sha256=00ff")) "s3cret" (started [])
                ltac:(discriminate) eq_refl) as [H1 _].
  pose proof (X23_unsigned_request_reaches_no_handler sample_digest
                (signed_form (Some "sha256=00ff")) "s3cret" (started [])
                ltac:(discriminate) eq_refl) as [H3 _].
  pose proof (X23_unsigned_request_reaches_no_handler sample_digest
                (signed (Some "sha256=00fe")) "s3cret" (started [])
                ltac:(discriminate) eq_refl) as [_ H2].
  split; [|split].
  - rewrite (proj2 (proj1 (H1 eq_refl) push_abc eq_refl)). reflexivity.
  - exact (proj2 (H3 eq_refl) 415%Z "Unsupported Media Type" eq_refl).
  - unfold exec. destruct (H2 ltac:(discriminate)) as [->| ->]; reflexivity.
Defined.

(* ===================================================================== *)
(** ** The commands and the sync engine together *)
(* ===================================================================== *)

Lemma healthy_write_ok st : healthy st -> write_ok st = true.
Proof.
  unfold healthy, write_ok. destruct (disk st) as [|o d]; [done|].
  intros H. by apply healthy_tail in H as [-> _].
Qed.

Lemma togglehandler_rest handler_name st hs entry :
  routing_table (DATA_STORE st) = Some hs ->
  dict_lookup (lower handler_name) hs = Some (PyDict entry) ->
  write_ok st = true ->
  calls (exec (togglehandler handler_name) st) = calls st
  /\ MESSAGE_MAP (exec (togglehandler handler_name) st) = MESSAGE_MAP st
  /\ enabled (DATA_STORE (exec (togglehandler handler_name) st))
             (lower handler_name)
     = negb (enabled (DATA_STORE st) (lower handler_name))
  /\ disabled (DATA_STORE (exec (togglehandler handler_name) st))
              (lower handler_name)
     = enabled (DATA_STORE st) (lower handler_name).
Proof.
  intros Ht He Hok.
  destruct (routing_of_entry _ _ _ _ Ht He) as (_ & Hen & _ & _).
  destruct (routing_of_entry _ (assigned hs (lower handler_name) entry "enabled"
                                  (PyBool (negb (entry_enabled entry))))
              (lower handler_name)
              (dict_set "enabled" (PyBool (negb (entry_enabled entry))) entry)
              (routing_table_set (DATA_STORE st) _) (dict_lookup_set_eq _ _ _))
    as (_ & Hen' & Hdis' & _).
  rewrite entry_enabled_assigned in Hen', Hdis'.
  rewrite negb_involutive in Hdis'. rewrite Hen.
  unfold exec. rewrite (togglehandler_found _ _ _ _ Ht He).
  unfold save_data, write_file. unfold_monad.
  destruct (write_ok_cases st Hok) as [Hd|[d Hd]]; simpl; rewrite Hd; simpl;
    by repeat split.
Qed.

(** X24.  [togglehandler] switches the relay of a category off and on.
    Take a handler with an entry in the routing table, a disk that works,
    and a key of that category.  If the category was enabled, then after the
    command [send_or_edit] for the key returns without a call to the
    renderer or to the Discord client and leaves the Message Map alone.  If
    it was not enabled, then after the command (the collaborators answering,
    the key without a message so far) [send_or_edit] sends one message and
    records its id under the key. *)
Theorem X24_togglehandler_controls_the_relay :
  forall (config : Config) (w : world) (id : Z) (handler_name key : string)
         (hn : option string) (st : state) (hs entry : list (string * value)),
    routing_table (DATA_STORE st) = Some hs ->
    dict_lookup (lower handler_name) hs = Some (PyDict entry) ->
    healthy st ->
    category_of key = lower handler_name ->
    let st1 := exec (togglehandler handler_name) st in
    let st2 := exec (send_or_edit config w key hn) st1 in
    (enabled (DATA_STORE st) (lower handler_name) = true ->
       eval (send_or_edit config w key hn) st1 = Ok tt
       /\ calls st2 = calls st /\ MESSAGE_MAP st2 = MESSAGE_MAP st)
    /\ (enabled (DATA_STORE st) (lower handler_name) = false ->
        responsive w id -> dict_lookup key (MESSAGE_MAP st) = None ->
        count is_send (calls st2) = count is_send (calls st) + 1
        /\ traffic (calls st2) = traffic (calls st) + 1
        /\ dict_lookup key (MESSAGE_MAP st2) = Some (PyInt id)).
Proof.
  intros config w id handler_name key hn st hs entry Ht He Hh Hcat st1 st2.
  subst st1 st2.
  destruct (togglehandler_rest _ _ _ _ Ht He (healthy_write_ok _ Hh))
    as (Hc & Hm & Hen & Hdis).
  assert (Hh1 : healthy (exec (togglehandler handler_name) st)).
  { by destruct (written_through_togglehandler st handler_name st
                   (written_through_refl st Hh)). }
  rewrite <- Hcat in *. split.
  - intros Hwas. rewrite Hwas in Hdis. unfold exec, eval in *.
    rewrite (send_or_edit_disabled _ _ _ _ _ Hdis). by repeat split.
  - intros Hwas Hresp Hnone. rewrite Hwas in Hen. simpl in Hen.
    destruct (responsive_ready config w id key hn _ Hresp Hen)
      as (cid & ch & e & Hready).
    destruct Hresp as (_ & _ & Hsend).
    pose proof (send_or_edit_step config w key hn _ cid ch e id Hready Hh1
                  (Hsend ch e)) as (_ & _ & _ & Hbody).
    rewrite Hm, Hnone in Hbody. destruct Hbody as [Hm2 Hc2].
    rewrite Hm2, Hc2, Hc. unfold traffic, prelude. rewrite !count_app.
    unfold count. cbn [List.filter is_send is_fetch is_edit length].
    split; [lia|]. split; [lia|]. apply dict_lookup_set_eq.
Qed.

Lemma X24_witness :
  healthy (configured [])
  /\ enabled (DATA_STORE (configured [])) "push" = false
  /\ responsive (smooth 5) 5
  /\ dict_lookup "push:abc123"
       (MESSAGE_MAP (exec (send_or_edit default_config (smooth 5) "push:abc123"
                             (Some "push"))
                          (exec (togglehandler "push") (configured []))))
     = Some (PyInt 5).
Proof.
  assert (Hh : healthy (configured [])) by constructor.
  split; [exact Hh|]. split; [reflexivity|].
  split; [apply responsive_smooth|].
  exact (proj2 (proj2 (proj2 (X24_togglehandler_controls_the_relay
           default_config (smooth 5) 5 "push" "push:abc123" (Some "push")
           (configured [])
           [("push", PyDict [("enabled", PyBool false)])]
           [("enabled", PyBool false)]
           eq_refl eq_refl Hh eq_refl) eq_refl (responsive_smooth 5) eq_refl))).
Defined.

(* ===================================================================== *)
(** ** bot/utils.py: the renderer *)
(* ===================================================================== *)

Lemma length_of_string s : length (Utils.of_string s) = String.length s.
Proof.
  unfold Utils.of_string. rewrite length_map.
  induction s as [|c s IH]; [done|]. simpl. by rewrite IH.
Qed.

(** The kind of a key: what stands before its first colon or, without a
    colon, "unknown". *)
Lemma split_rest_None s :
  Utils.split_rest s = None <-> contains ":"%char s = false.
Proof.
  induction s as [|c s IH]; [done|]. simpl.
  destruct (Ascii.eqb c ":"%char); [split; discriminate | exact IH].
Qed.

Lemma kind_of_key cat ds :
  contains ":"%char cat = false ->
  fst (Utils.kind_ident (key_of cat ds)) = (if ds is [] then "unknown" else cat).
Proof.
  intros H. unfold Utils.kind_ident.
  destruct (Utils.split_rest (key_of cat ds)) as [ident|] eqn:E.
  - cbn [fst]. destruct ds as [|v r].
    + unfold key_of in E. simpl in E.
      apply split_rest_None in H. congruence.
    + by apply category_of_key.
  - cbn [fst]. destruct ds as [|v r]; [done|].
    apply split_rest_None in E. unfold key_of in E.
    change (String.concat ":" (cat :: List.map str (v :: r)))
      with (cat +:+ String ":"%char (String.concat ":" (str v :: List.map str r)))
      in E.
    exfalso. clear H. induction cat as [|a cat IH].
    + simpl in E. discriminate.
    + change (String a cat +:+ ?t) with (String a (cat +:+ t)) in E.
      simpl in E. destruct (Ascii.eqb a ":"%char); [discriminate | by apply IH].
Qed.

Lemma discriminator_length fs payload ds :
  discriminator fs payload = Ok ds -> length ds = length fs.
Proof.
  revert ds. induction fs as [|[path dflt] fs IH]; intros ds H; simpl in H.
  - by injection H as <-.
  - destruct (follow payload path dflt); [|discriminate].
    destruct (discriminator fs payload) as [vs|]; [|discriminate].
    injection H as <-. simpl. by rewrite (IH vs).
Qed.

(** A kind without a branch falls to the last one. *)
Lemma build_embed_other now key data hn st :
  ~ In (fst (Utils.kind_ident key)) rendered_kinds ->
  eval (Utils.build_embed now key data hn) st = Ok (other_event data hn now).
Proof.
  intros H. unfold Utils.build_embed.
  assert (Hn : forall n, In n rendered_kinds ->
                         String.eqb (fst (Utils.kind_ident key)) n = false).
  { intros n Hin. apply String.eqb_neq. intros E. apply H. by rewrite E. }
  cbv zeta.
  rewrite !Hn by (unfold rendered_kinds; simpl; tauto).
  reflexivity.
Qed.

Lemma single_key event_type sch body key :
  In (event_type, sch) (("push", PUSH_SCHEME) :: KEY_SCHEME) ->
  In key (keys event_type body) ->
  exists ds, length ds = length (fields sch) /\ key = key_of (category sch) ds.
Proof.
  intros [[= <- <-]|Hin] Hkey.
  - destruct (push_keys _ _ Hkey) as (commit & ds & Hd & ->).
    exists ds. split; [by apply (discriminator_length _ commit) | done].
  - destruct (scheme_keys _ _ body Hin) as [E|(ds & Hd & E)];
      rewrite E in Hkey; [destruct Hkey|].
    destruct Hkey as [<-|[]]. exists ds.
    split; [by apply (discriminator_length _ (payload_of body)) | done].
Qed.

(** X25.  The handlers of four event types (issues, pull_request_review,
    pull_request_review_comment, public) build keys whose kind has no branch
    in [build_embed]: whatever the record holds, such an event is shown as
    the generic "Other Event" embed with the JSON of the record as its one
    field, and [build_embed] cannot fail on it.  The keys of every other
    event type have the category of their scheme as kind, and that kind has
    a branch of its own. *)
Theorem X25_four_event_types_share_the_generic_embed :
  (forall event_type body key now data handler_name st,
      In event_type unrendered_events -> In key (keys event_type body) ->
      eval (Utils.build_embed now key data handler_name) st
      = Ok (other_event data handler_name now))
  /\ (forall event_type sch body key,
        In (event_type, sch) (("push", PUSH_SCHEME) :: KEY_SCHEME) ->
        ~ In event_type unrendered_events ->
        In key (keys event_type body) ->
        fst (Utils.kind_ident key) = category sch
        /\ In (category sch) rendered_kinds).
Proof.
  split.
  - intros event_type body key now data hn st Hev Hkey.
    apply build_embed_other.
    assert (exists sch, In (event_type, sch) KEY_SCHEME
                        /\ ~ In (category sch) rendered_kinds) as (sch & Hin & Hno).
    { unfold unrendered_events in Hev. simpl in Hev.
      destruct Hev as [<-|[<-|[<-|[<-|[]]]]];
        eexists (mkScheme _ _); (split; [simpl; tauto|]);
        unfold rendered_kinds; simpl; intuition discriminate. }
    destruct (single_key _ _ body key (or_intror Hin) Hkey) as (ds & _ & ->).
    rewrite kind_of_key
      by exact (scheme_category_no_colon _ _ (or_intror Hin)).
    destruct ds; [|exact Hno].
    unfold rendered_kinds; simpl; intuition discriminate.
  - intros event_type sch body key Hin Hev Hkey.
    destruct (single_key _ _ body key Hin Hkey) as (ds & Hlen & ->).
    rewrite kind_of_key by exact (scheme_category_no_colon _ _ Hin).
    simpl in Hin. unfold unrendered_events, rendered_kinds in *.
    repeat (destruct Hin as [[= <- <-]|Hin];
            [first [ exfalso; apply Hev; simpl; tauto
                   | destruct ds; [discriminate Hlen|]; simpl; tauto ]|]).
    destruct Hin.
Qed.

Lemma X25_witness :
  keys "issues" (issue_event 5 "opened" "Crash") = ["issue:5:opened"]
  /\ eval (Utils.build_embed 0 "issue:5:opened" (PyDict [("title", PyStr "Crash")])
             (Some "issues")) blank
     = Ok (other_event (PyDict [("title", PyStr "Crash")]) (Some "issues") 0).
Proof.
  split; [reflexivity|].
  apply (proj1 X25_four_event_types_share_the_generic_embed "issues"
           (issue_event 5 "opened" "Crash")).
  - unfold unrendered_events. simpl. tauto.
  - simpl. tauto.
Defined.

(** X26.  The one field of the generic embed carries the JSON of the record
    between the fences of a code block: the whole of it when it has at most
    1800 characters, else its first 1800 characters and a fixed tail.  The
    value of the field never has more than 1834 characters, and a cut
    payload gives exactly 1834. *)
Theorem X26_payload_field_is_cut_at_1800 :
  forall data : value,
    let json := Utils.of_string (Json.dumps data) in
    let shown := snd (fst (Utils.payload_field data)) in
    fst (fst (Utils.payload_field data)) = Utils.of_string "Event Payload"
    /\ snd (Utils.payload_field data) = false
    /\ (length json <= 1800 ->
        shown = Utils.of_string "```json" ++ Utils.newline ++ json
                ++ Utils.of_string "```"
        /\ length shown = length json + 11)
    /\ (1800 < length json ->
        firstn 1808 shown
        = Utils.of_string "```json" ++ Utils.newline ++ firstn 1800 json
        /\ skipn 1808 shown
           = Utils.of_string "..." ++ Utils.newline
             ++ Utils.of_string "```json" ++ Utils.newline
             ++ Utils.of_string "[Truncated]" ++ Utils.of_string "```"
        /\ length shown = 1834)
    /\ length shown <= 1834.
Proof.
  intros data json shown. subst shown. unfold Utils.payload_field.
  fold json. cbn [fst snd].
  assert (Hle : length json <= 1800 ->
                (1800 <? length json)%nat = false)
    by (intros; apply Nat.ltb_ge; lia).
  assert (Hgt : 1800 < length json -> (1800 <? length json)%nat = true)
    by (intros; apply Nat.ltb_lt; lia).
  assert (Hcut : 1800 < length json -> length (firstn 1800 json) = 1800)
    by (intros; rewrite length_firstn; lia).
  split; [reflexivity|]. split; [reflexivity|].
  split; [|split].
  - intros H. rewrite (Hle H). split; [reflexivity|].
    rewrite !length_app, !length_of_string.
    unfold Utils.newline. simpl. lia.
  - intros H. rewrite (Hgt H). rewrite <- !app_assoc.
    change (Utils.of_string "```json" ++ Utils.newline ++ ?r)
      with ((Utils.of_string "```json" ++ Utils.newline) ++ r).
    split; [|split].
    + change 1808
        with (length (Utils.of_string "```json" ++ Utils.newline) + 1800) at 1.
      rewrite firstn_app_2.
      rewrite firstn_app, (Hcut H), Nat.sub_diag, firstn_O, app_nil_r.
      by rewrite firstn_all2 by (rewrite (Hcut H); lia).
    + change 1808 with (8 + 1800).
      rewrite <- (drop_drop _ 1800 8).
      change (drop 8 ((Utils.of_string "```json" ++ Utils.newline) ++ ?r))
        with r.
      change (drop 1800 ?l) with (skipn 1800 l).
      rewrite skipn_app, (Hcut H), Nat.sub_diag.
      by rewrite skipn_all2 by (rewrite (Hcut H); lia).
    + rewrite !length_app, (Hcut H), !length_of_string.
      unfold Utils.newline. simpl. lia.
  - destruct (Nat.le_gt_cases (length json) 1800) as [H|H].
    + rewrite (Hle H), !length_app, !length_of_string.
      unfold Utils.newline. simpl. lia.
    + rewrite (Hgt H), !length_app, (Hcut H), !length_of_string.
      unfold Utils.newline. simpl. lia.
Qed.

Lemma X26_witness :
  (1800 <? length (Utils.of_string
                     (Json.dumps (PyList (repeat (PyInt 0) 400)))))%nat = true
  /\ length (snd (fst (Utils.payload_field (PyList (repeat (PyInt 0) 400)))))
     = 1834.
Proof.
  split; [vm_compute; reflexivity|].
  apply (X26_payload_field_is_cut_at_1800 (PyList (repeat (PyInt 0) 400))).
  apply Nat.ltb_lt. vm_compute. reflexivity.
Defined.

(** *** Which records [build_embed] renders *)

Lemma run_logging {A} lv msg (k : M A) st :
  (logging lv msg ;; k) st = k (set_log (log st ++ [(lv, msg)]) st).
Proof. reflexivity. Qed.

Lemma run_getM_dict {A} d key dflt (k : value -> M A) st :
  (x <- getM (PyDict d) key dflt ;; k x) st = k (field d key dflt) st.
Proof. reflexivity. Qed.

Lemma run_lift_Ok {A B} (x : A) (k : A -> M B) st :
  (y <- lift (Ok x) ;; k y) st = k x st.
Proof. reflexivity. Qed.

Lemma run_lift_Raise {A B} ex (k : A -> M B) st :
  (y <- lift (Raise ex) ;; k y) st = (Raise ex, st).
Proof. reflexivity. Qed.

Lemma capitalize_cases v :
  (is_str v = true /\ exists t, Utils.capitalize v = Ok t)
  \/ (is_str v = false /\ Utils.capitalize v = Raise AttributeError).
Proof.
  destruct v as [| | |[|c r]| |]; simpl; eauto.
Qed.

Lemma get_color_and_emoji_cases v :
  (is_str v = true /\ exists ce, Utils.get_color_and_emoji v = Ok ce)
  \/ (is_str v = false /\ Utils.get_color_and_emoji v = Raise AttributeError).
Proof.
  destruct v as [| | |s| |]; try (right; split; reflexivity).
  left. split; [reflexivity|]. unfold Utils.get_color_and_emoji.
  repeat (match goal with |- context [if ?b then _ else _] => destruct b end);
    eauto.
Qed.

Lemma slice_to_cases n v :
  (sliceable v = true /\ exists r, Utils.slice_to n v = Ok r)
  \/ (sliceable v = false /\ Utils.slice_to n v = Raise TypeError).
Proof. destruct v; simpl; eauto. Qed.

Ltac run :=
  repeat first
    [ rewrite run_logging
    | rewrite run_getM_dict
    | rewrite run_lift_Ok
    | rewrite run_lift_Raise
    | progress cbv beta zeta ].

Ltac cases :=
  repeat match goal with
  | |- context [Utils.capitalize ?v] =>
      let Hs := fresh "Hs" in let t := fresh "t" in let Ht := fresh "Ht" in
      destruct (capitalize_cases v) as [[Hs (t & Ht)]|[Hs Ht]]; rewrite Ht
  | |- context [Utils.get_color_and_emoji ?v] =>
      let Hs := fresh "Hs" in let t := fresh "t" in let Ht := fresh "Ht" in
      destruct (get_color_and_emoji_cases v) as [[Hs (t & Ht)]|[Hs Ht]]; rewrite Ht
  | |- context [Utils.slice_to ?n ?v] =>
      let Hs := fresh "Hs" in let t := fresh "t" in let Ht := fresh "Ht" in
      destruct (slice_to_cases n v) as [[Hs (t & Ht)]|[Hs Ht]]; rewrite Ht
  end.

Ltac settle_renders :=
  repeat match goal with
  | H : is_str _ = _ |- _ => rewrite H
  | H : sliceable _ = _ |- _ => rewrite H
  end;
  rewrite ?andb_false_r; reflexivity.

Ltac branch :=
  cbn [String.eqb Ascii.eqb Bool.eqb orb andb negb];
  unfold Utils.status_branch, Utils.ref_branch;
  match goal with
  | |- context [getM ?data _ _] =>
      destruct data;
      try (right; split; [reflexivity|]; eexists; split; [reflexivity|];
           intros; reflexivity)
  end;
  run; cases; run;
  unfold Utils.finish; run; unfold ret;
  try congruence;
  try (match goal with
       | H : is_str (PyStr _) = false |- _ => by simpl in H
       end);
  try (match goal with
       | H : is_str (if ?b then _ else _) = _ |- _ =>
           destruct b; simpl in H; congruence
       end);
  first
    [ left; split; [settle_renders|]; eexists; split; [reflexivity|];
      split; [by repeat split | reflexivity]
    | right; split; [settle_renders|]; eexists; split; [reflexivity|];
      let Hk := fresh in intros Hk; first [reflexivity | by destruct Hk] ].

Lemma build_embed_cases now key data hn st :
  let kind := fst (Utils.kind_ident key) in
  let st1 :=
    set_log (log st ++
             [(DEBUG, "build_embed called with kind='" +:+ kind +:+ "', ident='"
                      +:+ snd (Utils.kind_ident key) +:+ "', handler_name='"
                      +:+ default "None" hn +:+ "'")]) st in
  (renderable kind data = true
   /\ exists e,
        Utils.build_embed now key data hn st
        = (Ok e, set_log (log st1 ++
                          [(INFO, "Built embed for " +:+ logged_kind kind
                                  +:+ " event: " +:+ key)]) st1)
        /\ dressed now hn e
        /\ Utils.embed_fields e
           = (if existsb (String.eqb kind) rendered_kinds then []
              else [Utils.payload_field data]))
  \/ (renderable kind data = false
      /\ exists ex,
           Utils.build_embed now key data hn st = (Raise ex, st1)
           /\ (kind <> "commit_comment" -> ex = AttributeError)).
Proof.
  intros kind st1. subst st1 kind. unfold Utils.build_embed. cbv zeta.
  generalize (snd (Utils.kind_ident key)) as ident.
  generalize (fst (Utils.kind_ident key)) as kind. intros kind ident.
  unfold renderable, renders, logged_kind, rendered_kinds, existsb.
  repeat match goal with
  | |- context [String.eqb kind ?n] =>
      let E := fresh "E" in
      destruct (String.eqb kind n) eqn:E;
      [apply String.eqb_eq in E; subst kind; solve [branch] | cbv iota]
  end.
  left. split; [by destruct data|].
  eexists. split; [reflexivity|]. split; [by repeat split | reflexivity].
Qed.

(** X27.  [build_embed] returns an embed exactly when the record is usable
    by the branch of the key's kind.  A branch of a known kind needs a dict
    (it calls [data.get]); the members it capitalizes or lower-cases (the
    action of a pull request that is not merged, of a release, a repository,
    a watch, a member; the status of a check or workflow, or its conclusion
    once the status is "completed"; the ref type of a create or delete) have
    to be strings, and the two members a commit comment slices have to take
    a slice.  The branches "push", "issue_comment" and "fork" take any dict,
    and the last branch takes any value.  A record that is not usable makes
    [build_embed] raise, with [AttributeError] in every branch but that of
    the commit comment. *)
Theorem X27_build_embed_fails_exactly_on_unusable_members :
  forall (now : Z) (key : string) (data : value)
         (handler_name : option string) (st : state),
    let kind := fst (Utils.kind_ident key) in
    ((exists e, eval (Utils.build_embed now key data handler_name) st = Ok e)
     <-> renderable kind data = true)
    /\ (renderable kind data = false ->
        exists ex,
          eval (Utils.build_embed now key data handler_name) st = Raise ex
          /\ (kind <> "commit_comment" -> ex = AttributeError))
    /\ (is_dict data = true ->
        In kind ["push"; "issue_comment"; "fork"] ->
        renderable kind data = true)
    /\ (~ In kind rendered_kinds -> renderable kind data = true).
Proof.
  intros now key data hn st kind.
  destruct (build_embed_cases now key data hn st)
    as [(Hr & e & He & _)|(Hr & ex & Hex & Hk)]; fold kind in Hr.
  - unfold eval. rewrite He. cbn [fst]. split; [split; eauto|].
    split; [congruence|]. split.
    + intros _ Hin. exact Hr.
    + intros _. exact Hr.
  - unfold eval. rewrite Hex. cbn [fst]. split.
    { split; [intros [e [=]] | congruence]. }
    split; [intros _; exists ex; by split|].
    split.
    + intros Hd Hin. destruct data; try discriminate Hd.
      simpl in Hin, Hr. exfalso.
      destruct Hin as [E|[E|[E|[]]]]; rewrite <- E in Hr; discriminate Hr.
    + intros Hno. exfalso. clear Hex Hk.
      assert (Hn : forall n, In n rendered_kinds -> String.eqb kind n = false).
      { intros n Hin. apply String.eqb_neq. intros E. apply Hno.
        by rewrite E. }
      unfold renderable, renders, rendered_kinds, existsb in Hr.
      destruct data;
        rewrite ?Hn in Hr by (unfold rendered_kinds; simpl; tauto);
        simpl in Hr; discriminate Hr.
Qed.

Lemma X27_witness :
  renderable "pull_request" pull_request_without_action = false
  /\ exists ex,
       eval (Utils.build_embed 0 "pull_request:7" pull_request_without_action
               (Some "pull_request")) blank = Raise ex
       /\ ("pull_request" <> "commit_comment" -> ex = AttributeError).
Proof.
  split; [reflexivity|].
  exact (proj1 (proj2 (X27_build_embed_fails_exactly_on_unusable_members
                         0 "pull_request:7" pull_request_without_action
                         (Some "pull_request") blank)) eq_refl).
Defined.

(** X28.  Whatever the key and the record, [build_embed] changes nothing
    but the log: it adds its DEBUG line and, when it returns, one INFO line
    "Built embed for <kind> event: <key>" (the kind being "other" in the
    last branch); when it raises, the DEBUG line is all it leaves.  The
    embed it returns always has the author "GitHub Watcher", the time stamp
    of the call, a title and a description, the footer "Handled by: ..."
    exactly when a non-empty handler name was given, and no field unless it
    is the generic embed, which has the one field of the payload. *)
Theorem X28_build_embed_dresses_the_embed_and_only_logs :
  forall (now : Z) (key : string) (data : value)
         (handler_name : option string) (st : state),
    let kind := fst (Utils.kind_ident key) in
    exists line : string,
      match Utils.build_embed now key data handler_name st with
      | (Ok e, st') =>
          dressed now handler_name e
          /\ Utils.embed_fields e
             = (if existsb (String.eqb kind) rendered_kinds then []
                else [Utils.payload_field data])
          /\ st' = set_log (log st ++
                            [(DEBUG, line);
                             (INFO, "Built embed for " +:+ logged_kind kind
                                    +:+ " event: " +:+ key)]) st
      | (Raise _, st') => st' = set_log (log st ++ [(DEBUG, line)]) st
      end.
Proof.
  intros now key data hn st kind. eexists.
  destruct (build_embed_cases now key data hn st)
    as [(_ & e & He & Hd & Hf)|(_ & ex & Hex & _)].
  - rewrite He. split; [exact Hd|]. split; [exact Hf|].
    cbn [log set_log]. by rewrite <- app_assoc.
  - rewrite Hex. reflexivity.
Qed.

(** *** The records the renderer is given *)

Lemma records_are_dicts_set key record st :
  records_are_dicts st ->
  forall k v, dict_lookup k (dict_set key (PyDict record) (DATA_STORE st)) = Some v ->
              is_dict v = true.
Proof.
  intros H k v. rewrite dict_lookup_set.
  destruct (String.eqb key k); [by intros [= <-] | apply H].
Qed.

Lemma records_are_dicts_update key record :
  keeps records_are_dicts (update_data_store key (PyDict record)).
Proof.
  intros st H. unfold records_are_dicts. unfold_store. unfold_monad. simpl.
  destruct (disk st) as [|[|?] ?]; simpl; by apply records_are_dicts_set.
Qed.

Lemma inbound_safe_records : inbound_safe records_are_dicts.
Proof.
  split; [by intros lv msg st H|]. split.
  - intros key record hn _. apply keeps_bind;
      [apply records_are_dicts_update | by intros _ st H].
  - intros key record lv msg hn _. apply keeps_bind;
      [apply records_are_dicts_update | intros _].
    apply keeps_bind; by intros; intros st H.
Qed.

Lemma outbound_safe_records key : outbound_safe key records_are_dicts.
Proof.
  split; [by intros lv msg st H|]. split; [by intros c st H|].
  intros id st H. unfold records_are_dicts. unfold_store. unfold_monad. simpl.
  by destruct (disk st) as [|[|?] ?].
Qed.

Lemma records_are_dicts_assign {A} handlers name info member v (r : A) :
  keeps records_are_dicts
    (bind (assign_in_place handlers name info member v) (fun h =>
     bind (update_data_store "handlers" h) (fun _ => ret r))).
Proof.
  intros st H. unfold assign_in_place.
  destruct handlers as [| | | | |hs]; try exact H.
  destruct info as [| | | | |entry]; try exact H.
  unfold records_are_dicts. unfold_store. unfold_monad. simpl.
  assert (Hset : forall k x,
            dict_lookup k
              (dict_set "handlers"
                 (PyDict (dict_set name (PyDict (dict_set member v entry)) hs))
                 (dict_set "handlers"
                    (PyDict (dict_set name (PyDict (dict_set member v entry)) hs))
                    (DATA_STORE st))) = Some x -> is_dict x = true).
  { intros k x. rewrite !dict_lookup_set.
    destruct (String.eqb "handlers" k); [by intros [= <-] | apply H]. }
  assert (Hone : forall k x,
            dict_lookup k
              (dict_set "handlers"
                 (PyDict (dict_set name (PyDict (dict_set member v entry)) hs))
                 (DATA_STORE st)) = Some x -> is_dict x = true).
  { intros k x. rewrite !dict_lookup_set.
    destruct (String.eqb "handlers" k); [by intros [= <-] | apply H]. }
  destruct (disk st) as [|[|?] ?]; simpl; done.
Qed.

Lemma records_are_dicts_run_operations config ops :
  keeps records_are_dicts (run_operations config ops).
Proof.
  induction ops as [|op ops IH]; simpl; [apply keeps_ret|].
  apply keeps_bind; [|intros _; exact IH].
  destruct op as [ev|name|name cid|w]; simpl.
  - apply keeps_deliver.
    + apply inbound_safe_records.
    + apply outbound_safe_records.
    + by intros st H.
  - apply keeps_settle. unfold togglehandler. cbv zeta.
    apply keeps_bind; [by intros st H | intros store].
    apply keeps_bind; [apply keeps_lift | intros handlers].
    apply keeps_bind; [apply keeps_lift | intros [info|]]; [|apply keeps_ret].
    apply keeps_bind; [apply keeps_lift | intros current].
    apply records_are_dicts_assign.
  - apply keeps_settle. unfold sethandlerchannel. cbv zeta.
    apply keeps_bind; [by intros st H | intros store].
    apply keeps_bind; [apply keeps_lift | intros handlers].
    apply keeps_bind; [apply keeps_lift | intros [info|]]; [|apply keeps_ret].
    apply records_are_dicts_assign.
  - apply keeps_settle, keeps_listhandlers. by intros c st H.
Qed.

(** X29.  What the handlers and the commands put in the Record Store are
    dicts: if every value of the store is a dict to begin with, every value
    is one after any sequence of deliveries and commands, whatever the
    payloads, the disk and the Discord client do.  So the record that
    [send_or_edit] hands to [build_embed] for any key is a dict; the
    renderer fails on it only when a member it uses as text is not a string
    (or, for a commit comment, cannot be sliced), and it cannot fail on the
    record of a push, an issue comment or a fork, nor on a key whose kind
    has no branch. *)
Theorem X29_stored_records_are_dicts :
  forall (config : Config) (ops : list operation) (st : state),
    records_are_dicts st ->
    let st' := exec (run_operations config ops) st in
    records_are_dicts st'
    /\ forall (key : string) (now : Z) (handler_name : option string)
              (st2 : state),
         let kind := fst (Utils.kind_ident key) in
         exists d,
           record_for (DATA_STORE st') key = PyDict d
           /\ ((exists e, eval (Utils.build_embed now key (PyDict d)
                                 handler_name) st2 = Ok e)
               <-> renders kind d = true)
           /\ (In kind ["push"; "issue_comment"; "fork"]
               \/ ~ In kind rendered_kinds ->
               exists e, eval (Utils.build_embed now key (PyDict d)
                                 handler_name) st2 = Ok e).
Proof.
  intros config ops st H st'. subst st'.
  pose proof (records_are_dicts_run_operations config ops st H) as H'.
  split; [exact H'|]. intros key now hn st2 kind.
  assert (exists d, record_for (DATA_STORE (exec (run_operations config ops) st))
                      key = PyDict d) as [d Hd].
  { unfold record_for.
    destruct (dict_lookup key _) as [v|] eqn:E; [|by exists []].
    specialize (H' _ _ E). destruct v; try discriminate H'. by eexists. }
  exists d. split; [exact Hd|].
  destruct (build_embed_cases now key (PyDict d) hn st2)
    as [(Hr & e & He & _)|(Hr & ex & Hex & _)]; fold kind in Hr;
    cbn [renderable] in Hr; unfold eval.
  - rewrite He. cbn [fst]. split; [split; eauto | eauto].
  - rewrite Hex. cbn [fst]. split.
    { split; [intros [e [=]] | congruence]. }
    intros Hk. exfalso. revert Hr. generalize kind Hk. clear.
    intros kind [Hin|Hno].
    + simpl in Hin. destruct Hin as [<-|[<-|[<-|[]]]]; discriminate.
    + assert (Hn : forall n, In n rendered_kinds -> String.eqb kind n = false).
      { intros n Hin. apply String.eqb_neq. intros E. apply Hno.
        by rewrite E. }
      unfold renders, existsb.
      rewrite ?Hn by (unfold rendered_kinds; simpl; tauto).
      simpl. discriminate.
Qed.

Lemma X29_witness :
  records_are_dicts (started [])
  /\ records_are_dicts
       (exec (run_operations default_config
                [Delivers (mkDelivery "push" push_abc (smooth 5) 5 false);
                 TogglesHandler "push"]) (started [])).
Proof.
  assert (H : records_are_dicts (started [])).
  { intros k v Hk. unfold started in Hk. cbn [DATA_STORE] in Hk.
    unfold routing_sample in Hk. cbn [dict_lookup] in Hk.
    destruct (String.eqb "handlers" k); [by injection Hk as <- | discriminate]. }
  split; [exact H|].
  exact (proj1 (X29_stored_records_are_dicts default_config
                  [Delivers (mkDelivery "push" push_abc (smooth 5) 5 false);
                   TogglesHandler "push"] (started []) H)).
Defined.

(* ===================================================================== *)
(** ** [send_or_edit] as a coroutine *)
(* ===================================================================== *)

(** Run without another coroutine in between, the coroutine is the
    computation [send_or_edit] of the core: same result, same state. *)
Lemma uninterrupted_send_or_edit config w key handler_name st :
  Coroutine.uninterrupted config w key handler_name st
  = (Ended (eval (send_or_edit config w key handler_name) st),
     exec (send_or_edit config w key handler_name) st).
Proof.
  unfold Coroutine.uninterrupted, Coroutine.send_or_edit, Coroutine.before_try,
    send_or_edit, exec, eval.
  unfold_monad. simpl.
  destruct (get (default empty_dict (dict_lookup "handlers" (DATA_STORE st)))
              (split_head key) empty_dict) as [hc|]; simpl; [|reflexivity].
  destruct (get hc "enabled" (PyBool false)) as [en|]; simpl; [|reflexivity].
  destruct (truthy en); simpl; [|reflexivity].
  destruct (build_embed w key _ handler_name) as [e|]; simpl; [|reflexivity].
  destruct (get hc "channel_id" _) as [cid|]; simpl; [|reflexivity].
  destruct (get_channel w cid) as [ch|]; simpl; [|reflexivity].
  unfold Coroutine.send_or_edit_body, send_or_edit_body, Coroutine.send_new,
    Coroutine.await, Coroutine.finish, Coroutine.resume, Coroutine.answer,
    outer_handler.
  unfold_store. unfold_monad. simpl.
  destruct (dict_lookup key (MESSAGE_MAP st)) as [mid|]; simpl;
    repeat first
      [ reflexivity
      | match goal with
        | |- context [fetch_message w ch ?m] =>
            destruct (fetch_message w ch m) as [[]|[]]; simpl
        | |- context [edit w ch ?m e] =>
            destruct (edit w ch m e) as [[]|[]]; simpl
        | |- context [send w ch e] => destruct (send w ch e) as [?|?]; simpl
        | |- context [disk st] => destruct (disk st) as [|[|?] ?]; simpl
        | |- context [is_HTTPException ?x] =>
            destruct (is_HTTPException x); simpl
        end ].
Qed.


(* ===================================================================== *)
(** ** What a handler comes to on a well-shaped payload *)
(* ===================================================================== *)

Lemma for_each_logging lines st :
  for_each lines (logging INFO) st
  = (Ok tt, set_log (log st ++ List.map (fun l => (INFO, l)) lines) st).
Proof.
  revert st. induction lines as [|l lines IH]; intros st.
  - simpl. rewrite app_nil_r. by destruct st.
  - cbn [for_each List.map]. unfold bind, logging at 1. rewrite IH. simpl.
    by rewrite <- app_assoc.
Qed.

Lemma follow_one d m dflt : follow (PyDict d) [m] dflt = Ok (field d m dflt).
Proof. reflexivity. Qed.

Lemma follow_cons d m m' rest dflt :
  follow (PyDict d) (m :: m' :: rest) dflt
  = follow (field d m empty_dict) (m' :: rest) dflt.
Proof. reflexivity. Qed.

Lemma run_pure {A B} (m : M A) (k : A -> M B) v st :
  (forall s, m s = (Ok v, s)) -> (x <- m ;; k x) st = k v st.
Proof. intros H. unfold bind. by rewrite H. Qed.

Lemma schedule_plain event_type k k' v r st :
  v = PyDict r -> k' = k ->
  (update_data_store k v ;; run_coroutine_threadsafe k (Some event_type)) st
  = store_and_schedule event_type k' r [] st.
Proof.
  intros -> ->. unfold store_and_schedule. unfold_store. unfold_monad. simpl.
  by destruct (disk st) as [|[|?] ?].
Qed.

Lemma schedule_logged event_type k k' v r line st :
  v = PyDict r -> k' = k ->
  (update_data_store k v ;; logging INFO line ;;
   run_coroutine_threadsafe k (Some event_type)) st
  = store_and_schedule event_type k' r [line] st.
Proof.
  intros -> ->. unfold store_and_schedule. unfold_store. unfold_monad. simpl.
  by destruct (disk st) as [|[|?] ?].
Qed.

Ltac known_objects :=
  repeat match goal with
  | H : field _ _ empty_dict = PyDict _ |- _ => rewrite H
  end.

Ltac read_members :=
  repeat (progress (cbn [discriminator record_of fields category];
                    rewrite ?follow_cons, ?follow_one; known_objects)).

Ltac run_handler :=
  repeat (progress (rewrite ?run_getM_dict; cbv beta zeta; known_objects)).

(** On a payload in which every member that the handlers dereference is
    missing or an object, the handler of an event type with one key per
    event (workflow_run, with its filter, apart) comes to this: it stores,
    under the key of the Canonical Key Scheme, a record that for the event
    types of [RECORD_SCHEME] is the one the table gives, and then queues the
    sync call for that key. *)
Lemma handler_normal_form event_type sch h d :
  In (event_type, sch) KEY_SCHEME -> stores_always event_type = true ->
  handler_of event_type EVENT_HANDLERS = Some h ->
  shaped (PyDict d) = true ->
  exists ds r lines,
    discriminator (fields sch) (PyDict d) = Ok ds
    /\ (forall members, In (event_type, members) RECORD_SCHEME ->
          record_of members (PyDict d) = Ok r)
    /\ forall st,
         h (PyDict d) st
         = store_and_schedule event_type (key_of (category sch) ds) r lines st.
Proof.
  intros Hin Hst Hh Hs.
  destruct (sender_of_dict d Hs) as [sender Hsender].
  destruct (shaped_object d "check_run" Hs eq_refl) as (o1 & Ho1 & _).
  destruct (shaped_object d "check_suite" Hs eq_refl) as (o2 & Ho2 & Hs2).
  destruct (shaped_object d "workflow_job" Hs eq_refl) as (o3 & Ho3 & Hs3).
  destruct (shaped_object d "pull_request" Hs eq_refl) as (o4 & Ho4 & _).
  destruct (shaped_object d "review" Hs eq_refl) as (o5 & Ho5 & Hs5).
  destruct (shaped_object d "comment" Hs eq_refl) as (o6 & Ho6 & Hs6).
  destruct (shaped_object d "issue" Hs eq_refl) as (o7 & Ho7 & _).
  destruct (shaped_object d "sender" Hs eq_refl) as (o8 & Ho8 & _).
  destruct (shaped_object d "repository" Hs eq_refl) as (o9 & Ho9 & Hs9).
  destruct (shaped_object d "forkee" Hs eq_refl) as (o10 & Ho10 & _).
  destruct (shaped_object d "release" Hs eq_refl) as (o11 & Ho11 & _).
  destruct (shaped_object d "member" Hs eq_refl) as (o12 & Ho12 & _).
  destruct (shaped_object o2 "repository" Hs2 eq_refl) as (o13 & Ho13 & _).
  destruct (shaped_object o3 "repository" Hs3 eq_refl) as (o14 & Ho14 & _).
  destruct (shaped_object o5 "user" Hs5 eq_refl) as (o15 & Ho15 & _).
  destruct (shaped_object o6 "user" Hs6 eq_refl) as (o16 & Ho16 & _).
  destruct (shaped_object o9 "owner" Hs9 eq_refl) as (o17 & Ho17 & _).
  simpl in Hin.
  repeat (destruct Hin as [[= <- <-]|Hin]); try contradiction;
    try discriminate Hst; simpl in Hh; injection Hh as <-.
  all: do 3 eexists; split; [read_members; reflexivity|].
  all: split;
    [|intros st;
      unfold handle_check_run, handle_check_suite, handle_workflow_job,
        handle_pull_request, handle_pull_request_review,
        handle_pull_request_review_comment, handle_issues,
        handle_issue_comment, handle_create, handle_delete, handle_fork,
        handle_release, handle_watch, handle_member, handle_public,
        handle_repository, handle_commit_comment;
      run_handler;
      rewrite ?(run_pure _ _ _ _ Hsender); run_handler;
      first [ eapply schedule_plain; reflexivity
            | eapply schedule_logged; reflexivity ]].
  all: intros members Hm; simpl in Hm;
    repeat (destruct Hm as [Hm|Hm];
            [try discriminate Hm; injection Hm as <-|]);
    try contradiction; read_members; reflexivity.
Qed.

Lemma store_and_schedule_returns event_type k r lines st :
  write_ok st = true ->
  let st' := exec (store_and_schedule event_type k r lines) st in
  eval (store_and_schedule event_type k r lines) st = Ok tt
  /\ DATA_STORE st' = dict_set k (PyDict r) (DATA_STORE st)
  /\ loop st' = loop st ++ [(k, Some event_type)]
  /\ MESSAGE_MAP st' = MESSAGE_MAP st /\ calls st' = calls st
  /\ (healthy st -> healthy st').
Proof.
  intros Hok.
  assert (exists st1,
            update_data_store k (PyDict r) st = (Ok tt, st1)
            /\ DATA_STORE st1 = dict_set k (PyDict r) (DATA_STORE st)
            /\ loop st1 = loop st /\ MESSAGE_MAP st1 = MESSAGE_MAP st
            /\ calls st1 = calls st /\ (healthy st -> healthy st1))
    as (st1 & Hu & H1 & H2 & H3 & H4 & H5).
  { unfold_store. unfold_monad. simpl. unfold healthy.
    destruct (write_ok_cases st Hok) as [Hd|[coming Hd]]; rewrite Hd; simpl;
      eexists; (split; [reflexivity|]); simpl; repeat split; try done.
    intros H. by apply healthy_tail in H as [_ H]. }
  unfold store_and_schedule, exec, eval, bind.
  rewrite Hu, for_each_logging. simpl. by rewrite H1, H2, H3, H4.
Qed.

Lemma store_and_schedule_fails event_type k r lines st left_on_disk coming :
  disk st = WriteFails left_on_disk :: coming ->
  let st' := exec (store_and_schedule event_type k r lines) st in
  eval (store_and_schedule event_type k r lines) st = Raise OSError
  /\ DATA_STORE st' = dict_set k (PyDict r) (DATA_STORE st)
  /\ loop st' = loop st /\ log st' = log st /\ disk st' = coming.
Proof.
  intros Hd. unfold store_and_schedule, exec, eval, bind.
  unfold_store. unfold_monad. simpl. rewrite Hd. simpl. by repeat split.
Qed.

Lemma handle_event_handler event_type h payload st :
  handler_of event_type EVENT_HANDLERS = Some h ->
  handle_event event_type payload st
  = h payload (set_log (log st ++ [(INFO, "Handling event: " +:+ event_type)])
                       st).
Proof. intros H. unfold handle_event. by rewrite H. Qed.

(** The route on a payload that is an object. *)
Lemma github_webhook_dict event_type d st :
  github_webhook event_type (PyDict d) st
  = (logging INFO ("Received event: " +:+ event_type) ;;
     logging DEBUG ("Payload: " +:+ Json.dumps (PyDict d)) ;;
     try_except (handle_event event_type (PyDict d))
       (fun e => Some (logging ERROR ("Error handling event '" +:+ event_type
                                      +:+ "': " +:+ exn_str e))) ;;
     ret ("OK", 200%Z)) st.
Proof. unfold github_webhook. by destruct d. Qed.

Lemma github_webhook_handler event_type h d st :
  handler_of event_type EVENT_HANDLERS = Some h ->
  exec (github_webhook event_type (PyDict d)) st
  = match h (PyDict d) (at_handler event_type d st) with
    | (Ok _, st1) => st1
    | (Raise e, st1) =>
        set_log (log st1 ++ [(ERROR, "Error handling event '" +:+ event_type
                                     +:+ "': " +:+ exn_str e)]) st1
    end.
Proof.
  intros Hh. unfold exec. rewrite github_webhook_dict.
  unfold bind at 1, logging at 1. unfold bind at 1, logging at 1.
  unfold bind at 1, try_except. rewrite (handle_event_handler _ _ _ _ Hh).
  cbn [log set_log]. rewrite <- !app_assoc. cbn [app]. unfold at_handler.
  replace (set_log _ (set_log _ (set_log _ st)))
    with (set_log (log st ++ [(INFO, "Received event: " +:+ event_type);
                              (DEBUG, "Payload: " +:+ Json.dumps (PyDict d));
                              (INFO, "Handling event: " +:+ event_type)]) st)
    by reflexivity.
  by destruct (h (PyDict d) _) as [[[]|ex] st1].
Qed.

(** A member read through a missing object, or itself missing, reads as its
    default. *)
Lemma follow_empty path dflt :
  path <> [] -> follow (PyDict []) path dflt = Ok dflt.
Proof.
  induction path as [|m [|m' rest] IH]; intros H; [done | done |].
  rewrite follow_cons. apply IH. discriminate.
Qed.

Lemma follow_missing d m rest dflt :
  dict_lookup m d = None -> follow (PyDict d) (m :: rest) dflt = Ok dflt.
Proof.
  intros H. destruct rest as [|m' rest].
  - rewrite follow_one. unfold field. by rewrite H.
  - rewrite follow_cons. unfold field. rewrite H. by apply follow_empty.
Qed.

(* ===================================================================== *)
(** ** A payload without its core object *)
(* ===================================================================== *)



(* ===================================================================== *)
(** ** Disabled routing *)
(* ===================================================================== *)

(** What the inbound path leaves alone, for one request. *)
Lemma github_webhook_untouched event_type body st :
  untouched_by_inbound st (exec (github_webhook event_type body) st).
Proof.
  apply (keeps_github_webhook (untouched_by_inbound st) event_type body
           (inbound_safe_untouched st)).
  by repeat split.
Qed.

(** A delivery whose queued keys are all in disabled categories: the loop
    only logs. *)
Lemma deliver_only_stores config w event_type body st :
  (forall job, In job (loop (exec (github_webhook event_type body) st)) ->
     disabled (DATA_STORE st) (category_of (fst job)) = true) ->
  let st1 := exec (github_webhook event_type body) st in
  let st' := exec (deliver config w event_type body) st in
  DATA_STORE st' = DATA_STORE st1
  /\ calls st' = calls st /\ MESSAGE_MAP st' = MESSAGE_MAP st /\ loop st' = [].
Proof.
  intros Hdis st1 st'. subst st1 st'.
  destruct (github_webhook_untouched event_type body st) as (Hm & Hc & Hh).
  pose proof (github_webhook_total event_type body st) as Ht.
  unfold deliver, exec, eval, bind, run_loop in *.
  destruct (github_webhook event_type body st) as [[r|ex] st1]; simpl in *;
    [|discriminate].
  destruct (run_all_disabled config w (loop st1) (set_loop [] st1))
    as [entries ->].
  - intros job Hj. simpl.
    rewrite (disabled_ext _ (DATA_STORE st) _ Hh). by apply Hdis.
  - simpl. by repeat split.
Qed.

Lemma category_of_push_key c : category_of (push_key c) = "push".
Proof.
  unfold category_of, push_key.
  change ("push:" +:+ ?x) with ("push" +:+ String ":"%char x).
  by apply split_head_app.
Qed.



(* ===================================================================== *)
(** ** Persistence: a write that fails *)
(* ===================================================================== *)


